(** * flash: route table, route matcher, middleware chains and request context

    A shallow embedding of [app/router.go] (registration, [findRoute],
    [matchRoute], [pathExistsWithDifferentMethod], the dispatch of
    [ServeHTTP] / [ServeFastHTTP], [newFastChain]) and of the [ctx] package's
    [DefaultContext] ([Reset], [ResetFastHTTP], [resetCommon], the accessors
    and the response writers).

    Conventions of the embedding:
    - a Go [string] is a [string] (a sequence of bytes); an index into a Go
      string that only moves forward is the suffix that starts there;
    - a Go [map[string]T] is a [gmap string T]; a [range] loop over a map
      visits the entries in an order Go leaves unspecified (and that may
      differ from one loop to the next), so every such loop takes the list
      it visits as an argument, and the theorems ask it to be a permutation
      of [map_to_list] of the map;
    - a [nil] slice or pointer is [None];
    - a Go panic (nil dereference, a status [WriteHeader] refuses) is the
      [Panic] outcome;
    - a string that [ServeFastHTTP] builds over fasthttp's request buffer
      without a copy is a [string] while the request runs; that the buffer
      is written again afterwards is a step of its own ([bufferReuse]). *)

From Stdlib Require Import Ascii String ZArith Lia DecimalString.
From stdpp Require Import base gmap strings list fin_maps.


(** ** Strings: the functions of package [strings] that the router calls *)

Module Str.

(** [strings.HasPrefix(s, prefix)] *)
Fixpoint HasPrefix (s prefix : string) {struct prefix} : bool :=
  match prefix, s with
  | EmptyString, _ => true
  | String p prefix', String c s' => Ascii.eqb c p && HasPrefix s' prefix'
  | String _ _, EmptyString => false
  end.

Fixpoint drop (n : nat) (s : string) : string :=
  match n, s with
  | S n', String _ s' => drop n' s'
  | _, _ => s
  end.

(** [strings.TrimPrefix(s, prefix)] *)
Definition TrimPrefix (s prefix : string) : string :=
  if HasPrefix s prefix then drop (String.length prefix) s else s.

(** membership of a byte in a string *)
Fixpoint contains (c : ascii) (s : string) : bool :=
  match s with
  | EmptyString => false
  | String d s' => Ascii.eqb d c || contains c s'
  end.

(** [strings.ContainsAny(s, chars)], for chars made of ASCII bytes *)
Fixpoint ContainsAny (s chars : string) : bool :=
  match s with
  | EmptyString => false
  | String c s' => contains c chars || ContainsAny s' chars
  end.

(** [strings.SplitN(s, ":", 2)]: one part when [s] has no colon, else the
    text before the first colon and the text after it. *)
Fixpoint SplitColon2 (s : string) : list string :=
  match s with
  | EmptyString => [EmptyString]
  | String c s' =>
      if Ascii.eqb c ":" then [EmptyString; s']
      else match SplitColon2 s' with
           | [a] => [String c a]
           | a :: rest => String c a :: rest
           | [] => []
           end
  end.

End Str.

(** A method that can be told apart from the path in a [method:path] key:
    it holds no colon (HTTP methods are tokens, which exclude [':']). *)
Definition colon_free (m : string) : Prop := Str.contains ":" m = false.

(** ** The route matcher *)

(** [router.Param] of httprouter. *)
Record Param := { Key : string; Value : string }.

(** [containsParams]: the [range] over the string decodes runes, and no
    multi-byte rune contains the byte of [':'] or ['*'], so the test is the
    byte-wise one. *)
Fixpoint containsParams (path : string) : bool :=
  match path with
  | EmptyString => false
  | String char path' =>
      if Ascii.eqb char ":" || Ascii.eqb char "*" then true
      else containsParams path'
  end.

(** The inner loops [for idx < len && s[idx] != '/' { idx++ }]: the segment
    read and the suffix left at the new index. *)
Fixpoint segment (s : string) : string * string :=
  match s with
  | EmptyString => (EmptyString, EmptyString)
  | String c s' =>
      if Ascii.eqb c "/" then (EmptyString, s)
      else let '(seg, rest) := segment s' in (String c seg, rest)
  end.

(** [if idx < len && s[idx] == '/' { idx++ }] *)
Definition skipSlash (s : string) : string :=
  match s with
  | String c s' => if Ascii.eqb c "/" then s' else s
  | EmptyString => s
  end.

Definition nonEmpty (s : string) : bool :=
  match s with EmptyString => false | String _ _ => true end.

(** The main loop of [matchRoute], on the suffixes of pattern and path at
    [patternIdx] and [pathIdx]. Every round moves [patternIdx] forward, so
    the length of the pattern bounds the number of rounds; [fuel] is that
    bound ([matchLoop_fuel] below shows the result does not depend on it). *)
Fixpoint matchLoop (fuel : nat) (pattern path : string) (params : list Param)
  : option (list Param) :=
  match fuel with
  | O => None
  | S fuel' =>
      if nonEmpty pattern && nonEmpty path then
        let '(patternSeg, patternRest) := segment pattern in
        let '(pathSeg, pathRest) := segment path in
        match patternSeg with
        | String c paramName =>
            if Ascii.eqb c "*" then
              Some (params ++ [ {| Key := paramName; Value := path |} ])
            else if Ascii.eqb c ":" then
              matchLoop fuel' (skipSlash patternRest) (skipSlash pathRest)
                        (params ++ [ {| Key := paramName; Value := pathSeg |} ])
            else if negb (String.eqb patternSeg pathSeg) then None
            else matchLoop fuel' (skipSlash patternRest) (skipSlash pathRest) params
        | EmptyString =>
            if negb (String.eqb patternSeg pathSeg) then None
            else matchLoop fuel' (skipSlash patternRest) (skipSlash pathRest) params
        end
      else if nonEmpty pattern || nonEmpty path then None
      else Some params
  end.

(** [matchRoute]: [None] is the nil slice, [Some l] a non-nil one. *)
Definition matchRoute (pattern path : string) : option (list Param) :=
  if String.eqb pattern path then None
  else if negb (Str.ContainsAny pattern ":*") then None
  else matchLoop (S (String.length pattern)) (skipSlash pattern) (skipSlash path) [].

(** ** The matcher as the specification words it

    A pattern is a sequence of segments, each a literal, a named capture or
    a wildcard capture; a path is a sequence of segments. [specMatch] walks
    both, segment by segment, as section 4.1 of the specification tells it;
    [matchRoute] is compared with it on the texts the sequences stand for. *)

Inductive Segment :=
| Literal (text : string)
| Named (name : string)
| Wildcard (name : string).

Definition segmentText (g : Segment) : string :=
  match g with
  | Literal t => t
  | Named n => String ":" n
  | Wildcard n => String "*" n
  end.

Fixpoint joinSlash (l : list string) : string :=
  match l with
  | [] => ""
  | [s] => s
  | s :: rest => s +:+ "/" +:+ joinSlash rest
  end.

(** What follows the first segment of a joined list: nothing, or a slash
    and the rest. *)
Definition afterFirst (l : list string) : string :=
  match l with
  | [] => ""
  | _ => "/" +:+ joinSlash l
  end.

Definition renderPath (l : list string) : string := "/" +:+ joinSlash l.

Definition renderPattern (pat : list Segment) : string :=
  renderPath (segmentText <$> pat).

Fixpoint specMatch (pat : list Segment) (path : list string) : option (list Param) :=
  match pat, path with
  | [], [] => Some []
  | Wildcard n :: _, _ :: _ => Some [ {| Key := n; Value := joinSlash path |} ]
  | Named n :: pat', s :: path' =>
      cons {| Key := n; Value := s |} <$> specMatch pat' path'
  | Literal t :: pat', s :: path' =>
      if String.eqb t s then specMatch pat' path' else None
  | _, _ => None
  end.

Definition slashFree (s : string) : bool := negb (Str.contains "/" s).

(** A segment of a pattern: no slash inside, and a literal is not empty and
    does not start like a capture. *)
Definition segmentOk (g : Segment) : bool :=
  slashFree (segmentText g) &&
  match g with
  | Literal (String c _) => negb (Ascii.eqb c ":") && negb (Ascii.eqb c "*")
  | Literal EmptyString => false
  | _ => true
  end.

(** The segments of a path: no slash inside, and the last one is not empty
    (a path that ends in a slash has no segment after the slash). *)
Fixpoint pathOk (l : list string) : bool :=
  match l with
  | [] => true
  | [s] => slashFree s && nonEmpty s
  | s :: rest => slashFree s && pathOk rest
  end.

(** ** Handlers, middleware and compiled chains *)

Definition Err := string.

Section Router.

(** What a handler acts on: the request context handed to it together with
    whatever state its closure captures. A handler returns the state it
    leaves and its [error] ([None] is the nil error). *)
Context {W : Type}.

Definition Handler := W -> W * option Err.
Definition Middleware := Handler -> Handler.
Definition ErrorHandler := W -> Err -> W.

Record FastChain := { exec : Handler }.

Definition Execute (fc : FastChain) (c : W) : W * option Err := exec fc c.

(** The loop of the default case of [newFastChain]:
    [for i := len(middlewares) - 1; i >= 0; i-- { exec = middlewares[i](exec) }],
    entered with [i = len(middlewares)] rounds left. *)
Fixpoint composeFrom (middlewares : list Middleware) (i : nat) (exec : Handler) : Handler :=
  match i with
  | O => exec
  | S j =>
      match middlewares !! j with
      | Some mw => composeFrom middlewares j (mw exec)
      | None => exec
      end
  end.

Definition newFastChain (middlewares : list Middleware) (handler : Handler) : FastChain :=
  match middlewares with
  | [] => {| exec := handler |}
  | [mw] => {| exec := mw handler |}
  | [mw1; mw2] => {| exec := mw1 (mw2 handler) |}
  | [mw1; mw2; mw3] => {| exec := mw1 (mw2 (mw3 handler)) |}
  | _ => {| exec := composeFrom middlewares (length middlewares) handler |}
  end.

(** ** The route table *)

Record routeResult := {
  chain : FastChain;
  params : list Param;
  pattern : string
}.

(** [FastRouter]: the two maps the code uses. The [dynamic] radix node is
    allocated by [newFastRouter] and never read or written afterwards. *)
Record FastRouter := {
  static : gmap string FastChain;
  simple : gmap string Handler
}.

(** [DefaultApp]. A cached [nil] result (a recorded miss) is [Some None] in
    [routeCache]; the pool and the logger play no part in routing. *)
Record DefaultApp := {
  router : FastRouter;
  middleware : list Middleware;
  routeCache : gmap string (option routeResult);
  OnError : ErrorHandler;
  NotFound : Handler;
  MethodNA : Handler
}.

(** The handlers [New] installs. [defaultErrorHandler] is declared outside
    the files at hand, the other two answer 404 and 405 through the context;
    all three are taken as given here. *)
Variable defaultErrorHandler : ErrorHandler.
Variable defaultNotFoundHandler defaultMethodNotAllowedHandler : Handler.

Definition newFastRouter : FastRouter := {| static := ∅; simple := ∅ |}.

Definition New : DefaultApp :=
  {| router := newFastRouter;
     middleware := [];
     routeCache := ∅;
     OnError := defaultErrorHandler;
     NotFound := defaultNotFoundHandler;
     MethodNA := defaultMethodNotAllowedHandler |}.

Definition SetErrorHandler (a : DefaultApp) (h : ErrorHandler) : DefaultApp :=
  {| router := router a; middleware := middleware a; routeCache := routeCache a;
     OnError := h; NotFound := NotFound a; MethodNA := MethodNA a |}.

Definition SetNotFoundHandler (a : DefaultApp) (h : Handler) : DefaultApp :=
  {| router := router a; middleware := middleware a; routeCache := routeCache a;
     OnError := OnError a; NotFound := h; MethodNA := MethodNA a |}.

Definition SetMethodNotAllowedHandler (a : DefaultApp) (h : Handler) : DefaultApp :=
  {| router := router a; middleware := middleware a; routeCache := routeCache a;
     OnError := OnError a; NotFound := NotFound a; MethodNA := h |}.

Definition MethodNotAllowedHandler (a : DefaultApp) : Handler := MethodNA a.

Definition withRouter (a : DefaultApp) (r : FastRouter) : DefaultApp :=
  {| router := r; middleware := middleware a; routeCache := routeCache a;
     OnError := OnError a; NotFound := NotFound a; MethodNA := MethodNA a |}.

Definition withCache (a : DefaultApp) (c : gmap string (option routeResult)) : DefaultApp :=
  {| router := router a; middleware := middleware a; routeCache := c;
     OnError := OnError a; NotFound := NotFound a; MethodNA := MethodNA a |}.

(** [Use] *)
Definition Use (a : DefaultApp) (mw : list Middleware) : DefaultApp :=
  match mw with
  | [] => a
  | _ =>
      {| router := router a; middleware := middleware a ++ mw;
         routeCache := routeCache a;
         OnError := OnError a; NotFound := NotFound a; MethodNA := MethodNA a |}
  end.

(** [addDynamicRoute]: the parameterized route goes into the [static] map
    under its [method:path] key. *)
Definition addDynamicRoute (a : DefaultApp) (method path : string) (chain : FastChain)
  : DefaultApp :=
  let key := method +:+ ":" +:+ path in
  withRouter a {| static := <[key := chain]> (static (router a));
                  simple := simple (router a) |}.

(** [handle] *)
Definition handle (a : DefaultApp) (method path : string) (h : Handler)
    (mws : list Middleware) : DefaultApp :=
  let allMiddleware := middleware a ++ mws in
  let chain := newFastChain allMiddleware h in
  let routeKey := method +:+ ":" +:+ path in
  if (length allMiddleware =? 0) && negb (containsParams path) then
    withRouter a {| static := static (router a);
                    simple := <[routeKey := h]> (simple (router a)) |}
  else if negb (containsParams path) then
    withRouter a {| static := <[routeKey := chain]> (static (router a));
                    simple := simple (router a) |}
  else addDynamicRoute a method path chain.

Definition GET (a : DefaultApp) := handle a "GET".
Definition POST (a : DefaultApp) := handle a "POST".

(** ** Resolution *)

(** The [range] loop of [findRoute] over the entries of the [static] map,
    in the order [entries] in which the loop visits them. *)
Fixpoint scanRoutes (entries : list (string * FastChain)) (method path : string)
  : option routeResult :=
  match entries with
  | [] => None
  | (routeKey, chain) :: rest =>
      if negb (Str.HasPrefix routeKey (method +:+ ":")) then
        scanRoutes rest method path
      else
        let routePattern := Str.TrimPrefix routeKey (method +:+ ":") in
        match matchRoute routePattern path with
        | Some params =>
            Some {| chain := chain; params := params; pattern := routePattern |}
        | None => scanRoutes rest method path
        end
  end.

(** [len(a.routeCache) < 1000] *)
Definition cacheLimit : nat := 1000.

(** [findRoute], with the visiting order of its [range] loop. It returns the
    result ([None] is nil) and the app with its cache updated. *)
Definition findRoute (entries : list (string * FastChain)) (a : DefaultApp)
    (method path : string) : option routeResult * DefaultApp :=
  let cacheKey := method +:+ ":" +:+ path in
  match routeCache a !! cacheKey with
  | Some cached => (cached, a)
  | None =>
      match scanRoutes entries method path with
      | Some result =>
          (Some result,
           if size (routeCache a) <? cacheLimit
           then withCache a (<[cacheKey := Some result]> (routeCache a))
           else a)
      | None =>
          (None,
           if size (routeCache a) <? cacheLimit
           then withCache a (<[cacheKey := None]> (routeCache a))
           else a)
      end
  end.

(** The first loop of [pathExistsWithDifferentMethod], over the keys of the
    [simple] map. *)
Fixpoint existsSimple (keys : list string) (method path : string) : bool :=
  match keys with
  | [] => false
  | routeKey :: rest =>
      match Str.SplitColon2 routeKey with
      | [routeMethod; routePath] =>
          if String.eqb routePath path && negb (String.eqb routeMethod method)
          then true
          else existsSimple rest method path
      | _ => existsSimple rest method path
      end
  end.

(** Its second loop, over the keys of the [static] map. *)
Fixpoint existsStatic (keys : list string) (method path : string) : bool :=
  match keys with
  | [] => false
  | routeKey :: rest =>
      match Str.SplitColon2 routeKey with
      | [routeMethod; routePath] =>
          if String.eqb routePath path && negb (String.eqb routeMethod method)
          then true
          else if negb (String.eqb routeMethod method)
                  && bool_decide (is_Some (matchRoute routePath path))
          then true
          else existsStatic rest method path
      | _ => existsStatic rest method path
      end
  end.

Definition pathExistsWithDifferentMethod (simpleKeys staticKeys : list string)
    (method path : string) : bool :=
  if existsSimple simpleKeys method path then true
  else existsStatic staticKeys method path.

(** The orders in which the three [range] loops of one dispatch visit their
    maps. *)
Record Visit := {
  scanOrder : list (string * FastChain);
  simpleOrder : list (string * Handler);
  staticOrder : list (string * FastChain)
}.

Definition visit_ok (a : DefaultApp) (v : Visit) : Prop :=
  scanOrder v ≡ₚ map_to_list (static (router a)) ∧
  simpleOrder v ≡ₚ map_to_list (simple (router a)) ∧
  staticOrder v ≡ₚ map_to_list (static (router a)).

(** The visiting order stdpp's [map_to_list] happens to give. *)
Definition visitDefault (a : DefaultApp) : Visit :=
  {| scanOrder := map_to_list (static (router a));
     simpleOrder := map_to_list (simple (router a));
     staticOrder := map_to_list (static (router a)) |}.

(** ** Dispatch *)

(** Which of the five branches of [ServeHTTP] / [ServeFastHTTP] is taken. *)
Inductive Branch := BSimple | BStatic | BDynamic | BMethodNA | BNotFound.

(** What a dispatch decides: the branch, the handler it runs and the
    parameters and route it resets the context with ([nil] parameters are
    the empty list). *)
Record Decision := {
  branch : Branch;
  run : Handler;
  resetParams : list Param;
  resetRoute : string
}.

(** The route key both entry points compute. *)
Definition routeKeyOf (method path : string) : string :=
  if String.eqb method "GET" then
    if String.eqb path "/" then "GET:/" else "GET:" +:+ path
  else method +:+ ":" +:+ path.

(** The routing decision shared by [ServeHTTP] and [ServeFastHTTP]. *)
Definition resolve (v : Visit) (a : DefaultApp) (method path : string)
  : Decision * DefaultApp :=
  let routeKey := routeKeyOf method path in
  match simple (router a) !! routeKey with
  | Some simpleHandler =>
      ({| branch := BSimple; run := simpleHandler;
          resetParams := []; resetRoute := path |}, a)
  | None =>
      match static (router a) !! routeKey with
      | Some chain =>
          ({| branch := BStatic; run := Execute chain;
              resetParams := []; resetRoute := path |}, a)
      | None =>
          match findRoute (scanOrder v) a method path with
          | (Some result, a') =>
              ({| branch := BDynamic; run := Execute (chain result);
                  resetParams := params result;
                  resetRoute := pattern result |}, a')
          | (None, a') =>
              if pathExistsWithDifferentMethod (fst <$> simpleOrder v)
                   (fst <$> staticOrder v) method path
              then ({| branch := BMethodNA; run := MethodNotAllowedHandler a';
                       resetParams := []; resetRoute := path |}, a')
              else ({| branch := BNotFound; run := NotFound a';
                       resetParams := []; resetRoute := path |}, a')
          end
      end
  end.

(** One request through either entry point: [acquire params route] is the
    pooled context after [c.Reset(w, r, params, route, a)] (or
    [c.ResetFastHTTP]); the handler runs on it and a non-nil error goes to
    the error handler. *)
Definition serve (acquire : list Param -> string -> W) (v : Visit) (a : DefaultApp)
    (method path : string) : W * DefaultApp :=
  let '(d, a') := resolve v a method path in
  let c := acquire (resetParams d) (resetRoute d) in
  match run d c with
  | (c', Some err) => (OnError a' c' err, a')
  | (c', None) => (c', a')
  end.

(** [ServeHTTP] takes method and path from the request of [net/http].
    [ServeFastHTTP] takes them from the buffers of fasthttp without a copy;
    the request runs the same way, and what this means for the cache once
    the buffers are taken again is [bufferReuse] below. *)
Definition ServeHTTP := serve.
Definition ServeFastHTTP := serve.

End Router.

Arguments Handler : clear implicits.
Arguments Middleware : clear implicits.
Arguments ErrorHandler : clear implicits.
Arguments FastChain : clear implicits.
Arguments routeResult : clear implicits.
Arguments FastRouter : clear implicits.
Arguments DefaultApp : clear implicits.
Arguments Visit : clear implicits.
Arguments Decision : clear implicits.

(** ** Registered routes and reachable applications *)

(** A route [(m, p)] is registered: one of the two maps holds its key. *)
Definition registered {W} (a : DefaultApp W) (m p : string) : Prop :=
  is_Some (simple (router a) !! (m +:+ ":" +:+ p)) ∨
  is_Some (static (router a) !! (m +:+ ":" +:+ p)).

(** The path of a registered route matches a request path: it is that path,
    or the matcher accepts the request path for it. *)
Definition pathMatches (routePath path : string) : Prop :=
  routePath = path ∨ is_Some (matchRoute routePath path).

(** [registers a a']: [a'] comes from [a] by registrations ([handle], and
    [Use] between them). *)
Inductive registers {W} : DefaultApp W → DefaultApp W → Prop :=
| registers_refl a : registers a a
| registers_handle a a' m p h mws :
    registers a a' → registers a (handle a' m p h mws)
| registers_Use a a' mw :
    registers a a' → registers a (Use a' mw).

(** ** Parameter values that point into the request buffer of fasthttp

    [ServeFastHTTP] makes [method] and [path] strings over the bytes in which
    fasthttp holds the request ([unsafe.Pointer], no copy). Route keys and
    cache keys are built by concatenation and are strings of their own, and
    patterns and chains come from the route table; but [matchRoute] cuts the
    parameter values out of [path], so the result [findRoute] records in the
    cache keeps values that point into that buffer. fasthttp takes the
    buffer again for later requests, and a cached value then reads as the
    bytes the buffer holds at its place: a text of the same length.

    The request itself runs as [serve] tells, on the cache as it reads at
    that time. [aliased p q]: [q] is what a parameter recorded as [p] can
    read as later; [bufferReuse cache cache']: [cache'] is what [cache] can
    read as once buffers were taken again. Which entries were recorded
    through fasthttp is not tracked: every entry may change in this way. *)
Definition aliased (p q : Param) : Prop :=
  Key q = Key p ∧ String.length (Value q) = String.length (Value p).

Definition reread {W} (res res' : routeResult W) : Prop :=
  chain res' = chain res ∧ pattern res' = pattern res
  ∧ Forall2 aliased (params res) (params res').

Definition bufferReuse {W} (cache cache' : gmap string (option (routeResult W))) : Prop :=
  ∀ k, option_Forall2 (option_Forall2 reread) (cache !! k) (cache' !! k).

(** The applications a program can build: [New], then registrations, hook
    settings and requests through [ServeHTTP] and [ServeFastHTTP], all with
    methods free of colons, and fasthttp taking its buffers again between
    requests. *)
Inductive reachable {W} : DefaultApp W → Prop :=
| reach_New dE dN dM : reachable (New dE dN dM)
| reach_Use a mw : reachable a → reachable (Use a mw)
| reach_handle a m p h mws :
    reachable a → colon_free m → reachable (handle a m p h mws)
| reach_SetErrorHandler a h : reachable a → reachable (SetErrorHandler a h)
| reach_SetNotFoundHandler a h : reachable a → reachable (SetNotFoundHandler a h)
| reach_SetMethodNotAllowedHandler a h :
    reachable a → reachable (SetMethodNotAllowedHandler a h)
| reach_resolve a v m p :
    reachable a → visit_ok a v → colon_free m →
    reachable (resolve v a m p).2
| reach_reuse a cache' :
    reachable a → bufferReuse (routeCache a) cache' →
    reachable (withCache a cache').

(** The applications that answer through [ServeHTTP] only: the strings of
    [net/http] are never written again, so no cached value changes. *)
Inductive reachableNet {W} : DefaultApp W → Prop :=
| net_New dE dN dM : reachableNet (New dE dN dM)
| net_Use a mw : reachableNet a → reachableNet (Use a mw)
| net_handle a m p h mws :
    reachableNet a → colon_free m → reachableNet (handle a m p h mws)
| net_SetErrorHandler a h : reachableNet a → reachableNet (SetErrorHandler a h)
| net_SetNotFoundHandler a h : reachableNet a → reachableNet (SetNotFoundHandler a h)
| net_SetMethodNotAllowedHandler a h :
    reachableNet a → reachableNet (SetMethodNotAllowedHandler a h)
| net_resolve a v m p :
    reachableNet a → visit_ok a v → colon_free m →
    reachableNet (resolve v a m p).2.


(** Properties every reachable application has. The keys of the [simple]
    map are [method:path] keys of paths without parameters. A match recorded
    in the cache names a pattern the [static] map holds under the method of
    the cache key, and that pattern matches the cached path, with the
    parameter names recorded and values as long as the recorded ones
    ([cache_sound]); where no buffer was taken again the recorded values are
    those of the match ([cache_exact]). *)
Definition simple_keys_ok {W} (a : DefaultApp W) : Prop :=
  ∀ k h, simple (router a) !! k = Some h →
    ∃ m p, k = m +:+ ":" +:+ p ∧ colon_free m ∧ containsParams p = false.

Definition cache_sound {W} (a : DefaultApp W) : Prop :=
  ∀ k res, routeCache a !! k = Some (Some res) →
    ∃ m p ps, k = m +:+ ":" +:+ p ∧ colon_free m
              ∧ is_Some (static (router a) !! (m +:+ ":" +:+ pattern res))
              ∧ matchRoute (pattern res) p = Some ps
              ∧ Forall2 aliased ps (params res).

Definition cache_exact {W} (a : DefaultApp W) : Prop :=
  ∀ k res, routeCache a !! k = Some (Some res) →
    ∃ m p, k = m +:+ ":" +:+ p ∧ colon_free m
           ∧ matchRoute (pattern res) p = Some (params res).


(** ** Middleware that leaves a trace

    To observe the order in which a chain runs its parts, the state carries
    the list of the tags of the parts that ran. A traced middleware records
    its tag, does its own work on the rest of the state, and then either
    calls its continuation or returns without calling it. *)

Section Tracing.

Context {U : Type}.

Definition Traced : Type := list string * U.

Inductive Step := Continue | Stop (result : option Err).

Definition tracedMiddleware (tag : string) (work : U → U * Step) : Middleware Traced :=
  λ next c,
    match work c.2 with
    | (u, Continue) => next (c.1 ++ [tag], u)
    | (u, Stop result) => ((c.1 ++ [tag], u), result)
    end.

Definition tracedHandler (tag : string) (body : U → U * option Err) : Handler Traced :=
  λ c, let '(u, err) := body c.2 in ((c.1 ++ [tag], u), err).

(** A traced middleware that does [m.2] on the state and calls its
    continuation. *)
Definition passing (m : string * (U → U)) : Middleware Traced :=
  tracedMiddleware m.1 (λ u, (m.2 u, Continue)).

End Tracing.

Arguments Traced : clear implicits.

(** ** Package [ctx]: the request context *)

Module Ctx.

(** An operation either completes or panics (a method called through a nil
    pointer or interface, an index out of range, [WriteHeader] given a status
    that is none). *)
Inductive outcome (A : Type) := Done (a : A) | Panic.
Arguments Done {A} a.
Arguments Panic {A}.

Definition bind {A B} (o : outcome A) (k : A → outcome B) : outcome B :=
  match o with Done a => k a | Panic => Panic end.

(** Following a pointer: nil panics. *)
Definition deref {A} (p : option A) : outcome A :=
  match p with Some a => Done a | None => Panic end.

(** [http.Header] and [url.Values]. *)
Abbreviation Values := (gmap string (list string)).

(** [h.Get(key)] for a canonical key, and [v.Get(key)]: the first value, or
    the empty string. *)
Definition valuesGet (h : Values) (key : string) : string :=
  match h !! key with
  | Some (v :: _) => v
  | _ => ""
  end.

(** [h.Add(key, value)] for a canonical key. *)
Definition valuesAdd (h : Values) (key value : string) : Values :=
  <[key := default [] (h !! key) ++ [value]]> h.

(** *** The two transports, as far as the context uses them

    [net/http]: the header map of a [http_ResponseWriter] can be changed at any
    time. [WriteHeader] does nothing once the status is taken; else it panics
    on a code outside 100..999 and takes any other code together with the
    map as it is then ([rwSent]; as [httptest]'s recorder does: a server
    sends a code from 100 to 199 other than 101 ahead of the final status,
    which is not modelled). [Write] has the status 200 taken first if none
    was, and returns the number of bytes it wrote and its error. [rwFault]
    stands for whatever makes a [Write] stop early (a broken connection, a
    status that allows no body, more bytes than the Content-Length
    declared): [None] when the writer takes every byte, as the recorder does,
    [Some (room, err)] when it takes [room] more bytes and then fails with
    [err]. *)
Record http_ResponseWriter := {
  rwHeader : Values;
  rwSent : option (Z * Values);
  rwBody : string;
  rwFault : option (nat * Err)
}.

Definition rwSetHeader (f : Values → Values) (w : http_ResponseWriter) : http_ResponseWriter :=
  {| rwHeader := f (rwHeader w); rwSent := rwSent w; rwBody := rwBody w;
     rwFault := rwFault w |}.

Definition rwWriteHeader (code : Z) (w : http_ResponseWriter)
  : outcome http_ResponseWriter :=
  match rwSent w with
  | Some _ => Done w
  | None =>
      if (code <? 100)%Z || (999 <? code)%Z then Panic
      else Done {| rwHeader := rwHeader w; rwSent := Some (code, rwHeader w);
                   rwBody := rwBody w; rwFault := rwFault w |}
  end.

(** The first [n] bytes of a string. *)
Fixpoint takeBytes (n : nat) (s : string) : string :=
  match n, s with
  | S n', String c s' => String c (takeBytes n' s')
  | _, _ => EmptyString
  end.

(** [Write]: the writer it leaves, the number of bytes written and the
    error. *)
Definition rwWrite (b : string) (w : http_ResponseWriter)
  : outcome (http_ResponseWriter * Z * option Err) :=
  bind (rwWriteHeader 200 w) (λ w,
    match rwFault w with
    | None =>
        Done ({| rwHeader := rwHeader w; rwSent := rwSent w;
                 rwBody := rwBody w +:+ b; rwFault := None |},
              Z.of_nat (String.length b), None)
    | Some (room, err) =>
        if (String.length b <=? room)%nat then
          Done ({| rwHeader := rwHeader w; rwSent := rwSent w;
                   rwBody := rwBody w +:+ b;
                   rwFault := Some (room - String.length b, err) |},
                Z.of_nat (String.length b), None)
        else
          Done ({| rwHeader := rwHeader w; rwSent := rwSent w;
                   rwBody := rwBody w +:+ takeBytes room b;
                   rwFault := Some (0, err) |},
                Z.of_nat room, Some err)
    end).

(** [http.Request]: the method, [URL.Path], [URL.RawQuery], and what
    [URL.Query()] parses the raw query to. *)
Record http_Request := {
  reqMethod : string;
  reqPath : string;
  reqRawQuery : string;
  reqQuery : Values
}.

(** [fasthttp.RequestCtx]: the request, and the response it buffers until
    the handler returns; its setters overwrite. The response header stores a
    name as [fHeaderName] makes it: fasthttp normalizes the names it is given
    unless the server is told not to. (The few names fasthttp keeps in fields
    of their own are entries of [fHeader] like the others here.) *)
Record fasthttp_RequestCtx := {
  fMethod : string;
  fPath : string;
  fQueryArgs : gmap string string;
  fStatusCode : Z;
  fContentType : string;
  fHeader : Values;
  fBody : string;
  fHeaderName : string → string
}.

Definition fSetStatusCode (code : Z) (f : fasthttp_RequestCtx) : fasthttp_RequestCtx :=
  {| fMethod := fMethod f; fPath := fPath f; fQueryArgs := fQueryArgs f;
     fStatusCode := code; fContentType := fContentType f; fHeader := fHeader f;
     fBody := fBody f; fHeaderName := fHeaderName f |}.

Definition fSetContentType (t : string) (f : fasthttp_RequestCtx) : fasthttp_RequestCtx :=
  {| fMethod := fMethod f; fPath := fPath f; fQueryArgs := fQueryArgs f;
     fStatusCode := fStatusCode f; fContentType := t; fHeader := fHeader f;
     fBody := fBody f; fHeaderName := fHeaderName f |}.

Definition fSetBody (b : string) (f : fasthttp_RequestCtx) : fasthttp_RequestCtx :=
  {| fMethod := fMethod f; fPath := fPath f; fQueryArgs := fQueryArgs f;
     fStatusCode := fStatusCode f; fContentType := fContentType f;
     fHeader := fHeader f; fBody := b; fHeaderName := fHeaderName f |}.

Definition fSetHeader (g : Values → Values) (f : fasthttp_RequestCtx) : fasthttp_RequestCtx :=
  {| fMethod := fMethod f; fPath := fPath f; fQueryArgs := fQueryArgs f;
     fStatusCode := fStatusCode f; fContentType := fContentType f;
     fHeader := g (fHeader f); fBody := fBody f; fHeaderName := fHeaderName f |}.

(** The application logger handed to [Reset], by name. *)
Definition Logger := string.

(** A scratch buffer: its bytes and its capacity. *)
Record Buffer := { bufBytes : string; bufCap : nat }.

(** *** [DefaultContext]

    [params] is the array [[32]router.Param], a list of 32 entries;
    [paramCount] is a [uint8], [status] a [uint16], [flags] a [uint8]. *)
Record DefaultContext := {
  w : option http_ResponseWriter;
  r : option http_Request;
  fctx : option fasthttp_RequestCtx;
  params : list Param;
  paramSlice : option (list Param);
  paramCount : Z;
  status : Z;
  wroteBytes : Z;
  route : string;
  flags : Z;
  queryCache : option Values;
  appLogger : option Logger;
  responseBuffer : option Buffer;
  jsonBuffer : option Buffer
}.

(** Assignments to one field of the context. *)
Definition set_w (x : option http_ResponseWriter) (c : DefaultContext) : DefaultContext :=
  {| w := x; r := r c; fctx := fctx c; params := params c;
     paramSlice := paramSlice c; paramCount := paramCount c;
     status := status c; wroteBytes := wroteBytes c; route := route c;
     flags := flags c; queryCache := queryCache c; appLogger := appLogger c;
     responseBuffer := responseBuffer c; jsonBuffer := jsonBuffer c |}.

Definition set_r (x : option http_Request) (c : DefaultContext) : DefaultContext :=
  {| w := w c; r := x; fctx := fctx c; params := params c;
     paramSlice := paramSlice c; paramCount := paramCount c;
     status := status c; wroteBytes := wroteBytes c; route := route c;
     flags := flags c; queryCache := queryCache c; appLogger := appLogger c;
     responseBuffer := responseBuffer c; jsonBuffer := jsonBuffer c |}.

Definition set_fctx (x : option fasthttp_RequestCtx) (c : DefaultContext) : DefaultContext :=
  {| w := w c; r := r c; fctx := x; params := params c;
     paramSlice := paramSlice c; paramCount := paramCount c;
     status := status c; wroteBytes := wroteBytes c; route := route c;
     flags := flags c; queryCache := queryCache c; appLogger := appLogger c;
     responseBuffer := responseBuffer c; jsonBuffer := jsonBuffer c |}.

Definition set_params (x : list Param) (c : DefaultContext) : DefaultContext :=
  {| w := w c; r := r c; fctx := fctx c; params := x;
     paramSlice := paramSlice c; paramCount := paramCount c;
     status := status c; wroteBytes := wroteBytes c; route := route c;
     flags := flags c; queryCache := queryCache c; appLogger := appLogger c;
     responseBuffer := responseBuffer c; jsonBuffer := jsonBuffer c |}.

Definition set_paramSlice (x : option (list Param)) (c : DefaultContext) : DefaultContext :=
  {| w := w c; r := r c; fctx := fctx c; params := params c; paramSlice := x;
     paramCount := paramCount c; status := status c;
     wroteBytes := wroteBytes c; route := route c; flags := flags c;
     queryCache := queryCache c; appLogger := appLogger c;
     responseBuffer := responseBuffer c; jsonBuffer := jsonBuffer c |}.

Definition set_paramCount (x : Z) (c : DefaultContext) : DefaultContext :=
  {| w := w c; r := r c; fctx := fctx c; params := params c;
     paramSlice := paramSlice c; paramCount := x; status := status c;
     wroteBytes := wroteBytes c; route := route c; flags := flags c;
     queryCache := queryCache c; appLogger := appLogger c;
     responseBuffer := responseBuffer c; jsonBuffer := jsonBuffer c |}.

Definition set_status (x : Z) (c : DefaultContext) : DefaultContext :=
  {| w := w c; r := r c; fctx := fctx c; params := params c;
     paramSlice := paramSlice c; paramCount := paramCount c; status := x;
     wroteBytes := wroteBytes c; route := route c; flags := flags c;
     queryCache := queryCache c; appLogger := appLogger c;
     responseBuffer := responseBuffer c; jsonBuffer := jsonBuffer c |}.

Definition set_wroteBytes (x : Z) (c : DefaultContext) : DefaultContext :=
  {| w := w c; r := r c; fctx := fctx c; params := params c;
     paramSlice := paramSlice c; paramCount := paramCount c;
     status := status c; wroteBytes := x; route := route c; flags := flags c;
     queryCache := queryCache c; appLogger := appLogger c;
     responseBuffer := responseBuffer c; jsonBuffer := jsonBuffer c |}.

Definition set_route (x : string) (c : DefaultContext) : DefaultContext :=
  {| w := w c; r := r c; fctx := fctx c; params := params c;
     paramSlice := paramSlice c; paramCount := paramCount c;
     status := status c; wroteBytes := wroteBytes c; route := x;
     flags := flags c; queryCache := queryCache c; appLogger := appLogger c;
     responseBuffer := responseBuffer c; jsonBuffer := jsonBuffer c |}.

Definition set_flags (x : Z) (c : DefaultContext) : DefaultContext :=
  {| w := w c; r := r c; fctx := fctx c; params := params c;
     paramSlice := paramSlice c; paramCount := paramCount c;
     status := status c; wroteBytes := wroteBytes c; route := route c;
     flags := x; queryCache := queryCache c; appLogger := appLogger c;
     responseBuffer := responseBuffer c; jsonBuffer := jsonBuffer c |}.

Definition set_queryCache (x : option Values) (c : DefaultContext) : DefaultContext :=
  {| w := w c; r := r c; fctx := fctx c; params := params c;
     paramSlice := paramSlice c; paramCount := paramCount c;
     status := status c; wroteBytes := wroteBytes c; route := route c;
     flags := flags c; queryCache := x; appLogger := appLogger c;
     responseBuffer := responseBuffer c; jsonBuffer := jsonBuffer c |}.

Definition set_appLogger (x : option Logger) (c : DefaultContext) : DefaultContext :=
  {| w := w c; r := r c; fctx := fctx c; params := params c;
     paramSlice := paramSlice c; paramCount := paramCount c;
     status := status c; wroteBytes := wroteBytes c; route := route c;
     flags := flags c; queryCache := queryCache c; appLogger := x;
     responseBuffer := responseBuffer c; jsonBuffer := jsonBuffer c |}.

Definition set_responseBuffer (x : option Buffer) (c : DefaultContext) : DefaultContext :=
  {| w := w c; r := r c; fctx := fctx c; params := params c;
     paramSlice := paramSlice c; paramCount := paramCount c;
     status := status c; wroteBytes := wroteBytes c; route := route c;
     flags := flags c; queryCache := queryCache c; appLogger := appLogger c;
     responseBuffer := x; jsonBuffer := jsonBuffer c |}.

Definition set_jsonBuffer (x : option Buffer) (c : DefaultContext) : DefaultContext :=
  {| w := w c; r := r c; fctx := fctx c; params := params c;
     paramSlice := paramSlice c; paramCount := paramCount c;
     status := status c; wroteBytes := wroteBytes c; route := route c;
     flags := flags c; queryCache := queryCache c; appLogger := appLogger c;
     responseBuffer := responseBuffer c; jsonBuffer := x |}.
Definition uint8 (n : Z) : Z := n mod 256.
Definition uint16 (n : Z) : Z := n mod 65536.

Definition emptyParam : Param := {| Key := ""; Value := "" |}.

(** The zero value [&ctx.DefaultContext{}] the pool creates. *)
Definition zeroContext : DefaultContext :=
  {| w := None; r := None; fctx := None; params := replicate 32 emptyParam;
     paramSlice := None; paramCount := 0; status := 0; wroteBytes := 0;
     route := ""; flags := 0; queryCache := None; appLogger := None;
     responseBuffer := None; jsonBuffer := None |}.

(** *** Flags *)

Definition flagWroteHeader : Z := Z.shiftl 1 0.
Definition flagJSONEscape : Z := Z.shiftl 1 1.
Definition flagHasQueryCache : Z := Z.shiftl 1 2.
Definition flagIsFastHTTP : Z := Z.shiftl 1 3.

Definition testFlag (flag : Z) (c : DefaultContext) : bool :=
  negb (Z.land (flags c) flag =? 0)%Z.

Definition setFlag (flag : Z) (v : bool) (c : DefaultContext) : DefaultContext :=
  if v then set_flags (Z.lor (flags c) flag) c
  else set_flags (Z.ldiff (flags c) flag) c.

Definition wroteHeader := testFlag flagWroteHeader.
Definition setWroteHeader := setFlag flagWroteHeader.
Definition jsonEscape := testFlag flagJSONEscape.
Definition setJSONEscape := setFlag flagJSONEscape.
Definition hasQueryCache := testFlag flagHasQueryCache.
Definition setHasQueryCache := setFlag flagHasQueryCache.
Definition isFastHTTP := testFlag flagIsFastHTTP.
Definition setFastHTTP := setFlag flagIsFastHTTP.

(** *** Reset *)

(** [for i := 0; i < paramLen; i++ { c.params[i] = ps[i] }], with [n]
    rounds left at index [i]. *)
Fixpoint copyParams (ps : list Param) (i n : nat) (arr : list Param) : list Param :=
  match n with
  | O => arr
  | S n' =>
      match ps !! i with
      | Some p => copyParams ps (S i) n' (<[i := p]> arr)
      | None => arr
      end
  end.

(** [for i := 0; i < 32; i++ { c.params[i] = router.Param{} }] *)
Fixpoint clearParams (i n : nat) (arr : list Param) : list Param :=
  match n with
  | O => arr
  | S n' => clearParams (S i) n' (<[i := emptyParam]> arr)
  end.

Definition resetBuffer (cap : nat) (b : option Buffer) : option Buffer :=
  match b with
  | None => Some {| bufBytes := ""; bufCap := cap |}
  | Some b => Some {| bufBytes := ""; bufCap := bufCap b |}
  end.

Definition resetCommon (ps : list Param) (appLogger : list Logger)
    (c : DefaultContext) : DefaultContext :=
  let paramLen := length ps in
  let c := set_paramCount (uint8 (Z.of_nat paramLen)) c in
  let c :=
    if (paramLen =? 0)%nat then set_paramSlice None c
    else if (paramLen <=? 32)%nat then
      set_paramSlice None (set_params (copyParams ps 0 paramLen (params c)) c)
    else
      set_params (clearParams 0 32 (params c)) (set_paramSlice (Some ps) c) in
  let c := set_status 0 c in
  let c := set_wroteBytes 0 c in
  let c :=
    if isFastHTTP c then set_flags (Z.lor flagJSONEscape flagIsFastHTTP) c
    else set_flags flagJSONEscape c in
  let c :=
    if hasQueryCache c then setHasQueryCache false (set_queryCache None c)
    else c in
  let c :=
    match appLogger with
    | l :: _ => set_appLogger (Some l) c
    | [] => set_appLogger None c
    end in
  let c := set_responseBuffer (resetBuffer 512 (responseBuffer c)) c in
  set_jsonBuffer (resetBuffer 256 (jsonBuffer c)) c.

Definition Reset (w : http_ResponseWriter) (r : http_Request) (ps : list Param)
    (route : string) (appLogger : list Logger) (c : DefaultContext) : DefaultContext :=
  let c := set_w (Some w) c in
  let c := set_r (Some r) c in
  let c := set_fctx None c in
  let c := set_route route c in
  let c := setFastHTTP false c in
  resetCommon ps appLogger c.

Definition ResetFastHTTP (f : fasthttp_RequestCtx) (ps : list Param)
    (route : string) (appLogger : list Logger) (c : DefaultContext) : DefaultContext :=
  let c := set_fctx (Some f) c in
  let c := set_w None c in
  let c := set_r None c in
  let c := set_route route c in
  let c := setFastHTTP true c in
  resetCommon ps appLogger c.

(** [Finish]: no cleanup. *)
Definition Finish (c : DefaultContext) : DefaultContext := c.

(** *** Accessors *)

Definition Request (c : DefaultContext) : option http_Request :=
  if isFastHTTP c then None else r c.

Definition SetRequest (x : option http_Request) (c : DefaultContext) : DefaultContext :=
  if negb (isFastHTTP c) then set_r x c else c.

Definition ResponseWriter (c : DefaultContext) : option http_ResponseWriter :=
  if isFastHTTP c then None else w c.

Definition SetResponseWriter (x : option http_ResponseWriter) (c : DefaultContext)
  : DefaultContext :=
  if negb (isFastHTTP c) then set_w x c else c.

Definition FastHTTPCtx (c : DefaultContext) : option fasthttp_RequestCtx :=
  if isFastHTTP c then fctx c else None.

Definition WroteHeader (c : DefaultContext) : bool := wroteHeader c.

Definition Method (c : DefaultContext) : outcome string :=
  if isFastHTTP c then bind (deref (fctx c)) (λ f, Done (fMethod f))
  else bind (deref (r c)) (λ r, Done (reqMethod r)).

Definition Path (c : DefaultContext) : outcome string :=
  if isFastHTTP c then bind (deref (fctx c)) (λ f, Done (fPath f))
  else bind (deref (r c)) (λ r, Done (reqPath r)).

Definition Route (c : DefaultContext) : string := route c.

(** [httprouter]'s [Params.ByName]. *)
Fixpoint ByName (ps : list Param) (name : string) : string :=
  match ps with
  | [] => ""
  | p :: rest => if String.eqb (Key p) name then Value p else ByName rest name
  end.

(** The loop of [Param] over the array, with [n] rounds left at index [i]. *)
Fixpoint paramLoop (arr : list Param) (name : string) (i n : nat) : outcome string :=
  match n with
  | O => Done ""
  | S n' =>
      match arr !! i with
      | None => Panic
      | Some p =>
          if String.eqb (Key p) name then Done (Value p)
          else paramLoop arr name (S i) n'
      end
  end.

Definition Param (name : string) (c : DefaultContext) : outcome string :=
  match paramSlice c with
  | None => paramLoop (params c) name 0 (Z.to_nat (paramCount c))
  | Some ps => Done (ByName ps name)
  end.

(** [Query]: the value, and the context with its query cache filled. *)
Definition Query (key : string) (c : DefaultContext) : outcome (string * DefaultContext) :=
  if isFastHTTP c then
    bind (deref (fctx c)) (λ f, Done (default "" (fQueryArgs f !! key), c))
  else
    bind (deref (r c)) (λ r,
      if String.eqb (reqRawQuery r) "" then Done ("", c)
      else
        let c :=
          if negb (hasQueryCache c)
          then setHasQueryCache true (set_queryCache (Some (reqQuery r)) c)
          else c in
        Done (valuesGet (default ∅ (queryCache c)) key, c)).

(** *** Status and headers *)

Definition Status (code : Z) (c : DefaultContext) : DefaultContext :=
  set_status (uint16 code) c.

Definition StatusOK : Z := 200.
Definition StatusInternalServerError : Z := 500.

Definition StatusCode (c : DefaultContext) : Z :=
  if negb (status c =? 0)%Z then status c
  else if wroteHeader c then StatusOK
  else 0%Z.

Section Headers.

(** [http.CanonicalHeaderKey], of package [net/http]. *)
Variable CanonicalHeaderKey : string → string.

Definition Header (key value : string) (c : DefaultContext) : outcome DefaultContext :=
  if isFastHTTP c then
    bind (deref (fctx c)) (λ f,
      Done (set_fctx (Some (fSetHeader (λ h, <[fHeaderName f key := [value]]> h) f)) c))
  else
    bind (deref (w c)) (λ rw,
      Done (set_w (Some (rwSetHeader
                           (λ h, <[CanonicalHeaderKey key := [value]]> h) rw)) c)).

Definition AddHeader (key value : string) (c : DefaultContext) : outcome DefaultContext :=
  if isFastHTTP c then
    bind (deref (fctx c)) (λ f,
      Done (set_fctx (Some (fSetHeader (λ h, valuesAdd h (fHeaderName f key) value) f))
              c))
  else
    bind (deref (w c)) (λ rw,
      Done (set_w (Some (rwSetHeader
                           (λ h, valuesAdd h (CanonicalHeaderKey key) value) rw)) c)).

End Headers.

(** [SetHeaders]: [h := c.w.Header()], then [h[k] = []string{v}] for every
    entry of the argument; the keys are distinct, so the order of the
    [range] does not show. *)
Definition SetHeaders (headers : gmap string string) (c : DefaultContext)
  : outcome DefaultContext :=
  bind (deref (w c)) (λ rw,
    Done (set_w (Some (rwSetHeader (λ h, ((λ v, [v]) <$> headers) ∪ h) rw)) c)).

Definition headerContentTypeText : string := "text/plain; charset=utf-8".
Definition headerContentTypeJSON : string := "application/json; charset=utf-8".
Definition headerContentLength : string := "Content-Length".
Definition headerContentType : string := "Content-Type".

(** [fastContentLength]: the cached strings are those of [strconv.Itoa]. *)
Definition fastContentLength (n : nat) : string :=
  NilZero.string_of_uint (Nat.to_uint n).

Definition len (s : string) : Z := Z.of_nat (String.length s).

(** *** Writing the response *)

(** [String]: the context it leaves and the error it returns; [wroteBytes]
    grows by the number of bytes the writer reports. *)
Definition String (code : Z) (body : string) (c : DefaultContext)
  : outcome (DefaultContext * option Err) :=
  if isFastHTTP c then
    bind (deref (fctx c)) (λ f,
      let f := fSetStatusCode code f in
      let f := fSetContentType headerContentTypeText f in
      let f := fSetBody body f in
      let c := set_fctx (Some f) c in
      let c := set_wroteBytes (wroteBytes c + len body) c in
      Done (setWroteHeader true c, None))
  else
    bind (if negb (wroteHeader c) then
            bind (deref (w c)) (λ rw,
              let rw :=
                if String.eqb (valuesGet (rwHeader rw) headerContentType) ""
                then rwSetHeader (λ h, <[headerContentType := [headerContentTypeText]]> h) rw
                else rw in
              let rw :=
                rwSetHeader
                  (λ h, <[headerContentLength := [fastContentLength (String.length body)]]> h)
                  rw in
              bind (rwWriteHeader code rw) (λ rw,
                Done (setWroteHeader true (set_w (Some rw) c))))
          else Done c)
      (λ c,
        bind (deref (w c)) (λ rw,
          bind (rwWrite body rw) (λ '(rw, n, err),
            let c := set_w (Some rw) c in
            Done (set_wroteBytes (wroteBytes c + n) c, err)))).

(** [Send]: the context it leaves, the number of bytes written and the
    error. *)
Definition Send (code : Z) (contentType : string) (b : string) (c : DefaultContext)
  : outcome (DefaultContext * Z * option Err) :=
  bind (if negb (wroteHeader c) then
          bind (deref (w c)) (λ rw,
            let rw :=
              if negb (String.eqb contentType "")
                 && String.eqb (valuesGet (rwHeader rw) headerContentType) ""
              then rwSetHeader (λ h, <[headerContentType := [contentType]]> h) rw
              else rw in
            let rw :=
              rwSetHeader
                (λ h, <[headerContentLength := [fastContentLength (String.length b)]]> h)
                rw in
            bind (rwWriteHeader code rw) (λ rw,
              Done (setWroteHeader true (set_w (Some rw) c))))
        else Done c)
    (λ c,
      bind (deref (w c)) (λ rw,
        bind (rwWrite b rw) (λ '(rw, n, err),
          let c := set_w (Some rw) c in
          Done (set_wroteBytes (wroteBytes c + n) c, n, err)))).

(** [JSON], given what the marshaller returns for the value: the bytes, or
    [None] when it fails. The result is the context and the error;
    [wroteBytes] grows by the length of the bytes, whatever the writer took. *)
Definition JSON (marshalled : option string) (c : DefaultContext)
  : outcome (DefaultContext * option Err) :=
  match marshalled with
  | None =>
      if isFastHTTP c then
        bind (deref (fctx c)) (λ f,
          Done (set_fctx (Some (fSetStatusCode StatusInternalServerError f)) c,
                Some "marshal"))
      else if negb (wroteHeader c) then
        bind (deref (w c)) (λ rw,
          bind (rwWriteHeader StatusInternalServerError rw) (λ rw,
            Done (setWroteHeader true (set_w (Some rw) c), Some "marshal")))
      else Done (c, Some "marshal")
  | Some b =>
      if isFastHTTP c then
        bind (deref (fctx c)) (λ f,
          let c := if (status c =? 0)%Z then set_status StatusOK c else c in
          let f := fSetStatusCode (status c) f in
          let f := fSetContentType headerContentTypeJSON f in
          let f := fSetBody b f in
          let c := set_fctx (Some f) c in
          let c := set_wroteBytes (wroteBytes c + len b) c in
          Done (setWroteHeader true c, None))
      else
        bind (if negb (wroteHeader c) then
                let c := if (status c =? 0)%Z then set_status StatusOK c else c in
                bind (deref (w c)) (λ rw,
                  let rw :=
                    if (length (default [] (rwHeader rw !! headerContentType)) =? 0)%nat
                    then rwSetHeader
                           (λ h, <[headerContentType := [headerContentTypeJSON]]> h) rw
                    else rw in
                  let rw :=
                    rwSetHeader
                      (λ h, <[headerContentLength := [fastContentLength (String.length b)]]> h)
                      rw in
                  bind (rwWriteHeader (status c) rw) (λ rw,
                    Done (setWroteHeader true (set_w (Some rw) c))))
              else Done c)
          (λ c,
            bind (deref (w c)) (λ rw,
              bind (rwWrite b rw) (λ '(rw, _, err),
                let c := set_w (Some rw) c in
                Done (set_wroteBytes (wroteBytes c + len b) c, err))))
  end.

End Ctx.

(** What [Query] answers, whatever context it leaves. *)
Definition queried (o : Ctx.outcome (string * Ctx.DefaultContext)) : Ctx.outcome string :=
  Ctx.bind o (λ x, Ctx.Done x.1).

(** ** Sample contexts *)

Module CtxExamples.

Definition writer0 : Ctx.http_ResponseWriter :=
  {| Ctx.rwHeader := ∅; Ctx.rwSent := None; Ctx.rwBody := "";
     Ctx.rwFault := None |}.

Definition request (path : string) : Ctx.http_Request :=
  {| Ctx.reqMethod := "GET"; Ctx.reqPath := path; Ctx.reqRawQuery := "";
     Ctx.reqQuery := ∅ |}.

(** A [fasthttp] request for [GET /ping]; the response header keeps names as
    they are given (the names used below are in normal form already). *)
Definition fast0 : Ctx.fasthttp_RequestCtx :=
  {| Ctx.fMethod := "GET"; Ctx.fPath := "/ping"; Ctx.fQueryArgs := ∅;
     Ctx.fStatusCode := 200; Ctx.fContentType := ""; Ctx.fHeader := ∅;
     Ctx.fBody := ""; Ctx.fHeaderName := id |}.

(** A pooled context that served [GET /a/1/2] on the route [/a/:x/:y]. *)
Definition usedContext : Ctx.DefaultContext :=
  Ctx.Reset writer0 (request "/a/1/2")
    [ {| Key := "x"; Value := "1" |}; {| Key := "y"; Value := "2" |} ]
    "/a/:x/:y" [] Ctx.zeroContext.

(** A context that served [GET /search?q=go] and parsed its query. *)
Definition searchRequest : Ctx.http_Request :=
  {| Ctx.reqMethod := "GET"; Ctx.reqPath := "/search"; Ctx.reqRawQuery := "q=go";
     Ctx.reqQuery := {[ "q" := ["go"] ]} |}.

Definition queriedContext : Ctx.DefaultContext :=
  match Ctx.Query "q" (Ctx.Reset writer0 searchRequest [] "/search" [] Ctx.zeroContext) with
  | Ctx.Done (_, c) => c
  | Ctx.Panic => Ctx.zeroContext
  end.

(** A context reset for a request through [fasthttp]. *)
Definition fastContext : Ctx.DefaultContext :=
  Ctx.ResetFastHTTP fast0 [] "/ping" [] Ctx.zeroContext.

(** A context reset for a request through [net/http]. *)
Definition netContext : Ctx.DefaultContext :=
  Ctx.Reset writer0 (request "/ping") [] "/ping" [] Ctx.zeroContext.

(** [netContext] after [String(200, "pong")]. *)
Definition pongContext : Ctx.DefaultContext :=
  match Ctx.String 200 "pong" netContext with
  | Ctx.Done (c, _) => c
  | Ctx.Panic => Ctx.zeroContext
  end.

End CtxExamples.

(** ** Sample applications *)

Module Examples.

(** The state the sample handlers act on: the tags of the handlers and
    middleware that ran, in order. *)
Definition World := list string.

Definition say (tag : string) : Handler World := fun c => (c ++ [tag], None).

Definition onError : ErrorHandler World := fun c err => c ++ [err].

Definition sampleNew : DefaultApp World :=
  New onError (say "404 Not Found") (say "405 Method Not Allowed").

(** [GET /ping] alone. *)
Definition pingApp : DefaultApp World := GET sampleNew "/ping" (say "pong") [].


(** Two patterns that match the same paths. *)
Definition overlapApp : DefaultApp World :=
  GET (GET sampleNew "/r/:id" (say "first") []) "/r/:name" (say "second") [].

Definition digit (n : nat) : ascii := ascii_of_nat (48 + n).

(** [/m/000], [/m/001], ...: paths no route matches. *)
Definition missPath (i : nat) : string :=
  "/m/" +:+ String (digit (i / 100))
              (String (digit (i / 10 mod 10)) (String (digit (i mod 10)) "")).

(** [n] requests for paths no route matches, each resolved in turn. *)
Definition warm (n : nat) (a : DefaultApp World) : DefaultApp World :=
  fold_left (fun a i => (resolve (visitDefault a) a "GET" (missPath i)).2) (seq 0 n) a.

(** [overlapApp] after a thousand such requests: its cache is full. *)
Definition fullApp : DefaultApp World := warm 1000 overlapApp.

(** [GET /files/*rest] alone. *)
Definition GETfiles : DefaultApp World := GET sampleNew "/files/*rest" (say "file") [].

(** A table visited back to front by the scan of [findRoute]. *)
Definition visitReversed (a : DefaultApp World) : Visit World :=
  {| scanOrder := reverse (map_to_list (static (router a)));
     simpleOrder := map_to_list (simple (router a));
     staticOrder := map_to_list (static (router a)) |}.

(** [GET /users/42] requested before any route exists, then
    [GET /users/:id] registered. *)
Definition missedApp : DefaultApp World :=
  (resolve (visitDefault sampleNew) sampleNew "GET" "/users/42").2.

Definition lateApp : DefaultApp World := GET missedApp "/users/:id" (say "user") [].

End Examples.

(** ** The other registration entry points *)

Section Verbs.

Context {W : Type}.

Definition PUT (a : DefaultApp W) := handle a "PUT".
Definition PATCH (a : DefaultApp W) := handle a "PATCH".
Definition DELETE (a : DefaultApp W) := handle a "DELETE".
Definition OPTIONS (a : DefaultApp W) := handle a "OPTIONS".
Definition HEAD (a : DefaultApp W) := handle a "HEAD".

(** The methods [ANY] and [Mount] range over, in their order. *)
Definition commonMethods : list string :=
  ["GET"; "POST"; "PUT"; "PATCH"; "DELETE"; "OPTIONS"; "HEAD"].

(** [ANY]: [for _, m := range []string{...} { a.handle(m, path, h, mws...) }] *)
Definition ANY (a : DefaultApp W) (path : string) (h : Handler W)
    (mws : list (Middleware W)) : DefaultApp W :=
  fold_left (λ a m, handle a m path h mws) commonMethods a.

(** [Handle], for any method. *)
Definition Handle (a : DefaultApp W) (method path : string) (h : Handler W)
    (mws : list (Middleware W)) : DefaultApp W :=
  handle a method path h mws.

End Verbs.

(** ** Mounting [net/http] handlers *)

Section Compat.

(** An [http.Handler], by what its [ServeHTTP] does to the writer. *)
Definition http_Handler : Type :=
  Ctx.http_ResponseWriter → Ctx.http_Request → Ctx.http_ResponseWriter.

(** The wrapper [HandleHTTP] registers: it serves only when the context has
    a request and a writer, and returns nil. *)
Definition httpWrapper (h : http_Handler) : Handler Ctx.DefaultContext :=
  λ c,
    match Ctx.Request c, Ctx.ResponseWriter c with
    | Some r, Some w => (Ctx.set_w (Some (h w r)) c, None)
    | _, _ => (c, None)
    end.

Definition HandleHTTP (a : DefaultApp Ctx.DefaultContext) (method path : string)
    (h : http_Handler) : DefaultApp Ctx.DefaultContext :=
  handle a method path (httpWrapper h) [].

Definition Mount (a : DefaultApp Ctx.DefaultContext) (path : string) (h : http_Handler)
  : DefaultApp Ctx.DefaultContext :=
  fold_left (λ a method, HandleHTTP a method path h) commonMethods a.

(** [http.StripPrefix(prefix, http.FileServer(http.Dir(dir)))], of package
    [net/http]. *)
Variable strippedFileServer : string → string → http_Handler.

Definition Static (a : DefaultApp Ctx.DefaultContext) (prefix dir : string)
  : DefaultApp Ctx.DefaultContext :=
  HandleHTTP a "GET" (prefix +:+ "/*filepath") (strippedFileServer prefix dir).

Definition StaticDirs (a : DefaultApp Ctx.DefaultContext) (prefix : string)
    (dirs : list string) : DefaultApp Ctx.DefaultContext :=
  match dirs with
  | [] => a
  | dir :: _ => Static a prefix dir
  end.

End Compat.

(** ** Sanitizing accessors of the context

    The loops [for _, r := range s] decode runes; the runes they keep are
    ASCII, a rune of several bytes has no ASCII byte, and a byte that is not
    valid UTF-8 decodes to U+FFFD, so the loops keep exactly the bytes that
    pass the test. *)

Section Sanitizers.

Definition inRange (lo hi r : ascii) : bool := Ascii.leb lo r && Ascii.leb r hi.

Definition isAlphaNum (r : ascii) : bool :=
  inRange "a" "z" r || inRange "A" "Z" r || inRange "0" "9" r.

Definition isFilenameChar (r : ascii) : bool :=
  inRange "a" "z" r || inRange "A" "Z" r || inRange "0" "9" r
  || Ascii.eqb r "." || Ascii.eqb r "-" || Ascii.eqb r "_".

(** The string builder after the loop: the bytes that pass [keep]. *)
Fixpoint keepRunes (keep : ascii → bool) (s : string) : string :=
  match s with
  | EmptyString => EmptyString
  | String r s' => if keep r then String r (keepRunes keep s') else keepRunes keep s'
  end.

Definition ParamAlphaNum (name : string) (c : Ctx.DefaultContext) : Ctx.outcome string :=
  Ctx.bind (Ctx.Param name c) (λ param,
    if String.eqb param "" then Ctx.Done ""
    else Ctx.Done (keepRunes isAlphaNum param)).

Definition QueryAlphaNum (key : string) (c : Ctx.DefaultContext)
  : Ctx.outcome (string * Ctx.DefaultContext) :=
  Ctx.bind (Ctx.Query key c) (λ '(query, c),
    if String.eqb query "" then Ctx.Done ("", c)
    else Ctx.Done (keepRunes isAlphaNum query, c)).

(** [url.QueryUnescape], of package [net/url]: the decoded text, or [None]
    for its error. *)
Variable QueryUnescape : string → option string.

(** What [ParamFilename] and [QueryFilename] make of a non-empty value. *)
Definition safeFilename (value : string) : string :=
  let decoded := default value (QueryUnescape value) in
  let filename := keepRunes isFilenameChar decoded in
  Str.TrimPrefix filename ".".

Definition ParamFilename (name : string) (c : Ctx.DefaultContext) : Ctx.outcome string :=
  Ctx.bind (Ctx.Param name c) (λ param,
    if String.eqb param "" then Ctx.Done ""
    else Ctx.Done (safeFilename param)).

Definition QueryFilename (key : string) (c : Ctx.DefaultContext)
  : Ctx.outcome (string * Ctx.DefaultContext) :=
  Ctx.bind (Ctx.Query key c) (λ '(query, c),
    if String.eqb query "" then Ctx.Done ("", c)
    else Ctx.Done (safeFilename query, c)).

End Sanitizers.

(** Every byte of a string passes a test. *)
Fixpoint allRunes (keep : ascii → bool) (s : string) : bool :=
  match s with
  | EmptyString => true
  | String r s' => keep r && allRunes keep s'
  end.

(** ** Operations on a context, as data

    The calls a handler can make on its context between two resets, to state
    what no sequence of them does. *)

Inductive CtxOp :=
| OpStatus (code : Z)
| OpHeader (key value : string)
| OpAddHeader (key value : string)
| OpSetHeaders (headers : gmap string string)
| OpString (code : Z) (body : string)
| OpSend (code : Z) (contentType body : string)
| OpJSON (marshalled : option string)
| OpQuery (key : string)
| OpSetRequest (r : option Ctx.http_Request)
| OpSetResponseWriter (w : option Ctx.http_ResponseWriter).

Definition runOp (canonical : string → string) (op : CtxOp) (c : Ctx.DefaultContext)
  : Ctx.outcome Ctx.DefaultContext :=
  match op with
  | OpStatus code => Ctx.Done (Ctx.Status code c)
  | OpHeader key value => Ctx.Header canonical key value c
  | OpAddHeader key value => Ctx.AddHeader canonical key value c
  | OpSetHeaders headers => Ctx.SetHeaders headers c
  | OpString code body => Ctx.bind (Ctx.String code body c) (λ x, Ctx.Done x.1)
  | OpSend code contentType body =>
      Ctx.bind (Ctx.Send code contentType body c) (λ x, Ctx.Done x.1.1)
  | OpJSON marshalled => Ctx.bind (Ctx.JSON marshalled c) (λ x, Ctx.Done x.1)
  | OpQuery key => Ctx.bind (Ctx.Query key c) (λ x, Ctx.Done x.2)
  | OpSetRequest r => Ctx.Done (Ctx.SetRequest r c)
  | OpSetResponseWriter w => Ctx.Done (Ctx.SetResponseWriter w c)
  end.

Fixpoint runOps (canonical : string → string) (ops : list CtxOp) (c : Ctx.DefaultContext)
  : Ctx.outcome Ctx.DefaultContext :=
  match ops with
  | [] => Ctx.Done c
  | op :: rest => Ctx.bind (runOp canonical op c) (runOps canonical rest)
  end.

(** ** More vocabulary for patterns *)

(** The bindings of a pattern matched against its own text: every named
    parameter bound to its placeholder. *)
Definition ownBindings (pat : list Segment) : list Param :=
  omap (λ g, match g with
             | Named n => Some {| Key := n; Value := String ":" n |}
             | _ => None
             end) pat.

Definition isWildcard (g : Segment) : bool :=
  match g with Wildcard _ => true | _ => false end.

(** Literal segments of a pattern, by their texts. *)
Definition literalsOk (lits : list string) : bool :=
  forallb (λ t, segmentOk (Literal t)) lits.

(** The last byte of a string is a slash. *)
Fixpoint endsWithSlash (s : string) : bool :=
  match s with
  | EmptyString => false
  | String c EmptyString => Ascii.eqb c "/"
  | String _ s' => endsWithSlash s'
  end.

(** ** More sample applications *)

Module MoreExamples.

Import Examples.

(** A middleware that records its tag and calls its continuation. *)
Definition tag (t : string) : Middleware World := λ next c, next (c ++ [t]).

(** [GET /ping] registered bare, then again once [Use] added a middleware. *)
Definition shadowedApp : DefaultApp World :=
  GET (Use (GET sampleNew "/ping" (say "pong") []) [tag "log"]) "/ping" (say "pong2") [].

(** [GET /users/:id] alone. *)
Definition usersApp : DefaultApp World := GET sampleNew "/users/:id" (say "user") [].



(** [usersApp] after [GET /users/42] was resolved, and what its cache can
    read as once the buffer of that request holds [/users/77]. *)
Definition servedApp : DefaultApp World :=
  (resolve (visitDefault usersApp) usersApp "GET" "/users/42").2.

Definition reusedApp : DefaultApp World :=
  withCache servedApp
    {[ "GET:/users/42" :=
         Some {| chain := newFastChain [] (say "user");
                 params := [ {| Key := "id"; Value := "77" |} ];
                 pattern := "/users/:id" |} ]}.

(** A new application over contexts; its hooks do nothing. *)
Definition contextNew : DefaultApp Ctx.DefaultContext :=
  New (λ c _, c) (λ c, (c, None)) (λ c, (c, None)).

(** A [net/http] handler that answers 200 with the body ["legacy"]. *)
Definition legacyHandler : http_Handler :=
  λ w _, {| Ctx.rwHeader := Ctx.rwHeader w;
            Ctx.rwSent := Some (200%Z, Ctx.rwHeader w);
            Ctx.rwBody := Ctx.rwBody w +:+ "legacy";
            Ctx.rwFault := Ctx.rwFault w |}.

End MoreExamples.

(** * Facts *)

Example matchRoute_named :
  matchRoute "/a/:x/b" "/a/VAL/b" = Some [ {| Key := "x"; Value := "VAL" |} ].
Proof. reflexivity. Qed.

Example matchRoute_missing_segment : matchRoute "/a/:x/b" "/a/b" = None.
Proof. reflexivity. Qed.

Example matchRoute_empty_segment :
  matchRoute "/a/:x/b" "/a//b" = Some [ {| Key := "x"; Value := "" |} ].
Proof. reflexivity. Qed.

Example matchRoute_wildcard :
  matchRoute "/files/*rest" "/files/a/b/c" = Some [ {| Key := "rest"; Value := "a/b/c" |} ].
Proof. reflexivity. Qed.

Example matchRoute_pattern_text : matchRoute "/a/:x/b" "/a/:x/b" = None.
Proof. reflexivity. Qed.

(** ** Strings *)

Section StringFacts.

Implicit Types s t p m : string.

Lemma append_cons c s t : String c s +:+ t = String c (s +:+ t).
Proof. reflexivity. Qed.

Lemma append_nil_l s : "" +:+ s = s.
Proof. reflexivity. Qed.

Lemma append_assoc s t u : (s +:+ t) +:+ u = s +:+ t +:+ u.
Proof. induction s as [|c s IH]; [done |]. rewrite !append_cons. by f_equal. Qed.

Lemma append_nil_r s : s +:+ "" = s.
Proof. induction s as [|c s IH]; [done |]. rewrite append_cons. by f_equal. Qed.

Lemma length_app s t :
  String.length (s +:+ t) = String.length s + String.length t.
Proof. induction s as [|c s IH]; [done |]. rewrite append_cons. simpl. by rewrite IH. Qed.

Lemma HasPrefix_app p s : Str.HasPrefix (p +:+ s) p = true.
Proof.
  induction p as [|c p IH]; [done |].
  rewrite append_cons. simpl. by rewrite Ascii.eqb_refl, IH.
Qed.

Lemma drop_app p s : Str.drop (String.length p) (p +:+ s) = s.
Proof.
  induction p as [|c p IH]; [by destruct s |].
  by rewrite append_cons.
Qed.

Lemma TrimPrefix_app p s : Str.TrimPrefix (p +:+ s) p = s.
Proof. unfold Str.TrimPrefix. by rewrite HasPrefix_app, drop_app. Qed.

Lemma HasPrefix_split s p :
  Str.HasPrefix s p = true → s = p +:+ Str.TrimPrefix s p.
Proof.
  unfold Str.TrimPrefix. intros H. rewrite H. revert s H.
  induction p as [|c p IH]; intros s H.
  - by destruct s.
  - destruct s as [|d s]; simpl in H; [done |].
    apply andb_true_iff in H as [Hc Hp].
    apply Ascii.eqb_eq in Hc as ->. rewrite append_cons. simpl.
    f_equal. by apply IH.
Qed.

Lemma SplitColon2_key m p :
  colon_free m → Str.SplitColon2 (m +:+ ":" +:+ p) = [m; p].
Proof.
  unfold colon_free. induction m as [|c m IH]; [done |].
  rewrite append_cons. simpl.
  intros H. apply orb_false_iff in H as [Hc Hm].
  rewrite Hc. by rewrite IH.
Qed.

Lemma SplitColon2_inv s a b :
  Str.SplitColon2 s = [a; b] → s = a +:+ ":" +:+ b ∧ colon_free a.
Proof.
  unfold colon_free. revert a. induction s as [|c s IH]; simpl; intros a H; [done |].
  destruct (Ascii.eqb_spec c ":") as [-> | Hc].
  - by injection H as <- <-.
  - destruct (Str.SplitColon2 s) as [|x [|y [|z r]]] eqn:E; try done.
    injection H as <- <-. destruct (IH x eq_refl) as [-> Hx].
    split; [done |]. simpl. rewrite Hx.
    by apply Ascii.eqb_neq in Hc as ->.
Qed.

Lemma key_inj m1 p1 m2 p2 :
  colon_free m1 → colon_free m2 →
  m1 +:+ ":" +:+ p1 = m2 +:+ ":" +:+ p2 → m1 = m2 ∧ p1 = p2.
Proof.
  intros H1 H2 E. apply (f_equal Str.SplitColon2) in E.
  rewrite !SplitColon2_key in E by done. by injection E.
Qed.

Lemma HasPrefix_key m m' p :
  colon_free m → colon_free m' →
  Str.HasPrefix (m' +:+ ":" +:+ p) (m +:+ ":") = true → m' = m.
Proof.
  intros Hm Hm' H. apply HasPrefix_split in H.
  rewrite append_assoc in H. by apply key_inj in H as [-> _].
Qed.

End StringFacts.

(** ** The route matcher *)

Section MatcherFacts.

Implicit Types s t : string.

Lemma segment_length s :
  String.length s = String.length (segment s).1 + String.length (segment s).2.
Proof.
  induction s as [|c s IH]; simpl; [done |].
  destruct (Ascii.eqb c "/"); simpl; [done |].
  destruct (segment s) as [seg rest]; simpl in *. lia.
Qed.

Lemma skipSlash_length s : String.length (skipSlash s) ≤ String.length s.
Proof. destruct s as [|c s]; simpl; [done |]. destruct (Ascii.eqb c "/"); simpl; lia. Qed.

(** One round of the loop moves the pattern index forward. *)
Lemma round_shrinks s :
  nonEmpty s = true →
  String.length (skipSlash (segment s).2) < String.length s.
Proof.
  destruct s as [|c s]; simpl; [done |]. intros _.
  destruct (Ascii.eqb c "/") eqn:E; simpl.
  - rewrite E. lia.
  - pose proof (segment_length s) as Hl.
    destruct (segment s) as [seg rest]; simpl in *.
    pose proof (skipSlash_length rest). lia.
Qed.

(** The fuel of [matchLoop] never runs out: past the length of the pattern
    the result no longer depends on it. *)
Lemma matchLoop_fuel fuel pattern path acc :
  String.length pattern < fuel →
  matchLoop fuel pattern path acc
  = matchLoop (S (String.length pattern)) pattern path acc.
Proof.
  remember (String.length pattern) as n eqn:Hn.
  revert fuel pattern path acc Hn.
  induction n as [n IH] using lt_wf_ind. intros fuel pattern path acc -> Hlt.
  destruct fuel as [|fuel]; [lia |].
  cbn [matchLoop].
  destruct (nonEmpty pattern) eqn:Hp; [| done].
  destruct (nonEmpty path); [| done]. cbn [andb].
  pose proof (round_shrinks pattern Hp) as Hs.
  destruct (segment pattern) as [patternSeg patternRest].
  destruct (segment path) as [pathSeg pathRest]. simpl in Hs.
  assert (Hrec : ∀ acc',
    matchLoop fuel (skipSlash patternRest) (skipSlash pathRest) acc'
    = matchLoop (String.length pattern) (skipSlash patternRest) (skipSlash pathRest) acc').
  { intros acc'.
    rewrite (IH _ Hs fuel _ _ _ eq_refl) by lia.
    by rewrite (IH _ Hs (String.length pattern) _ _ _ eq_refl) by lia. }
  destruct patternSeg as [|c paramName].
  - destruct (negb _); [done | apply Hrec].
  - destruct (Ascii.eqb c "*"); [done |].
    destruct (Ascii.eqb c ":"); [apply Hrec |].
    destruct (negb _); [done | apply Hrec].
Qed.

End MatcherFacts.

(** ** The matcher against the specification's segment walk *)

Section Refinement.

Implicit Types s t : string.

Lemma joinSlash_cons s l : joinSlash (s :: l) = s +:+ afterFirst l.
Proof. destruct l; simpl; [by rewrite append_nil_r | done]. Qed.

Lemma skipSlash_afterFirst l : skipSlash (afterFirst l) = joinSlash l.
Proof. by destruct l. Qed.

Lemma segment_app s rest :
  slashFree s = true →
  (rest = "" ∨ ∃ r, rest = String "/" r) →
  segment (s +:+ rest) = (s, rest).
Proof.
  unfold slashFree. induction s as [|c s IH]; intros Hs Hr.
  - rewrite append_nil_l. by destruct Hr as [-> | [r ->]].
  - rewrite append_cons. simpl in *.
    apply negb_true_iff, orb_false_iff in Hs as [Hc Hs].
    rewrite Hc. rewrite IH; [done | by rewrite Hs | done].
Qed.

Lemma afterFirst_shape l : afterFirst l = "" ∨ ∃ r, afterFirst l = String "/" r.
Proof. destruct l; [by left | right; by eexists]. Qed.

Lemma segment_joinSlash s l :
  slashFree s = true → segment (joinSlash (s :: l)) = (s, afterFirst l).
Proof.
  intros Hs. rewrite joinSlash_cons.
  apply segment_app; [done | apply afterFirst_shape].
Qed.

Lemma nonEmpty_app s t : nonEmpty (s +:+ t) = nonEmpty s || nonEmpty t.
Proof. by destruct s. Qed.

Lemma pathOk_cons s l :
  pathOk (s :: l) = true → slashFree s = true ∧ pathOk l = true.
Proof.
  destruct l as [|t l]; simpl; intros H.
  - by apply andb_true_iff in H as [-> _].
  - by apply andb_true_iff in H as [-> ->].
Qed.

Lemma pathOk_nonEmpty s l :
  pathOk (s :: l) = true → nonEmpty (joinSlash (s :: l)) = true.
Proof.
  rewrite joinSlash_cons, nonEmpty_app.
  destruct l as [|t l]; simpl; intros H.
  - apply andb_true_iff in H as [_ ->]. done.
  - by rewrite orb_true_r.
Qed.

Lemma segmentOk_nonEmpty g : segmentOk g = true → nonEmpty (segmentText g) = true.
Proof. destruct g as [[|c t]| |]; simpl; try done. Qed.

Lemma segmentOk_slashFree g : segmentOk g = true → slashFree (segmentText g) = true.
Proof. unfold segmentOk. by intros [-> _]%andb_true_iff. Qed.

(** The loop of [matchRoute] walks the joined texts as [specMatch] walks the
    segments. *)
Lemma matchLoop_specMatch pat :
  ∀ path fuel acc,
    forallb segmentOk pat = true →
    pathOk path = true →
    String.length (joinSlash (segmentText <$> pat)) < fuel →
    matchLoop fuel (joinSlash (segmentText <$> pat)) (joinSlash path) acc
    = (acc ++.) <$> specMatch pat path.
Proof.
  induction pat as [|g pat IH]; intros path fuel acc Hpat Hpath Hfuel.
  - destruct fuel as [|fuel]; [simpl in Hfuel; lia |].
    destruct path as [|s path].
    + simpl. by rewrite app_nil_r.
    + cbn [matchLoop fmap list_fmap].
      rewrite (pathOk_nonEmpty _ _ Hpath). done.
  - destruct fuel as [|fuel]; [lia |].
    apply andb_true_iff in Hpat as [Hg Hpat].
    rewrite fmap_cons in *.
    pose proof (segmentOk_nonEmpty _ Hg) as Hne.
    cbn [matchLoop].
    assert (Hnp : nonEmpty (joinSlash (segmentText g :: (segmentText <$> pat))) = true).
    { by rewrite joinSlash_cons, nonEmpty_app, Hne. }
    rewrite Hnp. destruct path as [|s path].
    { simpl. by destruct g. }
    rewrite (pathOk_nonEmpty _ _ Hpath). cbn [andb].
    destruct (pathOk_cons _ _ Hpath) as [Hs Hrest].
    rewrite (segment_joinSlash _ _ (segmentOk_slashFree _ Hg)).
    rewrite (segment_joinSlash _ _ Hs).
    rewrite !skipSlash_afterFirst.
    assert (Hlen : String.length (joinSlash (segmentText <$> pat)) < fuel).
    { rewrite joinSlash_cons, length_app in Hfuel.
      pose proof (skipSlash_length (afterFirst (segmentText <$> pat))) as Hk.
      rewrite skipSlash_afterFirst in Hk.
      destruct (segmentText g) as [|c t]; [done |]. simpl in Hfuel. lia. }
    destruct g as [t | n | n]; cbn [segmentText specMatch] in *.
    + destruct t as [|c t]; [done |].
      unfold segmentOk in Hg. simpl in Hg.
      apply andb_true_iff in Hg as [_ Hc].
      apply andb_true_iff in Hc as [Hc1 Hc2].
      apply negb_true_iff in Hc1, Hc2. rewrite Hc1, Hc2.
      destruct (String.eqb (String c t) s) eqn:E; cbn [negb]; [| done].
      by apply IH.
    + cbn [Ascii.eqb Bool.eqb]. change (Ascii.eqb ":" "*") with false.
      change (Ascii.eqb ":" ":") with true. cbn iota.
      rewrite IH by done.
      destruct (specMatch pat path) as [bs|]; simpl; [| done].
      by rewrite <- app_assoc.
    + change (Ascii.eqb "*" "*") with true. cbn iota. done.
Qed.

Lemma ContainsAny_app s t chars :
  Str.ContainsAny (s +:+ t) chars = Str.ContainsAny s chars || Str.ContainsAny t chars.
Proof.
  induction s as [|c s IH]; [done |].
  rewrite append_cons. simpl. by rewrite IH, orb_assoc.
Qed.

(** A pattern whose text holds neither [':'] nor ['*'] is made of literals,
    and [specMatch] accepts for it the paths with the same segments only. *)
Lemma specMatch_plain pat :
  ∀ path bs,
    Str.ContainsAny (joinSlash (segmentText <$> pat)) ":*" = false →
    specMatch pat path = Some bs →
    segmentText <$> pat = path.
Proof.
  induction pat as [|g pat IH]; intros path bs Hc Hm.
  - by destruct path.
  - rewrite fmap_cons in *. rewrite joinSlash_cons, ContainsAny_app in Hc.
    apply orb_false_iff in Hc as [Hg Hrest].
    destruct g as [t | n | n]; simpl in Hg; try done.
    destruct path as [|s path]; [done |]. simpl in Hm.
    destruct (String.eqb_spec t s) as [-> |]; [| done].
    simpl. f_equal. apply (IH _ bs); [| done].
    destruct pat as [|g' pat']; [done |].
    cbn [afterFirst fmap list_fmap] in Hrest.
    rewrite ContainsAny_app in Hrest.
    apply orb_false_iff in Hrest as [_ Hrest]. exact Hrest.
Qed.

End Refinement.

(** ** The route table and resolution *)

Section RouterFacts.

Context {W : Type}.

Implicit Types (a : DefaultApp W) (method path m p : string).
Implicit Types (entries : list (string * FastChain W)).

Lemma routeKeyOf_eq method path : routeKeyOf method path = method +:+ ":" +:+ path.
Proof.
  unfold routeKeyOf.
  destruct (String.eqb_spec method "GET") as [-> |]; [| done].
  by destruct (String.eqb_spec path "/") as [-> |].
Qed.

(** *** Registration leaves the cache and the hooks alone *)

Lemma handle_routeCache a m p h mws : routeCache (handle a m p h mws) = routeCache a.
Proof. unfold handle, addDynamicRoute. by repeat case_match. Qed.

Lemma handle_middleware a m p h mws : middleware (handle a m p h mws) = middleware a.
Proof. unfold handle, addDynamicRoute. by repeat case_match. Qed.

Lemma Use_routeCache a mw : routeCache (Use a mw) = routeCache a.
Proof. by destruct mw. Qed.

Lemma Use_router a mw : router (Use a mw) = router a.
Proof. by destruct mw. Qed.

(** Where [handle] puts a route. *)
Lemma handle_simple a m p h :
  middleware a = [] → containsParams p = false →
  simple (router (handle a m p h [])) !! (m +:+ ":" +:+ p) = Some h.
Proof.
  intros Hmw Hp. unfold handle. rewrite Hmw, Hp. simpl.
  apply lookup_insert_eq.
Qed.

Lemma handle_static a m p h mws :
  middleware a ++ mws ≠ [] ∨ containsParams p = true →
  static (router (handle a m p h mws)) !! (m +:+ ":" +:+ p)
  = Some (newFastChain (middleware a ++ mws) h).
Proof.
  intros H. unfold handle, addDynamicRoute.
  destruct (containsParams p) eqn:Hp.
  - rewrite andb_false_r. simpl. apply lookup_insert_eq.
  - destruct H as [H | H]; [| done].
    destruct (middleware a ++ mws) eqn:E; [done |]. simpl.
    apply lookup_insert_eq.
Qed.

(** *** The scan of [findRoute] *)

Lemma scanRoutes_Some entries method path res :
  scanRoutes entries method path = Some res →
  ∃ routeKey,
    (routeKey, chain res) ∈ entries ∧
    Str.HasPrefix routeKey (method +:+ ":") = true ∧
    pattern res = Str.TrimPrefix routeKey (method +:+ ":") ∧
    matchRoute (pattern res) path = Some (params res).
Proof.
  induction entries as [|[k c] entries IH]; simpl; [done |].
  destruct (Str.HasPrefix k (method +:+ ":")) eqn:Hk; simpl.
  - destruct (matchRoute (Str.TrimPrefix k _) path) as [ps|] eqn:Hm.
    + intros [= E]. subst res. exists k. simpl. split_and!; try done.
      apply list_elem_of_here.
    + intros H. destruct (IH H) as (k' & Hin & ?). exists k'.
      split; [by apply list_elem_of_further | done].
  - intros H. destruct (IH H) as (k' & Hin & ?). exists k'.
    split; [by apply list_elem_of_further | done].
Qed.

Lemma scanRoutes_None entries method path :
  scanRoutes entries method path = None ↔
  ∀ routeKey c, (routeKey, c) ∈ entries →
    Str.HasPrefix routeKey (method +:+ ":") = true →
    matchRoute (Str.TrimPrefix routeKey (method +:+ ":")) path = None.
Proof.
  induction entries as [|[k c] entries IH]; simpl.
  - split; [| done]. intros _ k c Hin. by apply elem_of_nil in Hin.
  - destruct (Str.HasPrefix k (method +:+ ":")) eqn:Hk; simpl.
    + destruct (matchRoute _ path) as [ps|] eqn:Hm.
      * split; [done |]. intros H.
        specialize (H k c (list_elem_of_here _ _) Hk). congruence.
      * rewrite IH. split.
        -- intros H k' c' [[= -> ->] | Hin]%elem_of_cons; [done | by apply (H k' c')].
        -- intros H k' c' Hin. apply (H k' c'). by apply list_elem_of_further.
    + rewrite IH. split.
      * intros H k' c' [[= -> ->] | Hin]%elem_of_cons;
          [congruence | by apply (H k' c')].
      * intros H k' c' Hin. apply (H k' c'). by apply list_elem_of_further.
Qed.

(** *** [findRoute] and its cache *)

Lemma findRoute_cached entries a method path cached :
  routeCache a !! (method +:+ ":" +:+ path) = Some cached →
  findRoute entries a method path = (cached, a).
Proof. unfold findRoute. by intros ->. Qed.

Lemma findRoute_router entries a method path :
  router (findRoute entries a method path).2 = router a.
Proof. unfold findRoute. by repeat case_match. Qed.




End RouterFacts.

(** ** The method-not-allowed scan *)

Section PathExists.

Implicit Types (method path : string) (keys : list string).

Lemma existsSimple_true keys method path :
  existsSimple keys method path = true ↔
  ∃ k routeMethod, k ∈ keys ∧ Str.SplitColon2 k = [routeMethod; path]
                   ∧ routeMethod ≠ method.
Proof.
  induction keys as [|k keys IH]; simpl.
  - split; [done |]. intros (k & rm & Hin & _). by apply elem_of_nil in Hin.
  - assert (Hlater : existsSimple keys method path = true →
      ∃ k0 rm, k0 ∈ k :: keys ∧ Str.SplitColon2 k0 = [rm; path] ∧ rm ≠ method).
    { intros (k0 & rm & Hin & ?)%IH. exists k0, rm.
      split; [by apply list_elem_of_further | done]. }
    destruct (Str.SplitColon2 k) as [|x [|y [|z r]]] eqn:E;
      try (split; [exact Hlater |];
           intros (k0 & rm & [-> | Hin]%elem_of_cons & Hs & Hne);
           [congruence | apply IH; by exists k0, rm]).
    destruct (String.eqb_spec y path) as [-> | Hy];
      destruct (String.eqb_spec x method) as [-> | Hx]; simpl.
    + split; [exact Hlater |].
      intros (k0 & rm & [-> | Hin]%elem_of_cons & Hs & Hne);
        [congruence | apply IH; by exists k0, rm].
    + split; [| done]. intros _. exists k, x. split; [apply list_elem_of_here | done].
    + split; [exact Hlater |].
      intros (k0 & rm & [-> | Hin]%elem_of_cons & Hs & Hne);
        [congruence | apply IH; by exists k0, rm].
    + split; [exact Hlater |].
      intros (k0 & rm & [-> | Hin]%elem_of_cons & Hs & Hne);
        [congruence | apply IH; by exists k0, rm].
Qed.

Lemma existsStatic_true keys method path :
  existsStatic keys method path = true ↔
  ∃ k routeMethod routePath,
    k ∈ keys ∧ Str.SplitColon2 k = [routeMethod; routePath]
    ∧ routeMethod ≠ method ∧ pathMatches routePath path.
Proof.
  unfold pathMatches. induction keys as [|k keys IH]; simpl.
  - split; [done |]. intros (k & rm & rp & Hin & _). by apply elem_of_nil in Hin.
  - assert (Hlater : existsStatic keys method path = true →
      ∃ k0 rm rp, k0 ∈ k :: keys ∧ Str.SplitColon2 k0 = [rm; rp] ∧ rm ≠ method
                  ∧ (rp = path ∨ is_Some (matchRoute rp path))).
    { intros (k0 & rm & rp & Hin & ?)%IH. exists k0, rm, rp.
      split; [by apply list_elem_of_further | done]. }
    destruct (Str.SplitColon2 k) as [|x [|y [|z r]]] eqn:E;
      try (split; [exact Hlater |];
           intros (k0 & rm & rp & [-> | Hin]%elem_of_cons & Hs & Hne & Hm);
           [congruence | apply IH; by exists k0, rm, rp]).
    destruct (String.eqb_spec x method) as [-> | Hx]; simpl.
    + rewrite andb_false_r. simpl. split; [exact Hlater |].
      intros (k0 & rm & rp & [-> | Hin]%elem_of_cons & Hs & Hne & Hm);
        [congruence | apply IH; by exists k0, rm, rp].
    + rewrite andb_true_r.
      destruct (String.eqb_spec y path) as [-> | Hy].
      * split; [| done]. intros _. exists k, x, path.
        split; [apply list_elem_of_here | by auto].
      * case_bool_decide as Hm.
        -- split; [| done]. intros _. exists k, x, y.
           split; [apply list_elem_of_here | by auto].
        -- split; [exact Hlater |].
           intros (k0 & rm & rp & [-> | Hin]%elem_of_cons & Hs & Hne & Hm').
           ++ rewrite E in Hs. injection Hs as <- <-. by destruct Hm'.
           ++ apply IH. by exists k0, rm, rp.
Qed.

End PathExists.

(** ** Invariants of reachable applications *)

Section Reachability.

Context {W : Type}.

Implicit Types (a : DefaultApp W) (method path m p : string).

Lemma containsParams_ContainsAny p :
  containsParams p = false → Str.ContainsAny p ":*" = false.
Proof.
  induction p as [|c p IH]; [done |].
  cbn [containsParams Str.ContainsAny Str.contains].
  rewrite (Ascii.eqb_sym ":" c), (Ascii.eqb_sym "*" c).
  destruct (Ascii.eqb c ":"); [done |].
  destruct (Ascii.eqb c "*"); [done |]. exact IH.
Qed.

(** A path without [':'] or ['*'] is never matched by [matchRoute]: static
    routes are found by the map lookups only. *)
Lemma matchRoute_plain p path : containsParams p = false → matchRoute p path = None.
Proof.
  intros H%containsParams_ContainsAny. unfold matchRoute. rewrite H.
  by destruct (String.eqb p path).
Qed.

Lemma resolve_state v a method path :
  (resolve v a method path).2 = a ∨
  (resolve v a method path).2 = (findRoute (scanOrder v) a method path).2.
Proof.
  unfold resolve. repeat case_match; simpl; auto;
    match goal with H : findRoute _ _ _ _ = _ |- _ => rewrite H end; auto.
Qed.

Lemma resolve_router v a method path : router (resolve v a method path).2 = router a.
Proof.
  destruct (resolve_state v a method path) as [-> | ->]; [done |].
  apply findRoute_router.
Qed.

Lemma handle_simple_keys_ok a m p h mws :
  colon_free m → simple_keys_ok a → simple_keys_ok (handle a m p h mws).
Proof.
  intros Hm Ha k h'. unfold handle, addDynamicRoute.
  destruct (containsParams p) eqn:Hp; [rewrite andb_false_r; simpl; apply Ha |].
  destruct (length _ =? 0); simpl; [| apply Ha].
  intros [[<- <-] | [_ H]]%lookup_insert_Some; [by exists m, p | by eapply Ha].
Qed.

Lemma handle_static_grows a m p h mws k :
  is_Some (static (router a) !! k) →
  is_Some (static (router (handle a m p h mws)) !! k).
Proof.
  intros Hk. unfold handle, addDynamicRoute.
  repeat case_match; simpl; try done;
    rewrite lookup_insert; by case_decide.
Qed.

Lemma aliased_refl (ps : list Param) : Forall2 aliased ps ps.
Proof. induction ps; by constructor. Qed.

Lemma aliased_trans (ps qs rs : list Param) :
  Forall2 aliased ps qs → Forall2 aliased qs rs → Forall2 aliased ps rs.
Proof.
  intros H. revert rs. induction H as [|p q ps qs [Hk Hl] _ IH]; intros rs Hrs.
  - by inversion Hrs.
  - inversion Hrs as [|q' r' qs' rs' [Hk' Hl'] Hrest]; subst.
    constructor; [| by apply IH]. split; congruence.
Qed.

(** What a cache reads as after its buffers were taken again has the keys
    it had. *)
Lemma bufferReuse_size (cache cache' : gmap string (option (routeResult W))) :
  bufferReuse cache cache' → size cache' = size cache.
Proof.
  intros H. rewrite <- !size_dom. f_equal. apply set_eq. intros k.
  rewrite !elem_of_dom. specialize (H k).
  destruct H; split; intros [? ?]; by eauto.
Qed.


Lemma bufferReuse_lookup_inv (cache cache' : gmap string (option (routeResult W))) k res' :
  bufferReuse cache cache' → cache' !! k = Some (Some res') →
  ∃ res, cache !! k = Some (Some res) ∧ reread res res'.
Proof.
  intros H Hk. specialize (H k). rewrite Hk in H.
  inversion H as [x0 x' Hx E1 E2 |]; subst.
  inversion Hx as [res res0 Hr |]; subst. by exists res.
Qed.

Lemma handle_cache_sound a m p h mws : cache_sound a → cache_sound (handle a m p h mws).
Proof.
  intros Ha k res. rewrite handle_routeCache. intros H.
  destruct (Ha k res H) as (m0 & p0 & ps & -> & Hm0 & Hs & Hmatch & Hal).
  exists m0, p0, ps. split_and!; try done. by apply handle_static_grows.
Qed.

Lemma findRoute_cache_sound entries a method path :
  entries ≡ₚ map_to_list (static (router a)) →
  colon_free method →
  cache_sound a → cache_sound (findRoute entries a method path).2.
Proof.
  intros Hperm Hm Ha. unfold findRoute.
  destruct (routeCache a !! _) as [cached|] eqn:Hc; [done |].
  destruct (scanRoutes _ _ _) as [res|] eqn:Hscan;
    destruct (size (routeCache a) <? cacheLimit); simpl; try done.
  - intros k res'. simpl.
    intros [[<- [= <-]] | [_ H]]%lookup_insert_Some; [| by apply Ha].
    destruct (scanRoutes_Some _ _ _ _ Hscan) as (routeKey & Hin & Hpre & Hpat & Hmatch).
    exists method, path, (params res). split_and!; try done; [| apply aliased_refl].
    rewrite Hperm in Hin. apply elem_of_map_to_list in Hin.
    apply HasPrefix_split in Hpre. rewrite <- Hpat, append_assoc in Hpre.
    rewrite <- Hpre. by eexists.
  - intros k res'. simpl.
    intros [[_ [=]] | [_ H]]%lookup_insert_Some. by apply Ha.
Qed.

Lemma reuse_cache_sound a cache' :
  bufferReuse (routeCache a) cache' → cache_sound a → cache_sound (withCache a cache').
Proof.
  intros Hreuse Ha k res' Hk. simpl in Hk.
  destruct (bufferReuse_lookup_inv _ _ _ _ Hreuse Hk) as (res & Hres & Hch & Hpat & Hal).
  destruct (Ha k res Hres) as (m0 & p0 & ps & -> & Hm0 & Hs & Hmatch & Hal0).
  exists m0, p0, ps. rewrite Hpat. split_and!; try done.
  by apply (aliased_trans _ (params res)).
Qed.

Lemma reachable_simple_keys_ok a : reachable a → simple_keys_ok a.
Proof.
  induction 1 as [| | a m p h mws _ IH Hm | | | | a v m p _ IH Hv Hm |]; try done.
  - unfold simple_keys_ok. by rewrite Use_router.
  - by apply handle_simple_keys_ok.
  - unfold simple_keys_ok. by rewrite resolve_router.
Qed.

Lemma reachable_cache_sound a : reachable a → cache_sound a.
Proof.
  induction 1 as [| a mw _ IH | a m p h mws _ IH Hm | | | | a v m p _ IH Hv Hm
                 | a cache' _ IH Hreuse];
    try done.
  - unfold cache_sound. by rewrite Use_routeCache, Use_router.
  - by apply handle_cache_sound.
  - destruct (resolve_state v a m p) as [-> | ->]; [done |].
    apply findRoute_cache_sound; [apply Hv | done..].
  - by apply reuse_cache_sound.
Qed.

Lemma reachableNet_reachable a : reachableNet a → reachable a.
Proof. induction 1; by constructor. Qed.

Lemma findRoute_cache_exact entries a method path :
  colon_free method →
  cache_exact a → cache_exact (findRoute entries a method path).2.
Proof.
  intros Hm Ha. unfold findRoute.
  destruct (routeCache a !! _) as [cached|] eqn:Hc; [done |].
  destruct (scanRoutes _ _ _) as [res|] eqn:Hscan;
    destruct (size (routeCache a) <? cacheLimit); simpl; try done.
  - intros k res'. simpl.
    intros [[<- [= <-]] | [_ H]]%lookup_insert_Some; [| by apply Ha].
    destruct (scanRoutes_Some _ _ _ _ Hscan) as (routeKey & _ & _ & _ & Hmatch).
    by exists method, path.
  - intros k res'. simpl.
    intros [[_ [=]] | [_ H]]%lookup_insert_Some. by apply Ha.
Qed.

Lemma reachableNet_cache_exact a : reachableNet a → cache_exact a.
Proof.
  induction 1 as [| a mw _ IH | a m p h mws _ IH Hm | | | | a v m p _ IH Hv Hm];
    try done.
  - unfold cache_exact. by rewrite Use_routeCache.
  - unfold cache_exact. by rewrite handle_routeCache.
  - destruct (resolve_state v a m p) as [-> | ->]; [done |].
    by apply findRoute_cache_exact.
Qed.

End Reachability.

(** ** Misses: method not allowed against not found *)

Section Misses.

Context {W : Type}.

Implicit Types (a : DefaultApp W) (v : Visit W) (method path m p : string).

Lemma visited_simple a v k :
  visit_ok a v → k ∈ (fst <$> simpleOrder v) ↔ is_Some (simple (router a) !! k).
Proof.
  intros (_ & Hs & _). rewrite list_elem_of_fmap. split.
  - intros ([k' h] & -> & Hin). rewrite Hs in Hin.
    apply elem_of_map_to_list in Hin. by eexists.
  - intros [h Hh]. exists (k, h). split; [done |].
    rewrite Hs. by apply elem_of_map_to_list.
Qed.

Lemma visited_static a v k :
  visit_ok a v → k ∈ (fst <$> staticOrder v) ↔ is_Some (static (router a) !! k).
Proof.
  intros (_ & _ & Hs). rewrite list_elem_of_fmap. split.
  - intros ([k' h] & -> & Hin). rewrite Hs in Hin.
    apply elem_of_map_to_list in Hin. by eexists.
  - intros [h Hh]. exists (k, h). split; [done |].
    rewrite Hs. by apply elem_of_map_to_list.
Qed.

(** The scan answers whether a route registered under another method has a
    path that matches. *)
Lemma pathExists_true a v method path :
  visit_ok a v → simple_keys_ok a →
  pathExistsWithDifferentMethod (fst <$> simpleOrder v) (fst <$> staticOrder v)
    method path = true
  ↔ ∃ m' p', colon_free m' ∧ m' ≠ method ∧ registered a m' p' ∧ pathMatches p' path.
Proof.
  intros Hv Hkeys. unfold pathExistsWithDifferentMethod. split.
  - destruct (existsSimple _ _ _) eqn:Hsimple.
    + intros _. apply existsSimple_true in Hsimple as (k & rm & Hin & Hsplit & Hne).
      apply SplitColon2_inv in Hsplit as [-> Hrm].
      exists rm, path. split_and!; try done; [| by left].
      left. by apply (visited_simple a v).
    + intros (k & rm & rp & Hin & Hsplit & Hne & Hm)%existsStatic_true.
      apply SplitColon2_inv in Hsplit as [-> Hrm].
      exists rm, rp. split_and!; try done.
      right. by apply (visited_static a v).
  - intros (m' & p' & Hm' & Hne & [Hreg | Hreg] & Hmatch).
    + assert (existsSimple (fst <$> simpleOrder v) method path = true) as ->; [| done].
      apply existsSimple_true. exists (m' +:+ ":" +:+ p'), m'.
      split; [by apply (visited_simple a v) |]. split; [| done].
      destruct Hreg as [h Hh].
      destruct (Hkeys _ _ Hh) as (m0 & p0 & E & Hm0 & Hplain).
      apply key_inj in E as [<- <-]; try done.
      destruct Hmatch as [-> | Hmatch]; [by apply SplitColon2_key |].
      rewrite matchRoute_plain in Hmatch by done. by destruct Hmatch.
    + destruct (existsSimple _ _ _); [done |].
      apply existsStatic_true. exists (m' +:+ ":" +:+ p'), m', p'.
      split; [by apply (visited_static a v) |].
      split; [by apply SplitColon2_key | done].
Qed.


End Misses.

(** ** Resolving the same request twice *)

Section Twice.

Context {W : Type}.

Implicit Types (a : DefaultApp W) (v : Visit W) (method path m p : string).
Implicit Types (entries : list (string * FastChain W)).








End Twice.

(** ** Registration against the cache and against itself *)

Section Registration.

Context {W : Type}.

Implicit Types (a : DefaultApp W) (v : Visit W) (method path m p : string).
Implicit Types (entries : list (string * FastChain W)).

Lemma registers_routeCache a a' : registers a a' → routeCache a' = routeCache a.
Proof.
  induction 1 as [| a a' m p h mws _ IH | a a' mw _ IH]; [done | |].
  - by rewrite handle_routeCache.
  - by rewrite Use_routeCache.
Qed.

(** C10. Registration never invalidates the cache: once a miss for a method
    and path is recorded, [findRoute] keeps returning that miss after any
    registrations, whatever routes they add, and leaves the application as
    it is. *)
Theorem cached_miss_survives a a' method path entries :
  registers a a' →
  routeCache a !! (method +:+ ":" +:+ path) = Some None →
  findRoute entries a' method path = (None, a').
Proof.
  intros Hreg Hmiss. apply findRoute_cached.
  by rewrite (registers_routeCache _ _ Hreg).
Qed.

(** A parameterized path goes to the [static] map, whatever the middleware. *)
Lemma handle_dynamic a m pat h mws :
  containsParams pat = true →
  handle a m pat h mws
  = addDynamicRoute a m pat (newFastChain (middleware a ++ mws) h).
Proof. intros Hp. unfold handle. by rewrite Hp, andb_false_r. Qed.



End Registration.

(** ** The sample applications *)

Section Samples.

Import Examples.

Lemma visitDefault_ok {W} (a : DefaultApp W) : visit_ok a (visitDefault a).
Proof. by split_and!. Qed.

Lemma visitReversed_ok a : visit_ok a (visitReversed a).
Proof. split_and!; try done. simpl. apply reverse_Permutation. Qed.

Lemma colon_free_GET : colon_free "GET".
Proof. reflexivity. Qed.


Lemma warm_reachable n a : reachable a → reachable (warm n a).
Proof.
  unfold warm. generalize 0. revert a.
  induction n as [|n IH]; intros a start Ha; [done |].
  simpl. apply IH. apply reach_resolve; [done | apply visitDefault_ok | reflexivity].
Qed.

Lemma fullApp_reachable : reachable fullApp.
Proof.
  apply warm_reachable.
  do 2 (apply reach_handle; [| reflexivity]). apply reach_New.
Qed.

Lemma fullApp_cache_full : size (routeCache fullApp) = cacheLimit.
Proof. vm_compute. reflexivity. Qed.

(** The scenario of the specification: [GET /ping] registered alone. *)
Example ping_found :
  (resolve (visitDefault pingApp) pingApp "GET" "/ping").1
  = {| branch := BSimple; run := say "pong"; resetParams := []; resetRoute := "/ping" |}.
Proof. reflexivity. Qed.

Example pingx_not_found :
  branch (resolve (visitDefault pingApp) pingApp "GET" "/pingx").1 = BNotFound
  ∧ (serve (λ _ _, []) (visitDefault pingApp) pingApp "GET" "/pingx").1
    = ["404 Not Found"].
Proof. split; reflexivity. Qed.

Example post_ping_not_allowed :
  branch (resolve (visitDefault pingApp) pingApp "POST" "/ping").1 = BMethodNA
  ∧ (serve (λ _ _, []) (visitDefault pingApp) pingApp "POST" "/ping").1
    = ["405 Method Not Allowed"].
Proof. split; reflexivity. Qed.










(** C10, at a concrete input: the miss for [GET /users/42] recorded before
    [GET /users/:id] is registered still answers afterwards, while the
    pattern does match that path. *)
Lemma cached_miss_survives_witness :
  registers missedApp lateApp
  ∧ routeCache missedApp !! "GET:/users/42" = Some None
  ∧ findRoute (map_to_list (static (router lateApp))) lateApp "GET" "/users/42"
    = (None, lateApp).
Proof.
  assert (Hreg : registers missedApp lateApp)
    by (apply registers_handle, registers_refl).
  split; [exact Hreg |]. split; [reflexivity |].
  exact (cached_miss_survives missedApp lateApp "GET" "/users/42" _ Hreg eq_refl).
Defined.

Example late_route_matches :
  matchRoute "/users/:id" "/users/42" = Some [ {| Key := "id"; Value := "42" |} ]
  ∧ branch (resolve (visitDefault lateApp) lateApp "GET" "/users/42").1 = BNotFound
  ∧ branch (resolve (visitDefault lateApp) lateApp "GET" "/users/43").1 = BDynamic.
Proof. split_and!; reflexivity. Qed.

End Samples.

(** ** Named and wildcard captures *)

Section Captures.




(** The family of the specification: [/a/:x/b] against [/a/VAL/b], for every
    [VAL] without a slash other than the text [":x"] of the capture. *)
Corollary named_capture_binds val :
  slashFree val = true → val ≠ ":x" →
  matchRoute "/a/:x/b" ("/a/" +:+ val +:+ "/b")
  = Some [ {| Key := "x"; Value := val |} ].
Proof.
  intros Hval Hne. unfold matchRoute.
  destruct (String.eqb_spec "/a/:x/b" ("/a/" +:+ val +:+ "/b")) as [E | _].
  { exfalso. apply Hne. injection E as E. rewrite append_nil_l in E.
    assert (Hseg : segment (val +:+ "/b") = (val, "/b")) by (apply segment_app; eauto).
    rewrite <- E in Hseg. by injection Hseg. }
  change (Str.ContainsAny "/a/:x/b" ":*") with true. cbn [negb].
  change (skipSlash "/a/:x/b")
    with (joinSlash (segmentText <$> [Literal "a"; Named "x"; Literal "b"])).
  change (skipSlash ("/a/" +:+ val +:+ "/b")) with (joinSlash ["a"; val; "b"]).
  rewrite matchLoop_specMatch; [done | done | | simpl; lia].
  simpl. by rewrite Hval.
Qed.

End Captures.

Section Wildcard.

Context {W : Type}.

(** The wildcard of [/files/*rest] takes all that follows [/files/]. *)
Lemma matchRoute_files_rest (t : string) :
  t ≠ "" → t ≠ "*rest" →
  matchRoute "/files/*rest" ("/files/" +:+ t)
  = Some [ {| Key := "rest"; Value := t |} ].
Proof.
  intros Hne Hpat. unfold matchRoute.
  destruct (String.eqb_spec "/files/*rest" ("/files/" +:+ t)) as [E | _].
  { exfalso. apply Hpat. injection E as E. by rewrite append_nil_l in E. }
  change (Str.ContainsAny "/files/*rest" ":*") with true. cbn [negb].
  destruct t as [|c t]; [done |].
  change (skipSlash ("/files/" +:+ String c t)) with ("files/" +:+ String c t).
  rewrite !append_cons, append_nil_l. cbn.
  by destruct (Ascii.eqb c "/"); [| destruct (segment t)].
Qed.

(** C5. With [/files/*rest] registered under GET on a new application, a
    request for [/files/] followed by any non-empty text [t] (other than the
    text ["*rest"] of the capture itself) resolves to that route and binds
    [rest] to the whole of [t], slashes included: [/files/a/b/c] binds
    [rest] to [a/b/c]. *)
Theorem wildcard_binds_rest dE dN dM (h : Handler W) (mws : list (Middleware W))
    (v : Visit W) (t : string) :
  let a := handle (New dE dN dM) "GET" "/files/*rest" h mws in
  visit_ok a v → t ≠ "" → t ≠ "*rest" →
  matchRoute "/files/*rest" ("/files/" +:+ t)
  = Some [ {| Key := "rest"; Value := t |} ]
  ∧ (resolve v a "GET" ("/files/" +:+ t)).1
    = {| branch := BDynamic;
         run := Execute (newFastChain mws h);
         resetParams := [ {| Key := "rest"; Value := t |} ];
         resetRoute := "/files/*rest" |}.
Proof.
  intros a (Hscan & _ & _) Hne Hpat.
  pose proof (matchRoute_files_rest t Hne Hpat) as Hmatch.
  split; [done |].
  subst a. rewrite handle_dynamic in * by done.
  unfold addDynamicRoute, withRouter in *. simpl in Hscan.
  rewrite insert_empty, map_to_list_singleton in Hscan.
  apply Permutation_singleton_r in Hscan.
  unfold resolve. rewrite routeKeyOf_eq, Hscan.
  cbn [router simple static New newFastRouter middleware routeCache app].
  rewrite lookup_empty, lookup_insert_ne; last first.
  { intros [= E]. apply Hpat. by rewrite append_nil_l in E. }
  rewrite lookup_empty. unfold findRoute. cbn [routeCache].
  rewrite lookup_empty. cbn [scanRoutes].
  change (Str.HasPrefix _ ("GET" +:+ ":")) with true. cbn [negb].
  change (Str.TrimPrefix _ ("GET" +:+ ":")) with "/files/*rest".
  by rewrite Hmatch.
Qed.

End Wildcard.

Lemma wildcard_binds_rest_witness :
  let a := Examples.GETfiles in
  visit_ok a (visitDefault a) ∧ "a/b/c" ≠ "" ∧ "a/b/c" ≠ "*rest"
  ∧ matchRoute "/files/*rest" "/files/a/b/c"
    = Some [ {| Key := "rest"; Value := "a/b/c" |} ]
  ∧ (resolve (visitDefault a) a "GET" "/files/a/b/c").1
    = {| branch := BDynamic;
         run := Execute (newFastChain [] (Examples.say "file"));
         resetParams := [ {| Key := "rest"; Value := "a/b/c" |} ];
         resetRoute := "/files/*rest" |}.
Proof.
  intros a.
  split; [apply visitDefault_ok |]. split; [done |]. split; [done |].
  apply (wildcard_binds_rest Examples.onError (Examples.say "404 Not Found")
           (Examples.say "405 Method Not Allowed") (Examples.say "file") []
           (visitDefault a) "a/b/c"); [apply visitDefault_ok | done | done].
Defined.

(** ** Compiled chains *)

Section Chains.

Context {W : Type}.

Implicit Types (mws : list (Middleware W)) (h : Handler W).

Lemma composeFrom_take mws i h :
  i ≤ length mws →
  composeFrom mws i h = foldr (λ mw next, mw next) h (take i mws).
Proof.
  unfold Middleware in *.
  revert h. induction i as [|j IH]; intros h Hi; [done |].
  cbn [composeFrom]. destruct (_ !! j) as [mw|] eqn:Hmw.
  - rewrite IH by lia. by rewrite (take_S_r _ _ _ Hmw), foldr_app.
  - apply lookup_ge_None in Hmw. lia.
Qed.

(** The special cases of [newFastChain] for up to three middleware and its
    loop all build the one right-to-left composition. *)
Lemma newFastChain_foldr mws h :
  exec (newFastChain mws h) = foldr (λ mw next, mw next) h mws.
Proof.
  destruct mws as [|mw1 [|mw2 [|mw3 [|mw4 mws]]]]; try done.
  unfold newFastChain. cbn [exec].
  rewrite composeFrom_take by done. by rewrite firstn_all.
Qed.

End Chains.

Section MiddlewareOrder.

Context {U : Type}.

Implicit Types (u : U) (tr : list string).

(** C2. Global middleware [A; B] registered with [Use], then a route with
    its own middleware [C] and handler [H]: the chain stored for the route
    is [A (B (C H))], for a static and for a parameterized path alike. When
    [A], [B], [C] and [H] leave a trace, every invocation records [A], [B],
    [C], [H] in that order when each middleware calls its continuation; a
    middleware that returns without calling it ends the run there, with the
    trace showing that nothing inside it ran. *)
Theorem middleware_order (a0 : DefaultApp (Traced U)) method path
    tA tB tC tH (wA wB wC : U → U * Step) (body : U → U * option Err) :
  middleware a0 = [] →
  let A := tracedMiddleware tA wA in
  let B := tracedMiddleware tB wB in
  let C := tracedMiddleware tC wC in
  let H := tracedHandler tH body in
  let a := handle (Use a0 [A; B]) method path H [C] in
  ∃ chain,
    static (router a) !! (method +:+ ":" +:+ path) = Some chain
    ∧ Execute chain = A (B (C H))
    ∧ ∀ tr u,
        match wA u with
        | (u1, Stop r) => Execute chain (tr, u) = ((tr ++ [tA], u1), r)
        | (u1, Continue) =>
            match wB u1 with
            | (u2, Stop r) => Execute chain (tr, u) = ((tr ++ [tA; tB], u2), r)
            | (u2, Continue) =>
                match wC u2 with
                | (u3, Stop r) =>
                    Execute chain (tr, u) = ((tr ++ [tA; tB; tC], u3), r)
                | (u3, Continue) =>
                    Execute chain (tr, u)
                    = ((tr ++ [tA; tB; tC; tH], (body u3).1), (body u3).2)
                end
            end
        end.
Proof.
  intros Hmw A B C H a.
  exists (newFastChain [A; B; C] H).
  assert (Hall : middleware (Use a0 [A; B]) ++ [C] = [A; B; C]).
  { simpl. by rewrite Hmw. }
  split.
  { subst a. rewrite <- Hall. apply handle_static. left. by rewrite Hall. }
  split; [done |].
  intros tr u. unfold Execute. cbn [newFastChain exec].
  unfold A, B, C, H, tracedMiddleware, tracedHandler. cbn [fst snd].
  destruct (wA u) as [u1 [|r]]; [| done].
  destruct (wB u1) as [u2 [|r]]; [| by rewrite <- app_assoc].
  destruct (wC u2) as [u3 [|r]]; [| by rewrite <- !app_assoc].
  destruct (body u3) as [u4 err]. by rewrite <- !app_assoc.
Qed.

End MiddlewareOrder.

Lemma middleware_order_witness :
  let go : unit → unit * Step := λ u, (u, Continue) in
  let deny : unit → unit * Step := λ u, (u, Stop (Some "denied")) in
  let a0 : DefaultApp (Traced unit) :=
    New (λ c _, c) (tracedHandler "404" (λ u, (u, None)))
        (tracedHandler "405" (λ u, (u, None))) in
  middleware a0 = []
  ∧ (∃ chain,
       static (router (handle (Use a0 [tracedMiddleware "A" go; tracedMiddleware "B" go])
                         "GET" "/users/:id" (tracedHandler "H" (λ u, (u, None)))
                         [tracedMiddleware "C" go]))
         !! "GET:/users/:id" = Some chain
       ∧ Execute chain ([], ()) = ((["A"; "B"; "C"; "H"], ()), None))
  ∧ (∃ chain,
       static (router (handle (Use a0 [tracedMiddleware "A" go; tracedMiddleware "B" deny])
                         "GET" "/users/:id" (tracedHandler "H" (λ u, (u, None)))
                         [tracedMiddleware "C" go]))
         !! "GET:/users/:id" = Some chain
       ∧ Execute chain ([], ()) = ((["A"; "B"], ()), Some "denied")).
Proof.
  intros go deny a0. split; [reflexivity |]. split.
  - destruct (middleware_order a0 "GET" "/users/:id" "A" "B" "C" "H" go go go
                (λ u, (u, None)) eq_refl) as (chain & Hstored & _ & Hrun).
    exists chain. split; [exact Hstored |]. exact (Hrun [] ()).
  - destruct (middleware_order a0 "GET" "/users/:id" "A" "B" "C" "H" go deny go
                (λ u, (u, None)) eq_refl) as (chain & Hstored & _ & Hrun).
    exists chain. split; [exact Hstored |]. exact (Hrun [] ()).
Defined.

(** ** The request context *)

Section ContextFacts.

Implicit Types (c : Ctx.DefaultContext) (ps : list Param) (name : string).

(** *** Flags *)

Lemma testFlag_set_flags flag x c :
  Ctx.testFlag flag (Ctx.set_flags x c) = negb (Z.land x flag =? 0)%Z.
Proof. reflexivity. Qed.

Lemma testFlag_setFlag flag v c :
  flag ≠ 0%Z → Ctx.testFlag flag (Ctx.setFlag flag v c) = v.
Proof.
  intros Hflag. unfold Ctx.setFlag. destruct v; rewrite testFlag_set_flags.
  - rewrite Z.land_lor_distr_l, Z.land_diag.
    destruct (Z.eqb_spec (Z.lor (Z.land (Ctx.flags c) flag) flag) 0) as [E |]; [| done].
    apply Z.lor_eq_0_iff in E as [_ E]. done.
  - by rewrite Z.land_ldiff.
Qed.

(** *** The parameter array *)

Lemma copyParams_length ps i n arr :
  length (Ctx.copyParams ps i n arr) = length arr.
Proof.
  revert i arr. induction n as [|n IH]; intros i arr; simpl; [done |].
  destruct (ps !! i); [| done]. by rewrite IH, length_insert.
Qed.

Lemma copyParams_lookup ps n : ∀ i arr j,
  i + n ≤ length ps → i + n ≤ length arr →
  Ctx.copyParams ps i n arr !! j
  = if bool_decide (i ≤ j < i + n) then ps !! j else arr !! j.
Proof.
  induction n as [|n IH]; intros i arr j Hps Harr; simpl.
  - case_bool_decide; [lia | done].
  - destruct (lookup_lt_is_Some_2 ps i) as [p Hp]; [lia |].
    rewrite Hp, IH by (rewrite ?length_insert; lia).
    repeat case_bool_decide; try lia; try done.
    + assert (j = i) as -> by lia.
      rewrite list_lookup_insert_eq by lia. done.
    + rewrite list_lookup_insert_ne by lia. done.
Qed.

(** The scan of [Param] over an array that holds [ps] in its first slots
    finds what [ByName] finds in [ps]. *)
Lemma paramLoop_ByName arr ps name : ∀ n i,
  i + n = length ps →
  (∀ j, i ≤ j < i + n → arr !! j = ps !! j) →
  Ctx.paramLoop arr name i n = Ctx.Done (Ctx.ByName (drop i ps) name).
Proof.
  induction n as [|n IH]; intros i Hlen Harr; simpl.
  - by rewrite drop_ge by lia.
  - destruct (lookup_lt_is_Some_2 ps i) as [p Hp]; [lia |].
    rewrite Harr, Hp by lia.
    rewrite (drop_S _ _ _ Hp). simpl.
    destruct (String.eqb (Key p) name); [done |].
    apply IH; [lia |]. intros j Hj. apply Harr. lia.
Qed.

End ContextFacts.

Section ResetFacts.

Implicit Types (c : Ctx.DefaultContext) (ps : list Param) (name : string).

(** What [resetCommon] leaves in the fields the accessors read. *)
Lemma resetCommon_fields ps lg c :
  let c' := Ctx.resetCommon ps lg c in
  Ctx.status c' = 0%Z
  ∧ Ctx.wroteBytes c' = 0%Z
  ∧ Ctx.flags c'
    = (if Ctx.isFastHTTP c then Z.lor Ctx.flagJSONEscape Ctx.flagIsFastHTTP
       else Ctx.flagJSONEscape)
  ∧ Ctx.w c' = Ctx.w c ∧ Ctx.r c' = Ctx.r c ∧ Ctx.fctx c' = Ctx.fctx c
  ∧ Ctx.route c' = Ctx.route c
  ∧ Ctx.appLogger c' = head lg
  ∧ (Ctx.bufBytes <$> Ctx.responseBuffer c') = Some ""
  ∧ (Ctx.bufBytes <$> Ctx.jsonBuffer c') = Some "".
Proof.
  unfold Ctx.resetCommon. cbv zeta.
  set (c1 := if (length ps =? 0)%nat then _ else _).
  assert (Hflags : Ctx.flags c1 = Ctx.flags c)
    by (subst c1; by repeat case_match).
  assert (Hw : Ctx.w c1 = Ctx.w c ∧ Ctx.r c1 = Ctx.r c ∧ Ctx.fctx c1 = Ctx.fctx c
               ∧ Ctx.route c1 = Ctx.route c
               ∧ Ctx.responseBuffer c1 = Ctx.responseBuffer c
               ∧ Ctx.jsonBuffer c1 = Ctx.jsonBuffer c)
    by (subst c1; by repeat case_match).
  destruct Hw as (Hw & Hr & Hf & Hroute & Hrb & Hjb).
  assert (Hfast : Ctx.isFastHTTP (Ctx.set_wroteBytes 0 (Ctx.set_status 0 c1))
                  = Ctx.isFastHTTP c).
  { unfold Ctx.isFastHTTP, Ctx.testFlag. simpl. by rewrite Hflags. }
  rewrite Hfast.
  assert (Hq : ∀ x y, (x = Z.lor Ctx.flagJSONEscape Ctx.flagIsFastHTTP
                       ∨ x = Ctx.flagJSONEscape) →
                      Ctx.hasQueryCache (Ctx.set_flags x y) = false)
    by (by intros x y [-> | ->]).
  destruct (Ctx.isFastHTTP c); rewrite Hq by auto;
    (destruct lg; cbn; rewrite ?Hw, ?Hr, ?Hf, ?Hroute, ?Hrb, ?Hjb;
     split_and!; try done;
     first [by destruct (Ctx.responseBuffer c) | by destruct (Ctx.jsonBuffer c)]).
Qed.

(** The parameters [Param] finds after [resetCommon] are those handed to it. *)
Lemma resetCommon_Param ps lg c name :
  length (Ctx.params c) = 32 →
  Ctx.Param name (Ctx.resetCommon ps lg c) = Ctx.Done (Ctx.ByName ps name).
Proof.
  intros Hlen. unfold Ctx.resetCommon. cbv zeta.
  set (c1 := if (length ps =? 0)%nat then _ else _).
  assert (HP : ∀ c2, Ctx.paramSlice c2 = Ctx.paramSlice c1 →
                     Ctx.params c2 = Ctx.params c1 →
                     Ctx.paramCount c2 = Ctx.paramCount c1 →
                     Ctx.Param name c2 = Ctx.Param name c1).
  { intros c2 H1 H2 H3. unfold Ctx.Param. by rewrite H1, H2, H3. }
  rewrite HP; [| by repeat case_match..].
  subst c1. unfold Ctx.Param.
  destruct (Nat.eqb_spec (length ps) 0) as [H0 | H0]; cbn.
  { destruct ps; [| done]. rewrite H0. done. }
  destruct (Nat.leb_spec (length ps) 32) as [H32 | H32]; cbn; [| done].
  unfold Ctx.uint8. rewrite Z.mod_small by lia. rewrite Nat2Z.id.
  rewrite (paramLoop_ByName _ ps); [done | done |].
  intros j Hj. rewrite copyParams_lookup by lia.
  by rewrite bool_decide_eq_true_2 by lia.
Qed.

Lemma isFastHTTP_setFastHTTP v c : Ctx.isFastHTTP (Ctx.setFastHTTP v c) = v.
Proof. by apply testFlag_setFlag. Qed.

End ResetFacts.

(** ** Reuse of a pooled context *)

Section Isolation.

Implicit Types (c : Ctx.DefaultContext) (ps : list Param) (name : string).

Lemma Reset_fields w r ps route lg c :
  let c' := Ctx.Reset w r ps route lg c in
  Ctx.status c' = 0%Z ∧ Ctx.wroteBytes c' = 0%Z
  ∧ Ctx.flags c' = Ctx.flagJSONEscape
  ∧ Ctx.w c' = Some w ∧ Ctx.r c' = Some r ∧ Ctx.fctx c' = None
  ∧ Ctx.route c' = route.
Proof.
  unfold Ctx.Reset. cbv zeta.
  set (c0 := Ctx.setFastHTTP false _).
  pose proof (resetCommon_fields ps lg c0) as (H1 & H2 & H3 & H4 & H5 & H6 & H7 & _).
  subst c0. rewrite isFastHTTP_setFastHTTP in H3.
  by split_and!.
Qed.

Lemma ResetFastHTTP_fields f ps route lg c :
  let c' := Ctx.ResetFastHTTP f ps route lg c in
  Ctx.status c' = 0%Z ∧ Ctx.wroteBytes c' = 0%Z
  ∧ Ctx.flags c' = Z.lor Ctx.flagJSONEscape Ctx.flagIsFastHTTP
  ∧ Ctx.w c' = None ∧ Ctx.r c' = None ∧ Ctx.fctx c' = Some f
  ∧ Ctx.route c' = route.
Proof.
  unfold Ctx.ResetFastHTTP. cbv zeta.
  set (c0 := Ctx.setFastHTTP true _).
  pose proof (resetCommon_fields ps lg c0) as (H1 & H2 & H3 & H4 & H5 & H6 & H7 & _).
  subst c0. rewrite isFastHTTP_setFastHTTP in H3.
  by split_and!.
Qed.

(** C9, as stated, at a concrete input: a context that served a request
    with two parameters and is reset for a request with none keeps the old
    bindings in its parameter array, where a context fresh from the pool
    has none; the field is not reinitialized. *)
Lemma reset_keeps_stale_slots :
  let reused :=
    Ctx.Reset CtxExamples.writer0 (CtxExamples.request "/ping") [] "/ping" []
      CtxExamples.usedContext in
  let fresh :=
    Ctx.Reset CtxExamples.writer0 (CtxExamples.request "/ping") [] "/ping" []
      Ctx.zeroContext in
  Ctx.params reused !! 0 = Some {| Key := "x"; Value := "1" |}
  ∧ Ctx.params fresh !! 0 = Some Ctx.emptyParam
  ∧ Ctx.params reused ≠ Ctx.params fresh.
Proof. split; [reflexivity |]. split; [reflexivity |]. by vm_compute. Qed.

(** C9, as the code has it. After [Reset] or [ResetFastHTTP] of a pooled
    context, whatever it held before, every accessor answers from the
    arguments of the reset alone: [Param] finds the new bindings and no
    others, the staged status is 0, the header is not written, the route,
    request, writer (with its headers) and query values are the new ones. *)
Theorem reset_isolation c w r f ps route lg :
  length (Ctx.params c) = 32 →
  let cn := Ctx.Reset w r ps route lg c in
  let cf := Ctx.ResetFastHTTP f ps route lg c in
  (∀ name, Ctx.Param name cn = Ctx.Done (Ctx.ByName ps name))
  ∧ (∀ name, Ctx.Param name cf = Ctx.Done (Ctx.ByName ps name))
  ∧ Ctx.StatusCode cn = 0%Z ∧ Ctx.StatusCode cf = 0%Z
  ∧ Ctx.WroteHeader cn = false ∧ Ctx.WroteHeader cf = false
  ∧ Ctx.Route cn = route ∧ Ctx.Route cf = route
  ∧ Ctx.ResponseWriter cn = Some w ∧ Ctx.Request cn = Some r
  ∧ Ctx.FastHTTPCtx cn = None
  ∧ Ctx.ResponseWriter cf = None ∧ Ctx.Request cf = None
  ∧ Ctx.FastHTTPCtx cf = Some f
  ∧ Ctx.Method cn = Ctx.Done (Ctx.reqMethod r)
  ∧ Ctx.Method cf = Ctx.Done (Ctx.fMethod f)
  ∧ Ctx.Path cn = Ctx.Done (Ctx.reqPath r)
  ∧ Ctx.Path cf = Ctx.Done (Ctx.fPath f)
  ∧ (∀ key, queried (Ctx.Query key cn)
            = Ctx.Done (if String.eqb (Ctx.reqRawQuery r) "" then ""
                        else Ctx.valuesGet (Ctx.reqQuery r) key))
  ∧ (∀ key, queried (Ctx.Query key cf)
            = Ctx.Done (default "" (Ctx.fQueryArgs f !! key))).
Proof.
  intros Hlen cn cf.
  pose proof (Reset_fields w r ps route lg c) as (Hs & _ & Hfl & Hw & Hr & Hf & Hroute).
  pose proof (ResetFastHTTP_fields f ps route lg c)
    as (Hs' & _ & Hfl' & Hw' & Hr' & Hf' & Hroute').
  fold cn in Hs, Hfl, Hw, Hr, Hf, Hroute.
  fold cf in Hs', Hfl', Hw', Hr', Hf', Hroute'.
  assert (Hnet : ∀ flag, Ctx.testFlag flag cn
                         = negb (Z.land Ctx.flagJSONEscape flag =? 0)%Z).
  { intros flag. unfold Ctx.testFlag. by rewrite Hfl. }
  assert (Hfast : ∀ flag, Ctx.testFlag flag cf
      = negb (Z.land (Z.lor Ctx.flagJSONEscape Ctx.flagIsFastHTTP) flag =? 0)%Z).
  { intros flag. unfold Ctx.testFlag. by rewrite Hfl'. }
  split.
  { intros name. subst cn. unfold Ctx.Reset. cbv zeta.
    by apply resetCommon_Param. }
  split.
  { intros name. subst cf. unfold Ctx.ResetFastHTTP. cbv zeta.
    by apply resetCommon_Param. }
  unfold Ctx.StatusCode, Ctx.WroteHeader, Ctx.Route, Ctx.ResponseWriter, Ctx.Request,
    Ctx.FastHTTPCtx, Ctx.Method, Ctx.Path, Ctx.Query, queried,
    Ctx.wroteHeader, Ctx.isFastHTTP, Ctx.hasQueryCache.
  rewrite !Hnet, !Hfast, Hs, Hs', Hw, Hr, Hf, Hw', Hr', Hf', Hroute, Hroute'.
  clearbody cn cf. clear Hnet Hfast.
  split_and!; try done.
  intros key. cbn. by destruct (String.eqb (Ctx.reqRawQuery r) "").
Qed.

(** The query cache: [resetCommon] tests [hasQueryCache] after it has
    overwritten the flags, so the parsed values of the previous request stay
    in the field; the cleared flag makes [Query] parse again. *)
Example reset_keeps_query_cache :
  let reused :=
    Ctx.Reset CtxExamples.writer0 (CtxExamples.request "/ping") [] "/ping" []
      CtxExamples.queriedContext in
  Ctx.queryCache reused = Some {[ "q" := ["go"] ]}
  ∧ Ctx.hasQueryCache reused = false
  ∧ queried (Ctx.Query "q" reused) = Ctx.Done "".
Proof. split_and!; reflexivity. Qed.

Lemma reset_isolation_witness :
  let cn := Ctx.Reset CtxExamples.writer0 (CtxExamples.request "/b/7")
              [ {| Key := "z"; Value := "7" |} ] "/b/:z" [] CtxExamples.usedContext in
  length (Ctx.params CtxExamples.usedContext) = 32
  ∧ Ctx.Param "z" cn = Ctx.Done "7"
  ∧ Ctx.Param "x" cn = Ctx.Done ""
  ∧ Ctx.Param "y" cn = Ctx.Done ""
  ∧ Ctx.StatusCode cn = 0%Z.
Proof.
  intros cn. split; [reflexivity |].
  destruct (reset_isolation CtxExamples.usedContext CtxExamples.writer0
              (CtxExamples.request "/b/7") CtxExamples.fast0
              [ {| Key := "z"; Value := "7" |} ] "/b/:z" [] eq_refl)
    as (Hparam & _ & Hstatus & _).
  split; [exact (Hparam "z") |]. split; [exact (Hparam "x") |].
  split; [exact (Hparam "y") | exact Hstatus].
Defined.

End Isolation.

(** ** The inactive transport *)

Section Transports.

Implicit Types (c : Ctx.DefaultContext) (ps : list Param).

(** The raw accessors of the inactive transport answer nil. *)
Lemma inactive_accessors w r f ps route lg c :
  Ctx.Request (Ctx.ResetFastHTTP f ps route lg c) = None
  ∧ Ctx.ResponseWriter (Ctx.ResetFastHTTP f ps route lg c) = None
  ∧ Ctx.FastHTTPCtx (Ctx.Reset w r ps route lg c) = None.
Proof.
  pose proof (Reset_fields w r ps route lg c) as (_ & _ & Hfl & _).
  pose proof (ResetFastHTTP_fields f ps route lg c) as (_ & _ & Hfl' & _).
  generalize dependent (Ctx.ResetFastHTTP f ps route lg c). intros cf Hfl'.
  generalize dependent (Ctx.Reset w r ps route lg c). intros cn Hfl.
  unfold Ctx.Request, Ctx.ResponseWriter, Ctx.FastHTTPCtx, Ctx.isFastHTTP, Ctx.testFlag.
  by rewrite Hfl, Hfl'.
Qed.

(** [Header], [AddHeader] and [String] branch on the transport and complete
    on a context reset for [fasthttp]. *)
Lemma fasthttp_branching_writers canon f ps route lg c key value code body :
  (∃ c', Ctx.Header canon key value (Ctx.ResetFastHTTP f ps route lg c) = Ctx.Done c')
  ∧ (∃ c', Ctx.AddHeader canon key value (Ctx.ResetFastHTTP f ps route lg c) = Ctx.Done c')
  ∧ (∃ c', Ctx.String code body (Ctx.ResetFastHTTP f ps route lg c)
           = Ctx.Done (c', None)).
Proof.
  pose proof (ResetFastHTTP_fields f ps route lg c) as (_ & _ & Hfl & _ & _ & Hf & _).
  generalize dependent (Ctx.ResetFastHTTP f ps route lg c). intros cf Hfl Hf.
  unfold Ctx.Header, Ctx.AddHeader, Ctx.String, Ctx.isFastHTTP, Ctx.testFlag.
  rewrite Hfl, Hf. split_and!; by eexists.
Qed.

(** C7, at the failing input. On a context reset for [fasthttp] the writer
    [c.w] is nil; [SetHeaders] and [Send] call [c.w.Header()] without a look
    at the transport, and panic. *)
Theorem fasthttp_Send_panics f ps route lg c headers code contentType b :
  Ctx.SetHeaders headers (Ctx.ResetFastHTTP f ps route lg c) = Ctx.Panic
  ∧ Ctx.Send code contentType b (Ctx.ResetFastHTTP f ps route lg c) = Ctx.Panic.
Proof.
  pose proof (ResetFastHTTP_fields f ps route lg c) as (_ & _ & Hfl & Hw & _).
  generalize dependent (Ctx.ResetFastHTTP f ps route lg c). intros cf Hfl Hw.
  unfold Ctx.SetHeaders, Ctx.Send, Ctx.wroteHeader, Ctx.testFlag.
  by rewrite Hfl, Hw.
Qed.

Example fasthttp_Send_panics_sample :
  Ctx.Send 200 "text/plain" "pong" CtxExamples.fastContext = Ctx.Panic
  ∧ (∃ c', Ctx.Send 200 "text/plain" "pong" CtxExamples.netContext
           = Ctx.Done (c', 4%Z, None)).
Proof. split; [reflexivity | by eexists]. Qed.

End Transports.

(** ** Status and headers after the header is written *)

Section WriteOnce.

Implicit Types (c : Ctx.DefaultContext).

(** [Status] stages its code whether or not the header is written. *)
Lemma Status_after_flush code c :
  Ctx.uint16 code ≠ 0%Z → Ctx.StatusCode (Ctx.Status code c) = Ctx.uint16 code.
Proof.
  intros Hcode. unfold Ctx.StatusCode, Ctx.Status. simpl.
  by destruct (Z.eqb_spec (Ctx.uint16 code) 0).
Qed.

Lemma Status_wroteHeader code c :
  Ctx.WroteHeader (Ctx.Status code c) = Ctx.WroteHeader c.
Proof. reflexivity. Qed.

(** In [fasthttp] mode [String] sets status, content type and body on the
    response without a look at the flag. *)
Lemma String_fasthttp code body c f :
  Ctx.isFastHTTP c = true → Ctx.fctx c = Some f →
  ∃ c', Ctx.String code body c = Ctx.Done (c', None)
        ∧ Ctx.fctx c'
          = Some (Ctx.fSetBody body
                    (Ctx.fSetContentType Ctx.headerContentTypeText
                       (Ctx.fSetStatusCode code f)))
        ∧ Ctx.WroteHeader c' = true.
Proof.
  intros Hfast Hf. unfold Ctx.String. rewrite Hfast, Hf. cbn [Ctx.bind Ctx.deref].
  eexists. split; [done |]. split; [done |].
  unfold Ctx.WroteHeader, Ctx.wroteHeader, Ctx.setWroteHeader.
  by apply testFlag_setFlag.
Qed.

(** C6, at the failing input. A context in [fasthttp] mode answers
    [String(200, "pong")]: the header counts as written. A later
    [String(500, "oops")] replaces status and body of the response, a later
    [Header] call adds its header to it, and a later [Status(404)] changes
    what [StatusCode] reports; none is a no-op. In [net/http] mode [String]
    and the header flag guard the writer, and [Status(404)] still changes
    [StatusCode] after status 200 went out. [WroteHeader] stays true
    throughout. *)
Theorem flushed_status_rewritten :
  ∃ c1 c2 c3 n1,
    Ctx.String 200 "pong" CtxExamples.fastContext = Ctx.Done (c1, None)
    ∧ Ctx.WroteHeader c1 = true
    ∧ Ctx.fStatusCode <$> Ctx.fctx c1 = Some 200%Z
    ∧ Ctx.StatusCode c1 = 200%Z
    ∧ Ctx.String 500 "oops" c1 = Ctx.Done (c2, None)
    ∧ Ctx.WroteHeader c2 = true
    ∧ Ctx.fStatusCode <$> Ctx.fctx c2 = Some 500%Z
    ∧ Ctx.fBody <$> Ctx.fctx c2 = Some "oops"
    ∧ Ctx.Header id "X-Late" "1" c1 = Ctx.Done c3
    ∧ Ctx.WroteHeader c3 = true
    ∧ (Ctx.fHeader <$> Ctx.fctx c1) = Some ∅
    ∧ (Ctx.fHeader <$> Ctx.fctx c3) = Some {[ "X-Late" := ["1"] ]}
    ∧ Ctx.StatusCode (Ctx.Status 404 c1) = 404%Z
    ∧ Ctx.String 200 "pong" CtxExamples.netContext = Ctx.Done (n1, None)
    ∧ Ctx.WroteHeader n1 = true
    ∧ fst <$> (Ctx.w n1 ≫= Ctx.rwSent) = Some 200%Z
    ∧ Ctx.StatusCode n1 = 200%Z
    ∧ Ctx.StatusCode (Ctx.Status 404 n1) = 404%Z.
Proof.
  do 4 eexists. split; [reflexivity |].
  split_and!; reflexivity.
Qed.

End WriteOnce.

(** * Further properties of the router *)

(** ** Chains of any length *)

Section ChainsOfAnyLength.

Context {U : Type}.

Implicit Types (u : U) (tr : list string).

Lemma passing_foldr (ms : list (string * (U → U))) (inner : Handler (Traced U)) tr u :
  foldr (λ mw next, mw next) inner (passing <$> ms) (tr, u)
  = inner (tr ++ ms.*1, foldl (λ u m, m.2 u) u ms).
Proof.
  revert tr u. induction ms as [|m ms IH]; intros tr u; simpl.
  - by rewrite app_nil_r.
  - unfold passing at 1, tracedMiddleware. simpl. rewrite IH.
    by rewrite <- app_assoc.
Qed.

(** X1. A chain compiled from any number of middleware that call their
    continuation runs them in list order and the handler last, for the
    special cases of up to three middleware and for the loop alike. *)
Theorem compiled_chain_order (ms : list (string * (U → U))) tH body tr u :
  Execute (newFastChain (passing <$> ms) (tracedHandler tH body)) (tr, u)
  = ((tr ++ ms.*1 ++ [tH], (body (foldl (λ u m, m.2 u) u ms)).1),
     (body (foldl (λ u m, m.2 u) u ms)).2).
Proof.
  unfold Execute. rewrite newFastChain_foldr, passing_foldr.
  unfold tracedHandler. simpl.
  destruct (body _) as [u' err]. simpl. by rewrite app_assoc.
Qed.

(** X2. When a middleware of a chain returns without calling its
    continuation, the run ends there: the result is the one of that
    middleware, whatever the middleware after it and the handler are. *)
Theorem compiled_chain_stops (ms : list (string * (U → U))) tag (work : U → U)
    (result : option Err) (inner : list (Middleware (Traced U)))
    (h : Handler (Traced U)) tr u :
  Execute (newFastChain
             ((passing <$> ms)
                ++ tracedMiddleware tag (λ u, (work u, Stop result)) :: inner) h)
          (tr, u)
  = ((tr ++ ms.*1 ++ [tag], work (foldl (λ u m, m.2 u) u ms)), result).
Proof.
  unfold Execute. rewrite newFastChain_foldr, foldr_app, passing_foldr.
  simpl. unfold tracedMiddleware at 1. simpl. by rewrite app_assoc.
Qed.

End ChainsOfAnyLength.

(** ** Registration and dispatch *)

Section RegistrationAndDispatch.

Context {W : Type}.

Implicit Types (a : DefaultApp W) (v : Visit W) (method path m p : string).

Lemma resolve_Use v a mw method path :
  (resolve v (Use a mw) method path).1 = (resolve v a method path).1.
Proof.
  destruct mw as [|x mw]; [done |].
  unfold resolve, findRoute, Use, MethodNotAllowedHandler, withCache. simpl.
  repeat case_match; simplify_eq; done.
Qed.

(** X3. Chains are compiled at registration: global middleware added with
    [Use] afterwards changes the decision for no request. *)
Theorem use_after_registration v a mw method path :
  (resolve v (Use a mw) method path).1 = (resolve v a method path).1
  ∧ router (Use a mw) = router a.
Proof. split; [apply resolve_Use | apply Use_router]. Qed.

(** What [handle] leaves alone: the cache, the global middleware, the hooks
    and the entries of every other key. *)
Lemma handle_other_keys a m p h mws k :
  k ≠ m +:+ ":" +:+ p →
  simple (router (handle a m p h mws)) !! k = simple (router a) !! k
  ∧ static (router (handle a m p h mws)) !! k = static (router a) !! k.
Proof.
  intros Hk. unfold handle, addDynamicRoute.
  repeat case_match; simpl; rewrite ?lookup_insert_ne by done; done.
Qed.

Lemma handle_hooks a m p h mws :
  OnError (handle a m p h mws) = OnError a
  ∧ NotFound (handle a m p h mws) = NotFound a
  ∧ MethodNA (handle a m p h mws) = MethodNA a.
Proof. unfold handle, addDynamicRoute. by repeat case_match. Qed.

(** X4. A registration touches the entry of its own [method:path] key only:
    every other entry of the two maps, the route cache, the global
    middleware and the three hooks are as before. *)
Theorem handle_frame a m p h mws k :
  k ≠ m +:+ ":" +:+ p →
  simple (router (handle a m p h mws)) !! k = simple (router a) !! k
  ∧ static (router (handle a m p h mws)) !! k = static (router a) !! k
  ∧ routeCache (handle a m p h mws) = routeCache a
  ∧ middleware (handle a m p h mws) = middleware a
  ∧ OnError (handle a m p h mws) = OnError a
  ∧ NotFound (handle a m p h mws) = NotFound a
  ∧ MethodNA (handle a m p h mws) = MethodNA a.
Proof.
  intros Hk. destruct (handle_other_keys a m p h mws k Hk) as [Hs Ht].
  destruct (handle_hooks a m p h mws) as (H1 & H2 & H3).
  split_and!; try done; [apply handle_routeCache | apply handle_middleware].
Qed.

(** X5. A static route first registered without any middleware stays in the
    map of bare handlers, which dispatch consults first: registering the
    same method and path again once global middleware exists does not
    replace it, and requests keep running the first handler without the
    middleware. *)
Theorem bare_route_shadows a v m p h1 h2 mw mws2 :
  containsParams p = false → middleware a = [] → mw ≠ [] →
  let a2 := handle (Use (handle a m p h1 []) mw) m p h2 mws2 in
  (resolve v a2 m p).1
  = {| branch := BSimple; run := h1; resetParams := []; resetRoute := p |}
  ∧ static (router a2) !! (m +:+ ":" +:+ p)
    = Some (newFastChain (mw ++ mws2) h2).
Proof.
  intros Hp Hmw Hne a2.
  assert (Hmid : middleware (Use (handle a m p h1 []) mw) = mw).
  { destruct mw; [done |]. simpl. by rewrite handle_middleware, Hmw. }
  assert (Hsimple : simple (router a2) !! (m +:+ ":" +:+ p) = Some h1).
  { subst a2. unfold handle at 1. rewrite Hmid, Hp.
    destruct (mw ++ mws2) eqn:E; [by destruct mw |]. simpl.
    rewrite Use_router. by apply handle_simple. }
  split.
  - unfold resolve. by rewrite routeKeyOf_eq, Hsimple.
  - subst a2. rewrite <- Hmid at 2. apply handle_static. left.
    rewrite Hmid. by destruct mw.
Qed.

(** X6. A request whose path is the very text of a registered parameterized
    pattern is served by the lookup in the [static] map: the chain of the
    pattern runs with no parameter bound. *)
Theorem pattern_text_request a v m pat h mws :
  containsParams pat = true →
  simple (router a) !! (m +:+ ":" +:+ pat) = None →
  (resolve v (handle a m pat h mws) m pat).1
  = {| branch := BStatic;
       run := Execute (newFastChain (middleware a ++ mws) h);
       resetParams := []; resetRoute := pat |}.
Proof.
  intros Hp Hsimple. unfold resolve. rewrite routeKeyOf_eq.
  rewrite handle_static by auto.
  rewrite handle_dynamic by done. unfold addDynamicRoute. simpl.
  by rewrite Hsimple.
Qed.

End RegistrationAndDispatch.

(** ** The route cache *)

Section RouteCache.

Context {W : Type}.

Implicit Types (a : DefaultApp W) (v : Visit W) (method path m p : string).

Lemma findRoute_size entries a method path :
  size (routeCache a) ≤ cacheLimit →
  size (routeCache (findRoute entries a method path).2) ≤ cacheLimit.
Proof.
  intros Hsize. unfold findRoute.
  destruct (routeCache a !! _) as [cached|] eqn:Hc; [done |].
  destruct (scanRoutes _ _ _) as [res|];
    destruct (Nat.ltb_spec (size (routeCache a)) cacheLimit); simpl; try done;
    rewrite map_size_insert_None by done; lia.
Qed.

(** X7. The route cache is bounded: in every application reachable from
    [New] it holds at most 1000 entries, whatever requests were resolved. *)
Theorem route_cache_bounded a : reachable a → size (routeCache a) ≤ cacheLimit.
Proof.
  induction 1 as [| a mw _ IH | a m p h mws _ IH _ | | | | a v m p _ IH _ _
                 | a cache' _ IH Hreuse]; try done.
  - simpl. rewrite map_size_empty. unfold cacheLimit. lia.
  - by rewrite Use_routeCache.
  - by rewrite handle_routeCache.
  - destruct (resolve_state v a m p) as [-> | ->]; [done |].
    by apply findRoute_size.
  - simpl. by rewrite (bufferReuse_size _ _ Hreuse).
Qed.






(** X9. A resolution through the dynamic branch is sound. For a
    reachable application and a method without colon, the pattern it
    reports is registered in the [static] map under the requested method
    and [matchRoute] accepts the requested path for that pattern; the
    parameters it reports have the names of that match and values as long
    as its values. They are the parameters of the match when the result is
    not taken from the cache, and always in an application that answers
    through [net/http] only; a cached result can read differently once
    fasthttp took the buffer again that its values point into. *)
Theorem dynamic_resolution_sound a v method path :
  reachable a → visit_ok a v → colon_free method →
  let d := (resolve v a method path).1 in
  branch d = BDynamic →
  is_Some (static (router a) !! (method +:+ ":" +:+ resetRoute d))
  ∧ ∃ ps,
      matchRoute (resetRoute d) path = Some ps
      ∧ Forall2 aliased ps (resetParams d)
      ∧ (routeCache a !! (method +:+ ":" +:+ path) = None → resetParams d = ps)
      ∧ (reachableNet a → resetParams d = ps).
Proof.
  intros Hreach Hv Hm.
  pose proof (reachable_cache_sound a Hreach) as Hcache.
  unfold resolve.
  destruct (simple (router a) !! _) as [sh|]; [done |].
  destruct (static (router a) !! routeKeyOf method path) as [sc|]; [done |].
  destruct (findRoute (scanOrder v) a method path) as [[res|] a'] eqn:Hfind;
    [| by destruct (pathExistsWithDifferentMethod _ _ _ _)].
  simpl. intros _. unfold findRoute in Hfind.
  destruct (routeCache a !! _) as [cached|] eqn:Hc.
  - injection Hfind as -> <-.
    destruct (Hcache _ _ Hc) as (m0 & p0 & ps & E & Hm0 & Hs & Hmatch & Hal).
    apply key_inj in E as [<- <-]; [| done..].
    split; [done |]. exists ps. split_and!; try done.
    intros Hnet.
    destruct (reachableNet_cache_exact a Hnet _ _ Hc) as (m1 & p1 & E & Hm1 & Hexact).
    apply key_inj in E as [<- <-]; [| done..]. congruence.
  - destruct (scanRoutes _ _ _) as [res'|] eqn:Hsc; [| done].
    injection Hfind as -> _.
    destruct (scanRoutes_Some _ _ _ _ Hsc) as (routeKey & Hin & Hpre & Hpat & Hmatch).
    split.
    + destruct Hv as (Hperm & _).
      rewrite Hperm in Hin. apply elem_of_map_to_list in Hin.
      apply HasPrefix_split in Hpre. rewrite <- Hpat, append_assoc in Hpre.
      rewrite <- Hpre. by eexists.
    + exists (params res). split_and!; try done. apply aliased_refl.
Qed.

(** X10. And it is complete where the cache has no say: when a pattern
    registered under the method matches the path, the path itself is no key
    of the two maps and the cache has no entry for the request, the request
    takes the dynamic branch, with some registered pattern that matches. *)
Theorem dynamic_resolution_complete a v method path pat c ps :
  visit_ok a v →
  static (router a) !! (method +:+ ":" +:+ pat) = Some c →
  matchRoute pat path = Some ps →
  simple (router a) !! (method +:+ ":" +:+ path) = None →
  static (router a) !! (method +:+ ":" +:+ path) = None →
  routeCache a !! (method +:+ ":" +:+ path) = None →
  branch (resolve v a method path).1 = BDynamic.
Proof.
  intros (Hperm & _) Hpat Hmatch Hsimple Hstatic Hcache.
  unfold resolve. rewrite routeKeyOf_eq, Hsimple, Hstatic.
  unfold findRoute. rewrite Hcache.
  destruct (scanRoutes (scanOrder v) method path) as [res|] eqn:Hscan; [done |].
  exfalso. rewrite scanRoutes_None in Hscan.
  specialize (Hscan (method +:+ ":" +:+ pat) c).
  rewrite <- append_assoc, TrimPrefix_app, HasPrefix_app in Hscan.
  rewrite Hscan in Hmatch; [done | | done].
  rewrite Hperm. apply elem_of_map_to_list. by rewrite append_assoc.
Qed.

End RouteCache.

Lemma route_cache_bounded_witness :
  reachable Examples.fullApp ∧ size (routeCache Examples.fullApp) ≤ cacheLimit.
Proof.
  split; [exact fullApp_reachable |].
  exact (route_cache_bounded Examples.fullApp fullApp_reachable).
Defined.

Lemma servedApp_cache :
  routeCache MoreExamples.servedApp
  = {[ "GET:/users/42" :=
         Some {| chain := newFastChain [] (Examples.say "user");
                 params := [ {| Key := "id"; Value := "42" |} ];
                 pattern := "/users/:id" |} ]}.
Proof. reflexivity. Qed.



(** ** [ANY] *)

Section AnyMethod.

Context {W : Type}.

Implicit Types (a : DefaultApp W) (v : Visit W) (method path m p : string).

Lemma handle_bare a m p h :
  middleware a = [] → containsParams p = false →
  handle a m p h []
  = withRouter a {| static := static (router a);
                    simple := <[m +:+ ":" +:+ p := h]> (simple (router a)) |}.
Proof. intros Hmw Hp. unfold handle. by rewrite Hmw, Hp. Qed.

Lemma commonMethods_colon_free : Forall colon_free commonMethods.
Proof. repeat constructor. Qed.

(** Bare registrations of one path and handler under a list of methods. *)
Lemma bare_fold ms : ∀ a path h m,
  middleware a = [] → containsParams path = false →
  Forall colon_free ms → colon_free m →
  let a' := fold_left (λ a m, handle a m path h []) ms a in
  simple (router a') !! (m +:+ ":" +:+ path)
  = (if bool_decide (m ∈ ms) then Some h else simple (router a) !! (m +:+ ":" +:+ path))
  ∧ static (router a') = static (router a)
  ∧ routeCache a' = routeCache a
  ∧ MethodNA a' = MethodNA a.
Proof.
  induction ms as [|x ms IH]; intros a path h m Hmw Hp Hms Hm; cbn [fold_left].
  { by rewrite bool_decide_eq_false_2 by apply not_elem_of_nil. }
  apply Forall_cons in Hms as [Hx Hms].
  destruct (IH (handle a x path h []) path h m) as (H1 & H2 & H3 & H4);
    try done; [by rewrite handle_middleware |].
  rewrite H1, H2, H3, H4, handle_routeCache.
  destruct (handle_hooks a x path h []) as (_ & _ & ->).
  rewrite handle_bare by done. simpl. split_and!; try done.
  destruct (decide (m = x)) as [-> | Hne].
  - rewrite lookup_insert_eq.
    rewrite (bool_decide_eq_true_2 (x ∈ x :: ms)) by apply list_elem_of_here.
    by case_bool_decide.
  - rewrite lookup_insert_ne by (intros E; by apply key_inj in E as [-> _]).
    rewrite (bool_decide_ext (m ∈ x :: ms) (m ∈ ms)); [done |].
    rewrite elem_of_cons. naive_solver.
Qed.

(** X11. [ANY] on a new application, for a static path and no middleware:
    a request for the path under each of GET, POST, PUT, PATCH, DELETE,
    OPTIONS and HEAD runs the handler directly, and under any other method
    it is answered by the method-not-allowed hook. *)
Theorem ANY_dispatch dE dN dM path (h : Handler W) v m :
  containsParams path = false →
  let a := ANY (New dE dN dM) path h [] in
  visit_ok a v → colon_free m →
  (m ∈ commonMethods →
   (resolve v a m path).1
   = {| branch := BSimple; run := h; resetParams := []; resetRoute := path |})
  ∧ (m ∉ commonMethods →
     (resolve v a m path).1
     = {| branch := BMethodNA; run := dM; resetParams := []; resetRoute := path |}).
Proof.
  intros Hp a. subst a. unfold ANY.
  pose proof (bare_fold commonMethods (New dE dN dM) path h m eq_refl Hp
                commonMethods_colon_free) as Hfold.
  pose proof (bare_fold commonMethods (New dE dN dM) path h "GET" eq_refl Hp
                commonMethods_colon_free eq_refl) as (HG & _).
  assert (Hreach : reachable
            (fold_left (λ a m, handle a m path h []) commonMethods (New dE dN dM))).
  { unfold commonMethods. cbn [fold_left].
    repeat (apply reach_handle; [| reflexivity]). apply reach_New. }
  cbv zeta in Hfold.
  remember (fold_left (λ a m, handle a m path h []) commonMethods (New dE dN dM))
    as a eqn:Ea.
  clear Ea. intros Hv Hm.
  destruct (Hfold Hm) as (Hsimple & Hstatic & Hcache & HNA). clear Hfold.
  cbn [New newFastRouter router simple static routeCache MethodNA]
    in Hsimple, Hstatic, Hcache, HNA, HG.
  unfold resolve. rewrite routeKeyOf_eq, Hsimple. split.
  - intros Hin. by rewrite bool_decide_eq_true_2.
  - intros Hnotin. rewrite bool_decide_eq_false_2, lookup_empty by done.
    rewrite Hstatic, lookup_empty. unfold findRoute.
    rewrite Hcache, lookup_empty.
    destruct Hv as (Hscan & Hsi & Hst).
    assert (Hv : visit_ok a v) by done.
    rewrite Hstatic, map_to_list_empty in Hscan. apply Permutation_nil_r in Hscan.
    rewrite Hscan. cbn [scanRoutes].
    assert (pathExistsWithDifferentMethod (simpleOrder v).*1 (staticOrder v).*1 m path
            = true) as ->.
    { apply (pathExists_true a v); [done | by apply reachable_simple_keys_ok |].
      exists "GET", path. split; [reflexivity |].
      split; [intros <-; apply Hnotin; apply list_elem_of_here |].
      split; [| by left]. left. rewrite HG. by eexists. }
    unfold MethodNotAllowedHandler.
    by destruct (size _ <? cacheLimit); cbn [fst MethodNA withCache]; rewrite ?HNA.
Qed.

End AnyMethod.

Lemma ANY_dispatch_witness :
  let a := ANY Examples.sampleNew "/webhook" (Examples.say "hook") [] in
  containsParams "/webhook" = false
  ∧ visit_ok a (visitDefault a) ∧ colon_free "PATCH" ∧ colon_free "TRACE"
  ∧ branch (resolve (visitDefault a) a "PATCH" "/webhook").1 = BSimple
  ∧ branch (resolve (visitDefault a) a "TRACE" "/webhook").1 = BMethodNA.
Proof.
  intros a.
  split; [reflexivity |]. split; [apply visitDefault_ok |].
  split; [reflexivity |]. split; [reflexivity |].
  pose proof (ANY_dispatch Examples.onError (Examples.say "404 Not Found")
                (Examples.say "405 Method Not Allowed") "/webhook"
                (Examples.say "hook") (visitDefault a) "PATCH" eq_refl
                (visitDefault_ok a) eq_refl) as [Hin _].
  pose proof (ANY_dispatch Examples.onError (Examples.say "404 Not Found")
                (Examples.say "405 Method Not Allowed") "/webhook"
                (Examples.say "hook") (visitDefault a) "TRACE" eq_refl
                (visitDefault_ok a) eq_refl) as [_ Hout].
  split.
  - refine (f_equal branch (Hin _)). unfold commonMethods.
    do 3 apply list_elem_of_further. apply list_elem_of_here.
  - refine (f_equal branch (Hout _)). unfold commonMethods. intros Hmem.
    repeat (apply elem_of_cons in Hmem as [Hmem | Hmem]; [discriminate Hmem |]).
    by apply elem_of_nil in Hmem.
Defined.

(** * Further properties of the matcher *)

Section MatcherEdges.

Implicit Types (s t : string) (pat : list Segment) (path : list string).

(** [matchRoute] on rendered segments, wherever the texts differ. *)
Lemma matchRoute_walk pat path :
  forallb segmentOk pat = true →
  pathOk path = true →
  renderPattern pat ≠ renderPath path →
  matchRoute (renderPattern pat) (renderPath path) = specMatch pat path.
Proof.
  intros Hpat Hpath Hne. unfold matchRoute.
  destruct (String.eqb_spec (renderPattern pat) (renderPath path)) as [| _]; [done |].
  unfold renderPattern, renderPath in *.
  destruct (Str.ContainsAny _ ":*") eqn:Hany; cbn [negb].
  - change (skipSlash ("/" +:+ ?x)) with x.
    rewrite matchLoop_specMatch; try done.
    + by destruct (specMatch pat path).
    + rewrite length_app. simpl. lia.
  - destruct (specMatch pat path) as [bs|] eqn:Hm; [| done].
    exfalso. apply Hne. f_equal. f_equal.
    apply (specMatch_plain pat path bs); [| done].
    rewrite ContainsAny_app in Hany. by apply orb_false_iff in Hany as [_ ->].
Qed.

(** X12. A pattern with neither [':'] nor ['*'] is matched by [matchRoute]
    for no path, its own text included: static routes are reached through
    the map lookups alone, so a static route does not answer its path with a
    slash appended. *)
Theorem static_pattern_never_matches (pattern request : string) :
  containsParams pattern = false →
  matchRoute pattern request = None ∧ matchRoute pattern (request +:+ "/") = None.
Proof. intros Hp. split; by apply matchRoute_plain. Qed.

Lemma static_pattern_never_matches_witness :
  containsParams "/ping" = false
  ∧ matchRoute "/ping" "/ping" = None ∧ matchRoute "/ping" ("/ping" +:+ "/") = None.
Proof.
  split; [reflexivity |].
  exact (static_pattern_never_matches "/ping" "/ping" eq_refl).
Defined.

(** *** A slash at the end of the path *)

Lemma endsWithSlash_app s t :
  nonEmpty t = true → endsWithSlash (s +:+ t) = endsWithSlash t.
Proof.
  intros Ht. induction s as [|c s IH]; [done |].
  rewrite append_cons. cbn [endsWithSlash]. rewrite IH.
  destruct (s +:+ t) eqn:E; [| done]. by destruct s, t.
Qed.

Lemma endsWithSlash_slashFree t : slashFree t = true → endsWithSlash t = false.
Proof.
  unfold slashFree. induction t as [|c t IH]; [done |].
  cbn [Str.contains]. intros [Hc Ht]%negb_true_iff%orb_false_iff.
  destruct t as [|c' t']; [exact Hc |].
  change (endsWithSlash (String c (String c' t'))) with (endsWithSlash (String c' t')).
  apply IH. by rewrite Ht.
Qed.

Lemma joinSlash_no_trailing (l : list string) : ∀ pre,
  forallb (λ t, slashFree t && nonEmpty t) l = true → l ≠ [] →
  endsWithSlash (pre +:+ joinSlash l) = false.
Proof.
  induction l as [|t l IH]; intros pre Hl Hne; [done |].
  apply andb_true_iff in Hl as [[Ht1 Ht2]%andb_true_iff Hl].
  destruct l as [|t' l].
  - cbn [joinSlash]. rewrite endsWithSlash_app by done.
    by apply endsWithSlash_slashFree.
  - change (joinSlash (t :: t' :: l)) with (t +:+ "/" +:+ joinSlash (t' :: l)).
    rewrite <- !append_assoc. by apply IH.
Qed.

Lemma segmentOk_texts pat :
  forallb segmentOk pat = true →
  forallb (λ t, slashFree t && nonEmpty t) (segmentText <$> pat) = true.
Proof.
  induction pat as [|g pat IH]; [done |].
  rewrite fmap_cons. cbn [forallb].
  intros [Hg Hpat]%andb_true_iff.
  by rewrite (segmentOk_slashFree _ Hg), (segmentOk_nonEmpty _ Hg), IH.
Qed.

(** The loop on a path text that ends in a slash. *)
Lemma matchLoop_trailing pat : ∀ path fuel acc,
  forallb segmentOk pat = true →
  existsb isWildcard pat = false →
  pathOk path = true → path ≠ [] →
  String.length (joinSlash (segmentText <$> pat)) < fuel →
  matchLoop fuel (joinSlash (segmentText <$> pat)) (joinSlash path +:+ "/") acc
  = (acc ++.) <$> specMatch pat path.
Proof.
  induction pat as [|g pat IH]; intros path fuel acc Hpat Hwild Hpath Hne Hfuel.
  - destruct fuel as [|fuel]; [simpl in Hfuel; lia |].
    destruct path as [|s path]; [done |].
    cbn [matchLoop fmap list_fmap].
    rewrite nonEmpty_app, (pathOk_nonEmpty _ _ Hpath). done.
  - destruct fuel as [|fuel]; [lia |].
    apply andb_true_iff in Hpat as [Hg Hpat].
    cbn [existsb] in Hwild. apply orb_false_iff in Hwild as [Hgw Hwild].
    rewrite fmap_cons in *.
    pose proof (segmentOk_nonEmpty _ Hg) as Hgne.
    cbn [matchLoop].
    assert (Hnp : nonEmpty (joinSlash (segmentText g :: (segmentText <$> pat))) = true).
    { by rewrite joinSlash_cons, nonEmpty_app, Hgne. }
    rewrite Hnp. destruct path as [|s path]; [done |].
    rewrite nonEmpty_app, (pathOk_nonEmpty _ _ Hpath). cbn [andb orb].
    destruct (pathOk_cons _ _ Hpath) as [Hs Hrest].
    rewrite (segment_joinSlash _ _ (segmentOk_slashFree _ Hg)).
    rewrite (joinSlash_cons s path), append_assoc.
    rewrite (segment_app s (afterFirst path +:+ "/") Hs); last first.
    { right. destruct path; by eexists. }
    rewrite skipSlash_afterFirst.
    assert (Hlen : String.length (joinSlash (segmentText <$> pat)) < fuel).
    { rewrite joinSlash_cons, length_app in Hfuel.
      pose proof (skipSlash_length (afterFirst (segmentText <$> pat))) as Hk.
      rewrite skipSlash_afterFirst in Hk.
      destruct (segmentText g) as [|c t]; [done |]. simpl in Hfuel. lia. }
    assert (Hnext : ∀ acc',
      matchLoop fuel (joinSlash (segmentText <$> pat))
        (skipSlash (afterFirst path +:+ "/")) acc'
      = (acc' ++.) <$> specMatch pat path).
    { intros acc'. destruct path as [|s' path].
      - change (skipSlash (afterFirst [] +:+ "/")) with (joinSlash []).
        by apply matchLoop_specMatch.
      - change (skipSlash (afterFirst (s' :: path) +:+ "/"))
          with (joinSlash (s' :: path) +:+ "/").
        apply IH; auto. }
    destruct g as [t | n | n]; cbn [segmentText specMatch isWildcard] in *; [| | done].
    + destruct t as [|c t]; [done |].
      unfold segmentOk in Hg. simpl in Hg.
      apply andb_true_iff in Hg as [_ Hc].
      apply andb_true_iff in Hc as [Hc1 Hc2].
      apply negb_true_iff in Hc1, Hc2. rewrite Hc1, Hc2.
      destruct (String.eqb (String c t) s) eqn:E; cbn [negb]; [| done].
      apply Hnext.
    + change (Ascii.eqb ":" "*") with false. change (Ascii.eqb ":" ":") with true.
      cbn iota. rewrite Hnext.
      destruct (specMatch pat path) as [bs|]; simpl; [| done].
      by rewrite <- app_assoc.
Qed.

(** [matchRoute] on a path text that ends in a slash. *)
Lemma matchRoute_trailing pat path :
  forallb segmentOk pat = true →
  existsb isWildcard pat = false →
  Str.ContainsAny (renderPattern pat) ":*" = true →
  pathOk path = true → path ≠ [] →
  matchRoute (renderPattern pat) (renderPath path +:+ "/") = specMatch pat path.
Proof.
  intros Hpat Hwild Hany Hpath Hne. unfold matchRoute. rewrite Hany. cbn [negb].
  destruct (String.eqb_spec (renderPattern pat) (renderPath path +:+ "/")) as [E |].
  { exfalso. apply (f_equal endsWithSlash) in E.
    rewrite (endsWithSlash_app (renderPath path) "/") in E by done.
    destruct pat as [|g pat]; [done |].
    unfold renderPattern, renderPath in E.
    rewrite joinSlash_no_trailing in E; [done | by apply segmentOk_texts | done]. }
  unfold renderPattern, renderPath. rewrite append_assoc.
  change (skipSlash ("/" +:+ ?x)) with x.
  rewrite matchLoop_trailing; try done.
  - by destruct (specMatch pat path).
  - rewrite length_app. simpl. lia.
Qed.

Lemma texts_pathOk pat :
  forallb segmentOk pat = true → pathOk (segmentText <$> pat) = true.
Proof.
  intros H%segmentOk_texts. induction (segmentText <$> pat) as [|t l IH]; [done |].
  cbn [forallb] in H. apply andb_true_iff in H as [[Ht Hn]%andb_true_iff Hl].
  destruct l as [|t' l]; [cbn [pathOk]; by rewrite Ht, Hn |].
  change (pathOk (t :: t' :: l)) with (slashFree t && pathOk (t' :: l)).
  by rewrite Ht, IH.
Qed.

(** The segment walk of a pattern without wildcard over its own segments
    binds every named parameter to its placeholder. *)
Lemma specMatch_own pat :
  existsb isWildcard pat = false →
  specMatch pat (segmentText <$> pat) = Some (ownBindings pat).
Proof.
  induction pat as [|g pat IH]; [done |].
  cbn [existsb]. intros [Hg Hpat]%orb_false_iff.
  rewrite fmap_cons. destruct g as [t | n | n]; [| | done].
  - cbn [specMatch segmentText]. rewrite String.eqb_refl. by apply IH.
  - cbn [specMatch segmentText]. by rewrite IH.
Qed.

(** X13. For a parameterized pattern without wildcard, one slash at the
    end of the request path is ignored: the path with the slash appended is
    matched as the segments of the path are, one by one
    ([/users/:id] matches [/users/42/] and binds [id] to [42]). So it
    matches exactly when the path without the slash does, with the same
    bindings, unless the path is the text of the pattern itself: that text
    [matchRoute] refuses, and with the slash appended it accepts it and
    binds every parameter to its own placeholder. *)
Theorem trailing_slash_ignored pat path :
  forallb segmentOk pat = true →
  existsb isWildcard pat = false →
  Str.ContainsAny (renderPattern pat) ":*" = true →
  pathOk path = true → path ≠ [] →
  matchRoute (renderPattern pat) (renderPath path +:+ "/") = specMatch pat path
  ∧ (renderPath path ≠ renderPattern pat →
     matchRoute (renderPattern pat) (renderPath path +:+ "/")
     = matchRoute (renderPattern pat) (renderPath path))
  ∧ matchRoute (renderPattern pat) (renderPattern pat) = None
  ∧ matchRoute (renderPattern pat) (renderPattern pat +:+ "/")
    = Some (ownBindings pat).
Proof.
  intros Hpat Hwild Hany Hpath Hne.
  split; [by apply matchRoute_trailing |].
  split; [| split].
  - intros Hdiff. rewrite matchRoute_trailing by done.
    symmetry. by apply matchRoute_walk.
  - unfold matchRoute. by rewrite String.eqb_refl.
  - change (renderPattern pat) with (renderPath (segmentText <$> pat)) at 2.
    rewrite matchRoute_trailing; try done.
    + by apply specMatch_own.
    + by apply texts_pathOk.
    + destruct pat; done.
Qed.

Lemma trailing_slash_ignored_witness :
  forallb segmentOk [Literal "users"; Named "id"] = true
  ∧ existsb isWildcard [Literal "users"; Named "id"] = false
  ∧ Str.ContainsAny (renderPattern [Literal "users"; Named "id"]) ":*" = true
  ∧ pathOk ["users"; "42"] = true ∧ ["users"; "42"] ≠ []
  ∧ matchRoute "/users/:id" "/users/42/" = Some [ {| Key := "id"; Value := "42" |} ]
  ∧ matchRoute "/users/:id" "/users/42/" = matchRoute "/users/:id" "/users/42"
  ∧ matchRoute "/users/:id" "/users/:id" = None
  ∧ matchRoute "/users/:id" "/users/:id/" = Some [ {| Key := "id"; Value := ":id" |} ].
Proof.
  split; [reflexivity |]. split; [reflexivity |]. split; [reflexivity |].
  split; [reflexivity |]. split; [done |].
  destruct (trailing_slash_ignored [Literal "users"; Named "id"] ["users"; "42"]
              eq_refl eq_refl eq_refl eq_refl ltac:(done)) as (H1 & H2 & H3 & H4).
  split; [exact H1 |]. split; [exact (H2 ltac:(done)) |].
  split; [exact H3 | exact H4].
Defined.

End MatcherEdges.

(** ** Wildcards after any literal prefix *)

Section WildcardEdges.

Implicit Types (s t n : string) (lits rest : list string).

Lemma literalsOk_cons t lits :
  literalsOk (t :: lits) = true →
  segmentOk (Literal t) = true ∧ slashFree t = true ∧ nonEmpty t = true
  ∧ literalsOk lits = true.
Proof.
  unfold literalsOk. cbn [forallb]. intros [Ht Hl]%andb_true_iff.
  split_and!; try done.
  - by apply (segmentOk_slashFree (Literal t)).
  - by apply (segmentOk_nonEmpty (Literal t)).
Qed.

Lemma wildcard_pattern_ok lits n :
  literalsOk lits = true → slashFree (String "*" n) = true →
  forallb segmentOk ((Literal <$> lits) ++ [Wildcard n]) = true.
Proof.
  intros Hl Hn. rewrite forallb_app. apply andb_true_iff. split.
  - unfold literalsOk in Hl. induction lits as [|t lits IH]; [done |].
    cbn [forallb] in Hl. apply andb_true_iff in Hl as [Ht Hl].
    rewrite fmap_cons. cbn [forallb]. by rewrite Ht, IH.
  - cbn [forallb]. unfold segmentOk. cbn [segmentText]. by rewrite Hn.
Qed.

Lemma pathOk_literals lits : literalsOk lits = true → pathOk lits = true.
Proof.
  induction lits as [|t lits IH]; [done |].
  intros (_ & Hs & Hne & Hl)%literalsOk_cons.
  destruct lits as [|t' lits]; [cbn [pathOk]; by rewrite Hs, Hne |].
  change (pathOk (t :: t' :: lits)) with (slashFree t && pathOk (t' :: lits)).
  by rewrite Hs, IH.
Qed.

Lemma pathOk_app lits rest :
  literalsOk lits = true → pathOk rest = true → rest ≠ [] →
  pathOk (lits ++ rest) = true.
Proof.
  intros Hl Hrest Hne. induction lits as [|t lits IH]; [done |].
  apply literalsOk_cons in Hl as (_ & Hs & _ & Hl).
  change ((t :: lits) ++ rest) with (t :: (lits ++ rest)).
  destruct (lits ++ rest) as [|x l] eqn:E.
  { by destruct lits, rest. }
  change (pathOk (t :: x :: l)) with (slashFree t && pathOk (x :: l)).
  rewrite Hs. by apply IH.
Qed.

Lemma specMatch_wildcard lits n rest :
  rest ≠ [] →
  specMatch ((Literal <$> lits) ++ [Wildcard n]) (lits ++ rest)
  = Some [ {| Key := n; Value := joinSlash rest |} ].
Proof.
  intros Hne. induction lits as [|t lits IH].
  - by destruct rest.
  - rewrite fmap_cons. cbn [app specMatch]. by rewrite String.eqb_refl.
Qed.

Lemma specMatch_wildcard_none lits n :
  specMatch ((Literal <$> lits) ++ [Wildcard n]) lits = None.
Proof.
  induction lits as [|t lits IH]; [done |].
  rewrite fmap_cons. cbn [app specMatch]. by rewrite String.eqb_refl.
Qed.

Lemma wildcard_texts lits n :
  segmentText <$> ((Literal <$> lits) ++ [Wildcard n]) = lits ++ [String "*" n].
Proof.
  rewrite fmap_app. f_equal. induction lits as [|t lits IH]; [done |].
  rewrite !fmap_cons. by rewrite IH.
Qed.

(** Joined texts with a common prefix of literals are told apart by what
    follows the prefix. *)
Lemma joinSlash_prefix_inj lits : ∀ x y,
  literalsOk lits = true → x ≠ [] → y ≠ [] →
  joinSlash (lits ++ x) = joinSlash (lits ++ y) → joinSlash x = joinSlash y.
Proof.
  induction lits as [|t lits IH]; intros x y Hl Hx Hy E; [done |].
  apply literalsOk_cons in Hl as (_ & Hs & _ & Hl).
  change ((t :: lits) ++ ?z) with (t :: (lits ++ z)) in E.
  apply (f_equal segment) in E. rewrite !segment_joinSlash in E by done.
  injection E as E. apply (f_equal skipSlash) in E.
  rewrite !skipSlash_afterFirst in E. by apply IH.
Qed.

Lemma joinSlash_single t rest :
  slashFree t = true → pathOk rest = true → rest ≠ [] →
  joinSlash [t] = joinSlash rest → rest = [t].
Proof.
  intros Ht Hrest Hne E. destruct rest as [|s rest]; [done |].
  destruct (pathOk_cons _ _ Hrest) as [Hs _].
  apply (f_equal segment) in E. rewrite !segment_joinSlash in E by done.
  injection E as -> E. by destruct rest.
Qed.

(** X14. A wildcard after any prefix of literal segments takes all that
    follows the prefix, slashes included: [/static/css/*filepath] on
    [/static/css/a/b.css] binds [filepath] to [a/b.css]. The one exception
    is the request whose path is the text of the pattern itself, where what
    follows the prefix is the wildcard as it is written: that path
    [matchRoute] refuses. *)
Theorem wildcard_takes_rest lits n rest :
  literalsOk lits = true → slashFree (String "*" n) = true →
  pathOk rest = true → rest ≠ [] →
  matchRoute (renderPattern ((Literal <$> lits) ++ [Wildcard n]))
             (renderPath (lits ++ rest))
  = if decide (rest = [String "*" n]) then None
    else Some [ {| Key := n; Value := joinSlash rest |} ].
Proof.
  intros Hl Hn Hrest Hne. case_decide as Hpat.
  - subst rest. unfold renderPattern. rewrite wildcard_texts.
    unfold matchRoute. by rewrite String.eqb_refl.
  - rewrite matchRoute_walk.
    + by apply specMatch_wildcard.
    + by apply wildcard_pattern_ok.
    + by apply pathOk_app.
    + unfold renderPattern, renderPath. rewrite wildcard_texts. intros [= E].
      apply joinSlash_prefix_inj in E; [| done..].
      apply Hpat. by apply (joinSlash_single (String "*" n)).
Qed.

Lemma wildcard_takes_rest_witness :
  literalsOk ["static"; "css"] = true ∧ slashFree "*filepath" = true
  ∧ pathOk ["a"; "b.css"] = true ∧ ["a"; "b.css"] ≠ []
  ∧ pathOk ["*filepath"] = true ∧ ["*filepath"] ≠ []
  ∧ matchRoute "/static/css/*filepath" "/static/css/a/b.css"
    = Some [ {| Key := "filepath"; Value := "a/b.css" |} ]
  ∧ matchRoute "/static/css/*filepath" "/static/css/*filepath" = None.
Proof.
  split; [reflexivity |]. split; [reflexivity |]. split; [reflexivity |].
  split; [done |]. split; [reflexivity |]. split; [done |].
  split.
  - exact (wildcard_takes_rest ["static"; "css"] "filepath" ["a"; "b.css"]
             eq_refl eq_refl eq_refl ltac:(done)).
  - exact (wildcard_takes_rest ["static"; "css"] "filepath" ["*filepath"]
             eq_refl eq_refl eq_refl ltac:(done)).
Defined.

(** The loop when the path stops, with a slash, where the wildcard starts. *)
Lemma matchLoop_wildcard_slash lits n : ∀ fuel acc,
  literalsOk lits = true → lits ≠ [] →
  String.length (joinSlash (lits ++ [String "*" n])) < fuel →
  matchLoop fuel (joinSlash (lits ++ [String "*" n])) (joinSlash lits +:+ "/") acc
  = None.
Proof.
  induction lits as [|t lits IH]; intros fuel acc Hl Hne Hfuel; [done |].
  destruct fuel as [|fuel]; [lia |].
  apply literalsOk_cons in Hl as (Hok & Hs & Hnon & Hl).
  change ((t :: lits) ++ ?z) with (t :: (lits ++ z)) in *.
  cbn [matchLoop].
  rewrite (joinSlash_cons t (lits ++ _)), (joinSlash_cons t lits) in *.
  rewrite !nonEmpty_app, Hnon. cbn [orb andb].
  rewrite (segment_app t _ Hs) by apply afterFirst_shape.
  rewrite append_assoc.
  rewrite (segment_app t (afterFirst lits +:+ "/") Hs); last first.
  { right. destruct lits; by eexists. }
  rewrite skipSlash_afterFirst.
  assert (Hlen : String.length (joinSlash (lits ++ [String "*" n])) < fuel).
  { rewrite length_app in Hfuel.
    pose proof (skipSlash_length (afterFirst (lits ++ [String "*" n]))) as Hk.
    rewrite skipSlash_afterFirst in Hk.
    destruct t; [done |]. simpl in Hfuel. lia. }
  destruct t as [|c t]; [done |].
  unfold segmentOk in Hok. cbn [segmentText] in Hok.
  apply andb_true_iff in Hok as [_ [Hc1 Hc2]%andb_true_iff].
  apply negb_true_iff in Hc1, Hc2. rewrite Hc2, Hc1, String.eqb_refl. cbn [negb].
  destruct lits as [|t' lits].
  - change (skipSlash (afterFirst [] +:+ "/")) with "".
    destruct fuel; [simpl in Hlen; lia | done].
  - change (skipSlash (afterFirst (t' :: lits) +:+ "/"))
      with (joinSlash (t' :: lits) +:+ "/").
    by apply IH.
Qed.

(** X15. A wildcard needs something to take: the pattern does not match
    the path that stops where the wildcard starts, with or without a slash
    at its end ([/files/*rest] matches neither [/files] nor [/files/]). *)
Theorem wildcard_needs_rest lits n :
  literalsOk lits = true → slashFree (String "*" n) = true →
  matchRoute (renderPattern ((Literal <$> lits) ++ [Wildcard n])) (renderPath lits)
  = None
  ∧ (lits ≠ [] →
     matchRoute (renderPattern ((Literal <$> lits) ++ [Wildcard n]))
                (renderPath lits +:+ "/") = None).
Proof.
  intros Hl Hn. split.
  - destruct (decide (renderPattern ((Literal <$> lits) ++ [Wildcard n])
                      = renderPath lits)) as [E | Hne].
    + unfold matchRoute. by rewrite E, String.eqb_refl.
    + rewrite matchRoute_walk; [apply specMatch_wildcard_none | | | done].
      * by apply wildcard_pattern_ok.
      * by apply pathOk_literals.
  - intros Hne. unfold matchRoute.
    destruct (String.eqb _ _); [done |].
    destruct (negb _); [done |].
    unfold renderPattern, renderPath. rewrite wildcard_texts, append_assoc.
    change (skipSlash ("/" +:+ ?x)) with x.
    apply matchLoop_wildcard_slash; [done | done |].
    rewrite length_app. simpl. lia.
Qed.

Lemma wildcard_needs_rest_witness :
  literalsOk ["files"] = true ∧ slashFree "*rest" = true
  ∧ matchRoute "/files/*rest" "/files" = None
  ∧ matchRoute "/files/*rest" "/files/" = None.
Proof.
  split; [reflexivity |]. split; [reflexivity |].
  destruct (wildcard_needs_rest ["files"] "rest" eq_refl eq_refl) as [H1 H2].
  split; [exact H1 | exact (H2 ltac:(done))].
Defined.

End WildcardEdges.

(** ** The further properties on sample applications *)

Section MoreSamples.

Import Examples MoreExamples.

Lemma handle_frame_witness :
  "GET:/ping" ≠ "POST" +:+ ":" +:+ "/users"
  ∧ simple (router (POST pingApp "/users" (say "created") [])) !! "GET:/ping"
    = Some (say "pong").
Proof.
  split; [done |].
  destruct (handle_frame pingApp "POST" "/users" (say "created") [] "GET:/ping"
              ltac:(done)) as (Hsimple & _).
  unfold POST. rewrite Hsimple. reflexivity.
Defined.

Lemma bare_route_shadows_witness :
  containsParams "/ping" = false ∧ middleware sampleNew = [] ∧ [tag "log"] ≠ []
  ∧ run (resolve (visitDefault shadowedApp) shadowedApp "GET" "/ping").1 []
    = (["pong"], None)
  ∧ (λ c, Execute c []) <$> static (router shadowedApp) !! "GET:/ping"
    = Some (["log"; "pong2"], None).
Proof.
  split; [reflexivity |]. split; [reflexivity |]. split; [done |].
  destruct (bare_route_shadows sampleNew (visitDefault shadowedApp) "GET" "/ping"
              (say "pong") (say "pong2") [tag "log"] [] eq_refl eq_refl ltac:(done))
    as [Hres Hstatic].
  split.
  - change (handle (Use (handle sampleNew "GET" "/ping" (say "pong") []) [tag "log"])
              "GET" "/ping" (say "pong2") []) with shadowedApp in Hres.
    rewrite Hres. reflexivity.
  - reflexivity.
Defined.

Lemma pattern_text_request_witness :
  containsParams "/users/:id" = true
  ∧ simple (router sampleNew) !! ("GET" +:+ ":" +:+ "/users/:id") = None
  ∧ (resolve (visitDefault usersApp) usersApp "GET" "/users/:id").1
    = {| branch := BStatic; run := Execute (newFastChain [] (say "user"));
         resetParams := []; resetRoute := "/users/:id" |}.
Proof.
  split; [reflexivity |]. split; [reflexivity |].
  exact (pattern_text_request sampleNew (visitDefault usersApp) "GET" "/users/:id"
           (say "user") [] eq_refl eq_refl).
Defined.

Lemma usersApp_reachable : reachable usersApp.
Proof. apply reach_handle; [apply reach_New | reflexivity]. Qed.

Lemma dynamic_resolution_sound_witness :
  reachable usersApp ∧ visit_ok usersApp (visitDefault usersApp) ∧ colon_free "GET"
  ∧ branch (resolve (visitDefault usersApp) usersApp "GET" "/users/42").1 = BDynamic
  ∧ matchRoute (resetRoute (resolve (visitDefault usersApp) usersApp "GET" "/users/42").1)
      "/users/42"
    = Some (resetParams (resolve (visitDefault usersApp) usersApp "GET" "/users/42").1).
Proof.
  split; [exact usersApp_reachable |]. split; [apply visitDefault_ok |].
  split; [reflexivity |]. split; [reflexivity |].
  destruct (dynamic_resolution_sound usersApp (visitDefault usersApp) "GET"
              "/users/42" usersApp_reachable (visitDefault_ok usersApp)
              eq_refl eq_refl) as (_ & ps & Hmatch & _ & Hfresh & _).
  rewrite Hmatch. f_equal. symmetry. by apply Hfresh.
Defined.

(** The reused buffer at work: the cached result for [GET /users/42] answers
    with the bytes of the later request. *)
Example reused_buffer_sample :
  reachable reusedApp
  ∧ resetParams (resolve (visitDefault reusedApp) reusedApp "GET" "/users/42").1
    = [ {| Key := "id"; Value := "77" |} ]
  ∧ matchRoute "/users/:id" "/users/42" = Some [ {| Key := "id"; Value := "42" |} ].
Proof.
  split; [| by split].
  apply reach_reuse.
  - apply reach_resolve; [apply usersApp_reachable | apply visitDefault_ok | done].
  - intros k. change (routeCache servedApp) with (routeCache MoreExamples.servedApp).
    rewrite servedApp_cache.
    destruct (decide (k = "GET:/users/42")) as [-> | Hne].
    + rewrite !lookup_singleton_eq. do 2 constructor.
      split_and!; try done. repeat constructor.
    + rewrite !lookup_singleton_ne by done. constructor.
Qed.

Lemma dynamic_resolution_complete_witness :
  visit_ok usersApp (visitReversed usersApp)
  ∧ static (router usersApp) !! ("GET" +:+ ":" +:+ "/users/:id")
    = Some (newFastChain [] (say "user"))
  ∧ matchRoute "/users/:id" "/users/42" = Some [ {| Key := "id"; Value := "42" |} ]
  ∧ branch (resolve (visitReversed usersApp) usersApp "GET" "/users/42").1 = BDynamic.
Proof.
  split; [apply visitReversed_ok |]. split; [reflexivity |]. split; [reflexivity |].
  exact (dynamic_resolution_complete usersApp (visitReversed usersApp) "GET"
           "/users/42" "/users/:id" _ _ (visitReversed_ok usersApp)
           eq_refl eq_refl eq_refl eq_refl eq_refl).
Defined.

End MoreSamples.

(** * Further properties of the request context *)

Section FlagFacts.

Implicit Types (c : Ctx.DefaultContext).

Lemma land_lor_other a f1 f2 : Z.land f1 f2 = 0%Z → Z.land (Z.lor a f2) f1 = Z.land a f1.
Proof.
  intros H. rewrite Z.land_lor_distr_l, (Z.land_comm f2 f1), H. apply Z.lor_0_r.
Qed.

Lemma land_ldiff_other a f1 f2 : Z.land f1 f2 = 0%Z → Z.land (Z.ldiff a f2) f1 = Z.land a f1.
Proof.
  intros H. apply Z.bits_inj'. intros i Hi.
  rewrite !Z.land_spec, Z.ldiff_spec.
  assert (Hb : Z.testbit f1 i && Z.testbit f2 i = false).
  { rewrite <- Z.land_spec, H. apply Z.bits_0. }
  destruct (Z.testbit a i), (Z.testbit f1 i), (Z.testbit f2 i); done.
Qed.

(** Setting or clearing one flag leaves the others. *)
Lemma testFlag_setFlag_other f1 f2 v c :
  Z.land f1 f2 = 0%Z → Ctx.testFlag f1 (Ctx.setFlag f2 v c) = Ctx.testFlag f1 c.
Proof.
  intros H. unfold Ctx.setFlag. destruct v; rewrite testFlag_set_flags; unfold Ctx.testFlag.
  - by rewrite land_lor_other.
  - by rewrite land_ldiff_other.
Qed.

Lemma wroteHeader_setWroteHeader c : Ctx.wroteHeader (Ctx.setWroteHeader true c) = true.
Proof. by apply testFlag_setFlag. Qed.

Lemma wroteHeader_lor x c :
  Ctx.wroteHeader (Ctx.set_flags (Z.lor x Ctx.flagWroteHeader) c) = true.
Proof.
  unfold Ctx.wroteHeader. rewrite testFlag_set_flags.
  rewrite Z.land_lor_distr_l, Z.land_diag.
  destruct (Z.eqb_spec (Z.lor (Z.land x Ctx.flagWroteHeader) Ctx.flagWroteHeader) 0)
    as [E |]; [| done].
  by apply Z.lor_eq_0_iff in E as [_ E].
Qed.

Lemma wroteHeader_setHasQueryCache v c :
  Ctx.wroteHeader (Ctx.setHasQueryCache v c) = Ctx.wroteHeader c.
Proof. by apply testFlag_setFlag_other. Qed.

End FlagFacts.

Section HeaderFlag.

Implicit Types (c : Ctx.DefaultContext).

Lemma runOp_wroteHeader canonical op c c' :
  Ctx.wroteHeader c = true → runOp canonical op c = Ctx.Done c' →
  Ctx.wroteHeader c' = true.
Proof.
  intros Hc. destruct op; cbn [runOp].
  - intros [= <-]. exact Hc.
  - unfold Ctx.Header. destruct (Ctx.isFastHTTP c).
    + destruct (Ctx.fctx c); [| done]. by intros [= <-].
    + destruct (Ctx.w c); [| done]. by intros [= <-].
  - unfold Ctx.AddHeader. destruct (Ctx.isFastHTTP c).
    + destruct (Ctx.fctx c); [| done]. by intros [= <-].
    + destruct (Ctx.w c); [| done]. by intros [= <-].
  - unfold Ctx.SetHeaders. destruct (Ctx.w c); [| done]. by intros [= <-].
  - unfold Ctx.String. rewrite Hc. destruct (Ctx.isFastHTTP c).
    + destruct (Ctx.fctx c); [| done]. cbn [Ctx.bind Ctx.deref fst].
      intros [= <-]. apply wroteHeader_lor.
    + cbn [negb Ctx.bind]. destruct (Ctx.w c) as [rw|]; [| done].
      cbn [Ctx.bind Ctx.deref].
      destruct (Ctx.rwWrite body rw) as [[[rw' n] err]|]; [| done].
      by intros [= <-].
  - unfold Ctx.Send. rewrite Hc. cbn [negb Ctx.bind].
    destruct (Ctx.w c) as [rw|]; [| done]. cbn [Ctx.bind Ctx.deref].
    destruct (Ctx.rwWrite body rw) as [[[rw' n] err]|]; [| done].
    by intros [= <-].
  - unfold Ctx.JSON. rewrite Hc. destruct marshalled as [b|].
    + destruct (Ctx.isFastHTTP c).
      * destruct (Ctx.fctx c); [| done]. cbn [Ctx.bind Ctx.deref fst].
        intros [= <-]. destruct (Ctx.status c =? 0)%Z; apply wroteHeader_lor.
      * cbn [negb Ctx.bind]. destruct (Ctx.w c) as [rw|]; [| done].
        cbn [Ctx.bind Ctx.deref].
        destruct (Ctx.rwWrite b rw) as [[[rw' n] err]|]; [| done].
        by intros [= <-].
    + destruct (Ctx.isFastHTTP c).
      * destruct (Ctx.fctx c); [| done]. by intros [= <-].
      * by intros [= <-].
  - unfold Ctx.Query. destruct (Ctx.isFastHTTP c).
    + destruct (Ctx.fctx c); [| done]. by intros [= <-].
    + destruct (Ctx.r c) as [r|]; [| done]. cbn [Ctx.bind Ctx.deref].
      destruct (String.eqb _ _); cbn [Ctx.bind snd]; [by intros [= <-] |].
      destruct (negb (Ctx.hasQueryCache c)); intros [= <-]; [| done].
      unfold Ctx.wroteHeader in *. rewrite testFlag_set_flags.
      rewrite land_lor_other by done. exact Hc.
  - unfold Ctx.SetRequest. intros [= <-]. by destruct (negb _).
  - unfold Ctx.SetResponseWriter. intros [= <-]. by destruct (negb _).
Qed.

(** X16. Once the header counts as written, it stays so until the next
    reset: no sequence of [Status], [Header], [AddHeader], [SetHeaders],
    [String], [Send], [JSON], [Query], [SetRequest] and [SetResponseWriter]
    that completes clears the flag [WroteHeader] reports. *)
Theorem wroteHeader_stays canonical ops : ∀ c c',
  Ctx.WroteHeader c = true → runOps canonical ops c = Ctx.Done c' →
  Ctx.WroteHeader c' = true.
Proof.
  unfold Ctx.WroteHeader.
  induction ops as [|op ops IH]; intros c c' Hc; cbn [runOps].
  - by intros [= <-].
  - destruct (runOp canonical op c) as [c1|] eqn:Hop; [| done].
    cbn [Ctx.bind]. apply IH. by eapply runOp_wroteHeader.
Qed.

End HeaderFlag.

Lemma wroteHeader_stays_witness :
  Ctx.WroteHeader CtxExamples.pongContext = true
  ∧ ∃ c2,
      runOps id [OpStatus 404; OpHeader "X-Late" "1"; OpString 500 "oops"; OpQuery "q"]
        CtxExamples.pongContext = Ctx.Done c2
      ∧ Ctx.WroteHeader c2 = true.
Proof.
  split; [reflexivity |]. eexists. split; [reflexivity |].
  exact (wroteHeader_stays id
           [OpStatus 404; OpHeader "X-Late" "1"; OpString 500 "oops"; OpQuery "q"]
           CtxExamples.pongContext _ eq_refl eq_refl).
Defined.

Section NetWrites.

Implicit Types (c : Ctx.DefaultContext).

Lemma length_takeBytes n : ∀ s,
  n ≤ String.length s → String.length (Ctx.takeBytes n s) = n.
Proof.
  induction n as [|n IH]; intros [|x s] Hn; simpl in *; try done; try lia.
  rewrite IH; [done | lia].
Qed.

Lemma len_app s t : Ctx.len (s +:+ t) = (Ctx.len s + Ctx.len t)%Z.
Proof. unfold Ctx.len. rewrite length_app. lia. Qed.

(** [Write] on a writer whose status is sent: status and headers stay, the
    body grows by the bytes written; a writer without fault takes them all. *)
Lemma rwWrite_sent b rw sent :
  Ctx.rwSent rw = Some sent →
  ∃ rw' n err,
    Ctx.rwWrite b rw = Ctx.Done (rw', n, err)
    ∧ Ctx.rwSent rw' = Some sent
    ∧ Ctx.rwHeader rw' = Ctx.rwHeader rw
    ∧ Ctx.len (Ctx.rwBody rw') = (Ctx.len (Ctx.rwBody rw) + n)%Z
    ∧ (Ctx.rwFault rw = None →
       err = None ∧ n = Ctx.len b ∧ Ctx.rwBody rw' = Ctx.rwBody rw +:+ b
       ∧ Ctx.rwFault rw' = None).
Proof.
  intros Hsent. unfold Ctx.rwWrite, Ctx.rwWriteHeader. rewrite Hsent.
  cbn [Ctx.bind]. destruct (Ctx.rwFault rw) as [[room e]|] eqn:Hfault.
  - destruct (Nat.leb_spec (String.length b) room) as [Hle | Hgt].
    + do 3 eexists. split; [reflexivity |]. cbn.
      split_and!; try done. apply len_app.
    + do 3 eexists. split; [reflexivity |]. cbn.
      split_and!; try done. rewrite len_app. unfold Ctx.len.
      rewrite length_takeBytes by lia. done.
  - do 3 eexists. split; [reflexivity |]. cbn.
    split_and!; try done. apply len_app.
Qed.

(** [String] on a context in [net/http] mode whose header is not written,
    with a status the writer accepts. *)
Lemma String_net_first c rw code body :
  Ctx.flags c = Ctx.flagJSONEscape → Ctx.w c = Some rw → Ctx.rwSent rw = None →
  (100 ≤ code ≤ 999)%Z →
  ∃ c1 w1 n err,
    Ctx.String code body c = Ctx.Done (c1, err)
    ∧ Ctx.w c1 = Some w1
    ∧ Ctx.flags c1 = Z.lor Ctx.flagJSONEscape Ctx.flagWroteHeader
    ∧ Ctx.status c1 = Ctx.status c
    ∧ Ctx.wroteBytes c1 = (Ctx.wroteBytes c + n)%Z
    ∧ Ctx.rwSent w1 = Some (code, Ctx.rwHeader w1)
    ∧ Ctx.rwHeader w1 !! Ctx.headerContentLength
      = Some [Ctx.fastContentLength (String.length body)]
    ∧ Ctx.len (Ctx.rwBody w1) = (Ctx.len (Ctx.rwBody rw) + n)%Z
    ∧ (Ctx.rwFault rw = None →
       err = None ∧ n = Ctx.len body ∧ Ctx.rwBody w1 = Ctx.rwBody rw +:+ body
       ∧ Ctx.rwFault w1 = None).
Proof.
  intros Hfl Hw Hsent Hcode.
  assert (Hok : (code <? 100)%Z || (999 <? code)%Z = false).
  { apply orb_false_iff. split; apply Z.ltb_ge; lia. }
  set (rw0 := Ctx.rwSetHeader
                (λ h, <[Ctx.headerContentLength
                        := [Ctx.fastContentLength (String.length body)]]> h)
                (if String.eqb (Ctx.valuesGet (Ctx.rwHeader rw) Ctx.headerContentType) ""
                 then Ctx.rwSetHeader
                        (λ h, <[Ctx.headerContentType := [Ctx.headerContentTypeText]]> h) rw
                 else rw)).
  assert (Hsent0 : Ctx.rwSent rw0 = None) by (subst rw0; by destruct (String.eqb _ _)).
  assert (Hbody0 : Ctx.rwBody rw0 = Ctx.rwBody rw)
    by (subst rw0; by destruct (String.eqb _ _)).
  assert (Hfault0 : Ctx.rwFault rw0 = Ctx.rwFault rw)
    by (subst rw0; by destruct (String.eqb _ _)).
  assert (Hcl0 : Ctx.rwHeader rw0 !! Ctx.headerContentLength
                 = Some [Ctx.fastContentLength (String.length body)]).
  { subst rw0. cbn [Ctx.rwSetHeader Ctx.rwHeader]. apply lookup_insert_eq. }
  set (rw1 := {| Ctx.rwHeader := Ctx.rwHeader rw0;
                 Ctx.rwSent := Some (code, Ctx.rwHeader rw0);
                 Ctx.rwBody := Ctx.rwBody rw0; Ctx.rwFault := Ctx.rwFault rw0 |}).
  assert (Hhdr : Ctx.rwWriteHeader code rw0 = Ctx.Done rw1).
  { unfold Ctx.rwWriteHeader. by rewrite Hsent0, Hok. }
  destruct (rwWrite_sent body rw1 (code, Ctx.rwHeader rw0) eq_refl)
    as (rw' & n & err & Hwrite & Hs' & Hh' & Hlen & Hno).
  exists (Ctx.set_wroteBytes (Ctx.wroteBytes c + n)
            (Ctx.set_w (Some rw') (Ctx.setWroteHeader true (Ctx.set_w (Some rw1) c)))),
         rw', n, err.
  split.
  { unfold Ctx.String, Ctx.isFastHTTP, Ctx.wroteHeader, Ctx.testFlag.
    rewrite Hfl, Hw.
    change (negb (Z.land Ctx.flagJSONEscape Ctx.flagIsFastHTTP =? 0)%Z) with false.
    change (negb (Z.land Ctx.flagJSONEscape Ctx.flagWroteHeader =? 0)%Z) with false.
    cbn [negb Ctx.bind Ctx.deref]. cbv zeta.
    change (Ctx.rwWriteHeader code _) with (Ctx.rwWriteHeader code rw0).
    rewrite Hhdr.
    cbn [Ctx.bind Ctx.deref Ctx.w Ctx.set_w Ctx.setWroteHeader Ctx.setFlag Ctx.set_flags].
    by rewrite Hwrite. }
  clearbody rw0.
  split; [reflexivity |].
  split; [cbn; by rewrite Hfl |].
  split; [reflexivity |].
  split; [reflexivity |].
  split; [by rewrite Hs', Hh' |].
  split; [by rewrite Hh' |].
  split; [rewrite Hlen; cbn; by rewrite Hbody0 |].
  intros Hnone. destruct Hno as (He & Hn & Hb & Hf); [cbn; by rewrite Hfault0 |].
  split_and!; try done. rewrite Hb. cbn. by rewrite Hbody0.
Qed.

(** [String] on a context in [net/http] mode whose header is not written,
    with a status the writer refuses. *)
Lemma String_net_invalid c rw code body :
  Ctx.flags c = Ctx.flagJSONEscape → Ctx.w c = Some rw → Ctx.rwSent rw = None →
  (code < 100 ∨ 999 < code)%Z →
  Ctx.String code body c = Ctx.Panic.
Proof.
  intros Hfl Hw Hsent Hcode.
  assert (Hbad : (code <? 100)%Z || (999 <? code)%Z = true).
  { apply orb_true_iff. destruct Hcode; [left | right]; by apply Z.ltb_lt. }
  unfold Ctx.String, Ctx.isFastHTTP, Ctx.wroteHeader, Ctx.testFlag.
  rewrite Hfl, Hw.
  change (negb (Z.land Ctx.flagJSONEscape Ctx.flagIsFastHTTP =? 0)%Z) with false.
  change (negb (Z.land Ctx.flagJSONEscape Ctx.flagWroteHeader =? 0)%Z) with false.
  cbn [negb Ctx.bind Ctx.deref]. cbv zeta. unfold Ctx.rwWriteHeader at 1.
  destruct (String.eqb _ _); cbn [Ctx.rwSetHeader Ctx.rwSent];
    by rewrite Hsent, Hbad.
Qed.




(** [String] on a context in [fasthttp] mode. *)
Lemma String_fast_fields c f code body :
  Ctx.flags c = Z.lor Ctx.flagJSONEscape Ctx.flagIsFastHTTP → Ctx.fctx c = Some f →
  ∃ c1,
    Ctx.String code body c = Ctx.Done (c1, None)
    ∧ Ctx.status c1 = Ctx.status c
    ∧ Ctx.WroteHeader c1 = true
    ∧ Ctx.fStatusCode <$> Ctx.fctx c1 = Some code.
Proof.
  intros Hfl Hf. destruct c as [w0 r0 f0 pa psl pc st wb ro fl qc al rb jb].
  simpl in Hfl, Hf. subst fl f0. unfold Ctx.String. cbn. eexists. by split_and!.
Qed.

(** X18. [String] sends its status but does not stage it: after
    [String(code, body)] on a freshly reset context [StatusCode] reports
    200 whatever [code] is, while the transport has [code]; through
    [fasthttp] for every [code], through [net/http] for every final status
    (200 to 999). A code below 100 or above 999 makes [String] panic
    through [net/http], in [WriteHeader]. *)
Theorem StatusCode_after_String w r f ps route lg c code body :
  Ctx.rwSent w = None →
  ∃ cf,
    Ctx.String code body (Ctx.ResetFastHTTP f ps route lg c) = Ctx.Done (cf, None)
    ∧ Ctx.StatusCode cf = 200%Z
    ∧ Ctx.fStatusCode <$> Ctx.fctx cf = Some code
    ∧ ((200 ≤ code ≤ 999)%Z →
       ∃ cn en,
         Ctx.String code body (Ctx.Reset w r ps route lg c) = Ctx.Done (cn, en)
         ∧ Ctx.StatusCode cn = 200%Z
         ∧ fst <$> (Ctx.w cn ≫= Ctx.rwSent) = Some code)
    ∧ ((code < 100 ∨ 999 < code)%Z →
       Ctx.String code body (Ctx.Reset w r ps route lg c) = Ctx.Panic).
Proof.
  intros Hsent.
  pose proof (Reset_fields w r ps route lg c) as (Hst & _ & Hfl & Hw & _).
  pose proof (ResetFastHTTP_fields f ps route lg c) as (Hst' & _ & Hfl' & _ & _ & Hf & _).
  generalize dependent (Ctx.ResetFastHTTP f ps route lg c). intros cf0 Hst' Hfl' Hf.
  generalize dependent (Ctx.Reset w r ps route lg c). intros cn0 Hst Hfl Hw.
  destruct (String_fast_fields cf0 f code body Hfl' Hf) as (cf & H2 & Hst2 & Hwh & Hcode).
  exists cf. split_and!; try done.
  - unfold Ctx.StatusCode. rewrite Hst2, Hst'. unfold Ctx.WroteHeader in Hwh.
    by rewrite Hwh.
  - intros Hrange.
    destruct (String_net_first cn0 w code body Hfl Hw Hsent ltac:(lia))
      as (cn & w1 & n & en & H1 & Hw1 & Hfl1 & Hst1 & _ & Hs1 & _).
    exists cn, en. split_and!; try done.
    + unfold Ctx.StatusCode, Ctx.wroteHeader, Ctx.testFlag.
      by rewrite Hst1, Hst, Hfl1.
    + rewrite Hw1. simpl. by rewrite Hs1.
  - intros Hbad. by apply (String_net_invalid cn0 w).
Qed.

Lemma StatusCode_after_String_witness :
  Ctx.rwSent CtxExamples.writer0 = None ∧ (200 ≤ 404 ≤ 999)%Z
  ∧ ∃ cn en,
      Ctx.String 404 "missing" CtxExamples.netContext = Ctx.Done (cn, en)
      ∧ Ctx.StatusCode cn = 200%Z
      ∧ fst <$> (Ctx.w cn ≫= Ctx.rwSent) = Some 404%Z.
Proof.
  split; [reflexivity |]. split; [lia |].
  destruct (StatusCode_after_String CtxExamples.writer0 (CtxExamples.request "/ping")
              CtxExamples.fast0 [] "/ping" [] Ctx.zeroContext 404 "missing" eq_refl)
    as (cf & _ & _ & _ & Hnet & _).
  exact (Hnet ltac:(lia)).
Defined.

(** [Query] through [net/http] on a request with a query string. *)
Lemma Query_net c rq key :
  Ctx.isFastHTTP c = false → Ctx.r c = Some rq → Ctx.reqRawQuery rq ≠ "" →
  Ctx.Query key c
  = (let c' := if negb (Ctx.hasQueryCache c)
               then Ctx.setHasQueryCache true (Ctx.set_queryCache (Some (Ctx.reqQuery rq)) c)
               else c in
     Ctx.Done (Ctx.valuesGet (default ∅ (Ctx.queryCache c')) key, c')).
Proof.
  intros Hf Hr Hq. apply String.eqb_neq in Hq.
  unfold Ctx.Query. rewrite Hf, Hr. simpl. by rewrite Hq.
Qed.

(** X19. The query string is parsed once: after a first [Query] on a
    context reset for a request with a query string, later calls answer
    from the values parsed then, also when [SetRequest] has put another
    request in place in between. *)
Theorem Query_memoized w r r2 ps route lg c k1 k2 :
  Ctx.reqRawQuery r ≠ "" → Ctx.reqRawQuery r2 ≠ "" →
  ∃ c1,
    Ctx.Query k1 (Ctx.Reset w r ps route lg c)
    = Ctx.Done (Ctx.valuesGet (Ctx.reqQuery r) k1, c1)
    ∧ Ctx.Request (Ctx.SetRequest (Some r2) c1) = Some r2
    ∧ queried (Ctx.Query k2 (Ctx.SetRequest (Some r2) c1))
      = Ctx.Done (Ctx.valuesGet (Ctx.reqQuery r) k2).
Proof.
  intros Hq Hq2.
  pose proof (Reset_fields w r ps route lg c) as (_ & _ & Hfl & _ & Hr & _).
  generalize dependent (Ctx.Reset w r ps route lg c). intros cn Hfl Hr.
  assert (Hfast : Ctx.isFastHTTP cn = false).
  { unfold Ctx.isFastHTTP, Ctx.testFlag. by rewrite Hfl. }
  assert (Hcache : Ctx.hasQueryCache cn = false).
  { unfold Ctx.hasQueryCache, Ctx.testFlag. by rewrite Hfl. }
  set (c1 := Ctx.setHasQueryCache true (Ctx.set_queryCache (Some (Ctx.reqQuery r)) cn)).
  assert (Hfast1 : Ctx.isFastHTTP c1 = false).
  { unfold c1, Ctx.isFastHTTP, Ctx.setHasQueryCache.
    rewrite testFlag_setFlag_other by done. exact Hfast. }
  assert (Hcache1 : Ctx.hasQueryCache c1 = true).
  { unfold c1, Ctx.hasQueryCache, Ctx.setHasQueryCache. by apply testFlag_setFlag. }
  assert (Hqc : Ctx.queryCache c1 = Some (Ctx.reqQuery r)) by reflexivity.
  exists c1. split.
  { rewrite (Query_net cn r k1 Hfast Hr Hq). cbv zeta. by rewrite Hcache. }
  clearbody c1.
  assert (Hset : Ctx.SetRequest (Some r2) c1 = Ctx.set_r (Some r2) c1).
  { unfold Ctx.SetRequest. by rewrite Hfast1. }
  rewrite Hset. split.
  { unfold Ctx.Request.
    change (Ctx.isFastHTTP (Ctx.set_r (Some r2) c1)) with (Ctx.isFastHTTP c1).
    by rewrite Hfast1. }
  rewrite (Query_net (Ctx.set_r (Some r2) c1) r2 k2 Hfast1 eq_refl Hq2). cbv zeta.
  change (Ctx.hasQueryCache (Ctx.set_r (Some r2) c1)) with (Ctx.hasQueryCache c1).
  rewrite Hcache1. cbn [negb queried Ctx.bind fst].
  change (Ctx.queryCache (Ctx.set_r (Some r2) c1)) with (Ctx.queryCache c1).
  by rewrite Hqc.
Qed.

Lemma Query_memoized_witness :
  Ctx.reqRawQuery CtxExamples.searchRequest ≠ ""
  ∧ ∃ c1,
      Ctx.Query "q" (Ctx.Reset CtxExamples.writer0 CtxExamples.searchRequest []
                       "/search" [] Ctx.zeroContext)
      = Ctx.Done ("go", c1)
      ∧ queried (Ctx.Query "q"
                   (Ctx.SetRequest
                      (Some {| Ctx.reqMethod := "GET"; Ctx.reqPath := "/search";
                               Ctx.reqRawQuery := "q=rust";
                               Ctx.reqQuery := {[ "q" := ["rust"] ]} |}) c1))
        = Ctx.Done "go".
Proof.
  split; [done |].
  destruct (Query_memoized CtxExamples.writer0 CtxExamples.searchRequest
              {| Ctx.reqMethod := "GET"; Ctx.reqPath := "/search";
                 Ctx.reqRawQuery := "q=rust";
                 Ctx.reqQuery := {[ "q" := ["rust"] ]} |}
              [] "/search" [] Ctx.zeroContext "q" "q" ltac:(done) ltac:(done))
    as (c1 & H1 & _ & H2).
  exists c1. split; [exact H1 | exact H2].
Defined.

End NetWrites.

(** ** The sanitizing accessors *)

Section SanitizerFacts.

Implicit Types (keep : ascii → bool) (s : string) (c : Ctx.DefaultContext).

Lemma keepRunes_allRunes keep s : allRunes keep (keepRunes keep s) = true.
Proof.
  induction s as [|x s IH]; [done |]. simpl.
  destruct (keep x) eqn:E; [| done]. simpl. by rewrite E.
Qed.

Lemma keepRunes_id keep s : allRunes keep s = true → keepRunes keep s = s.
Proof.
  induction s as [|x s IH]; [done |]. simpl.
  intros [-> Hs]%andb_true_iff. by rewrite IH.
Qed.

Lemma allRunes_drop keep n : ∀ s,
  allRunes keep s = true → allRunes keep (Str.drop n s) = true.
Proof.
  induction n as [|n IH]; intros [|x s]; simpl; try done.
  intros [_ Hs]%andb_true_iff. by apply IH.
Qed.

Lemma allRunes_TrimPrefix keep s p :
  allRunes keep s = true → allRunes keep (Str.TrimPrefix s p) = true.
Proof.
  unfold Str.TrimPrefix. destruct (Str.HasPrefix s p); [apply allRunes_drop | done].
Qed.

(** A string of bytes that pass a test holds no byte that fails it. *)
Lemma allRunes_contains keep x s :
  keep x = false → allRunes keep s = true → Str.contains x s = false.
Proof.
  intros Hx. induction s as [|y s IH]; [done |]. simpl.
  intros [Hy Hs]%andb_true_iff. rewrite IH by done.
  destruct (Ascii.eqb_spec y x) as [-> |]; [congruence | done].
Qed.

Lemma safeFilename_chars unescape value :
  allRunes isFilenameChar (safeFilename unescape value) = true.
Proof. unfold safeFilename. apply allRunes_TrimPrefix, keepRunes_allRunes. Qed.

Lemma Reset_Param w r ps route lg c name :
  length (Ctx.params c) = 32 →
  Ctx.Param name (Ctx.Reset w r ps route lg c) = Ctx.Done (Ctx.ByName ps name).
Proof. intros Hlen. unfold Ctx.Reset. cbv zeta. by apply resetCommon_Param. Qed.

(** X20. [ParamAlphaNum] on a context reset for a request returns the
    route parameter with every byte dropped that is not an ASCII letter or
    digit: the result holds letters and digits only, and a parameter made
    of letters and digits comes back unchanged. *)
Theorem ParamAlphaNum_sanitizes w r ps route lg c name :
  length (Ctx.params c) = 32 →
  ∃ s,
    ParamAlphaNum name (Ctx.Reset w r ps route lg c) = Ctx.Done s
    ∧ s = keepRunes isAlphaNum (Ctx.ByName ps name)
    ∧ allRunes isAlphaNum s = true
    ∧ (allRunes isAlphaNum (Ctx.ByName ps name) = true → s = Ctx.ByName ps name).
Proof.
  intros Hlen. exists (keepRunes isAlphaNum (Ctx.ByName ps name)).
  split_and!; [| done | apply keepRunes_allRunes | apply keepRunes_id].
  unfold ParamAlphaNum. rewrite Reset_Param by done. cbn [Ctx.bind].
  by destruct (String.eqb_spec (Ctx.ByName ps name) "") as [-> |].
Qed.

Lemma ParamAlphaNum_sanitizes_witness :
  length (Ctx.params Ctx.zeroContext) = 32
  ∧ ParamAlphaNum "id"
      (Ctx.Reset CtxExamples.writer0 (CtxExamples.request "/users/abc123..;x")
         [ {| Key := "id"; Value := "abc123..;x" |} ] "/users/:id" []
         Ctx.zeroContext)
    = Ctx.Done "abc123x".
Proof.
  split; [reflexivity |].
  destruct (ParamAlphaNum_sanitizes CtxExamples.writer0
              (CtxExamples.request "/users/abc123..;x")
              [ {| Key := "id"; Value := "abc123..;x" |} ] "/users/:id" []
              Ctx.zeroContext "id" eq_refl) as (s & -> & -> & _).
  reflexivity.
Defined.

(** X21. Whatever [url.QueryUnescape] answers, [ParamFilename] and
    [QueryFilename] on a context reset for a request return a text of ASCII
    letters, digits, dots, dashes and underscores: it holds no slash and no
    backslash. *)
Theorem filename_no_separator unescape w r ps route lg c name key :
  length (Ctx.params c) = 32 →
  (∃ s,
     ParamFilename unescape name (Ctx.Reset w r ps route lg c) = Ctx.Done s
     ∧ allRunes isFilenameChar s = true
     ∧ Str.contains "/" s = false ∧ Str.contains "\" s = false)
  ∧ (∃ s c',
       QueryFilename unescape key (Ctx.Reset w r ps route lg c) = Ctx.Done (s, c')
       ∧ allRunes isFilenameChar s = true
       ∧ Str.contains "/" s = false ∧ Str.contains "\" s = false).
Proof.
  intros Hlen.
  assert (Hsafe : ∀ s, allRunes isFilenameChar s = true →
                       allRunes isFilenameChar s = true
                       ∧ Str.contains "/" s = false ∧ Str.contains "\" s = false).
  { intros s Hs. split; [done |]. split; by apply (allRunes_contains isFilenameChar). }
  split.
  - unfold ParamFilename. rewrite Reset_Param by done. cbn [Ctx.bind].
    destruct (String.eqb (Ctx.ByName ps name) "").
    + exists "". split; [done |]. by apply Hsafe.
    + eexists. split; [done |]. apply Hsafe, safeFilename_chars.
  - pose proof (Reset_fields w r ps route lg c) as (_ & _ & Hfl & _ & Hr & _).
    generalize dependent (Ctx.Reset w r ps route lg c). intros cn Hfl Hr.
    unfold QueryFilename, Ctx.Query, Ctx.isFastHTTP, Ctx.testFlag.
    rewrite Hfl, Hr. cbn [Ctx.bind Ctx.deref].
    change (negb (Z.land Ctx.flagJSONEscape Ctx.flagIsFastHTTP =? 0)%Z) with false.
    cbv iota. cbn [Ctx.bind Ctx.deref].
    destruct (String.eqb (Ctx.reqRawQuery r) ""); cbn [Ctx.bind].
    + exists "", cn. split; [done |]. by apply Hsafe.
    + cbv zeta. destruct (String.eqb _ "").
      * eexists "", _. split; [done |]. by apply Hsafe.
      * eexists _, _. split; [done |]. apply Hsafe, safeFilename_chars.
Qed.

Lemma filename_no_separator_witness :
  length (Ctx.params Ctx.zeroContext) = 32
  ∧ ParamFilename Some "name"
      (Ctx.Reset CtxExamples.writer0 (CtxExamples.request "/files/a/../b.txt")
         [ {| Key := "name"; Value := "a/../b.txt" |} ] "/files/*name" []
         Ctx.zeroContext)
    = Ctx.Done "a..b.txt".
Proof.
  split; [reflexivity |].
  destruct (filename_no_separator Some CtxExamples.writer0
              (CtxExamples.request "/files/a/../b.txt")
              [ {| Key := "name"; Value := "a/../b.txt" |} ] "/files/*name" []
              Ctx.zeroContext "name" "f" eq_refl) as ((s & Hs & _) & _).
  reflexivity.
Defined.

(** X22. [ParamFilename] removes one leading dot only: a parameter whose
    decoded text starts with two dots gives a name that still starts with
    a dot, followed by the filename bytes of the rest. *)
Theorem filename_keeps_second_dot unescape w r ps route lg c name rest :
  length (Ctx.params c) = 32 →
  default (Ctx.ByName ps name) (unescape (Ctx.ByName ps name)) = ".." +:+ rest →
  Ctx.ByName ps name ≠ "" →
  ParamFilename unescape name (Ctx.Reset w r ps route lg c)
  = Ctx.Done ("." +:+ keepRunes isFilenameChar rest).
Proof.
  intros Hlen Hdec Hne. unfold ParamFilename. rewrite Reset_Param by done.
  cbn [Ctx.bind]. apply String.eqb_neq in Hne. rewrite Hne.
  unfold safeFilename. cbv zeta. rewrite Hdec.
  change (keepRunes isFilenameChar (".." +:+ rest))
    with ("." +:+ ("." +:+ keepRunes isFilenameChar rest)).
  by rewrite TrimPrefix_app.
Qed.

Lemma filename_keeps_second_dot_witness :
  length (Ctx.params Ctx.zeroContext) = 32
  ∧ ParamFilename Some "name"
      (Ctx.Reset CtxExamples.writer0 (CtxExamples.request "/files/..secret")
         [ {| Key := "name"; Value := "..secret" |} ] "/files/:name" []
         Ctx.zeroContext)
    = Ctx.Done ".secret".
Proof.
  split; [reflexivity |].
  exact (filename_keeps_second_dot Some CtxExamples.writer0
           (CtxExamples.request "/files/..secret")
           [ {| Key := "name"; Value := "..secret" |} ] "/files/:name" []
           Ctx.zeroContext "name" "secret" eq_refl eq_refl ltac:(done)).
Defined.

End SanitizerFacts.

(** ** Mounted [net/http] handlers *)

Section MountFacts.

Implicit Types (c : Ctx.DefaultContext) (h : http_Handler).

Lemma httpWrapper_fast h c :
  Ctx.isFastHTTP c = true → httpWrapper h c = (c, None).
Proof. intros H. unfold httpWrapper, Ctx.Request. by rewrite H. Qed.

Lemma httpWrapper_net h c w r :
  Ctx.isFastHTTP c = false → Ctx.w c = Some w → Ctx.r c = Some r →
  httpWrapper h c = (Ctx.set_w (Some (h w r)) c, None).
Proof.
  intros H Hw Hr. unfold httpWrapper, Ctx.Request, Ctx.ResponseWriter.
  by rewrite H, Hw, Hr.
Qed.

Lemma Mount_simple dE dN dM path h m :
  containsParams path = false → m ∈ commonMethods →
  simple (router (Mount (New dE dN dM) path h)) !! (m +:+ ":" +:+ path)
  = Some (httpWrapper h).
Proof.
  intros Hp Hin.
  assert (Hcf : colon_free m).
  { by apply (proj1 (Forall_forall _ _) commonMethods_colon_free). }
  pose proof (bare_fold commonMethods (New dE dN dM) path (httpWrapper h) m eq_refl Hp
                commonMethods_colon_free Hcf) as (Hs & _).
  rewrite bool_decide_eq_true_2 in Hs by done. exact Hs.
Qed.

(** X23. A handler mounted with [Mount] on a static path answers nothing
    through [fasthttp]: under each of the seven methods the request is
    routed to the wrapper, which returns nil and leaves the context as the
    reset made it. *)
Theorem Mount_fasthttp_silent dE dN dM path h v m f lg c :
  containsParams path = false → m ∈ commonMethods →
  let a := Mount (New dE dN dM) path h in
  ServeFastHTTP (λ ps route, Ctx.ResetFastHTTP f ps route lg c) v a m path
  = (Ctx.ResetFastHTTP f [] path lg c, a).
Proof.
  intros Hp Hin a. subst a.
  unfold ServeFastHTTP, serve, resolve.
  rewrite routeKeyOf_eq, Mount_simple by done.
  cbn [run resetParams resetRoute].
  pose proof (ResetFastHTTP_fields f [] path lg c) as (_ & _ & Hfl & _).
  generalize dependent (Ctx.ResetFastHTTP f [] path lg c). intros cf Hfl.
  rewrite httpWrapper_fast; [done |].
  unfold Ctx.isFastHTTP, Ctx.testFlag. by rewrite Hfl.
Qed.

(** X24. Through [net/http] a mounted handler is given the writer and the
    request of the reset context, and the context does not record what it
    wrote: afterwards [WroteHeader] is false and [StatusCode] is 0. *)
Theorem Mount_net_untracked dE dN dM path h v m w r lg c :
  containsParams path = false → m ∈ commonMethods →
  let a := Mount (New dE dN dM) path h in
  ∃ c',
    ServeHTTP (λ ps route, Ctx.Reset w r ps route lg c) v a m path = (c', a)
    ∧ Ctx.ResponseWriter c' = Some (h w r)
    ∧ Ctx.WroteHeader c' = false
    ∧ Ctx.StatusCode c' = 0%Z.
Proof.
  intros Hp Hin a. subst a.
  unfold ServeHTTP, serve, resolve.
  rewrite routeKeyOf_eq, Mount_simple by done.
  cbn [run resetParams resetRoute].
  pose proof (Reset_fields w r [] path lg c) as (Hst & _ & Hfl & Hw & Hr & _).
  generalize dependent (Ctx.Reset w r [] path lg c). intros cn Hst Hfl Hw Hr.
  assert (Hfast : Ctx.isFastHTTP cn = false).
  { unfold Ctx.isFastHTTP, Ctx.testFlag. by rewrite Hfl. }
  rewrite (httpWrapper_net h cn w r) by done.
  eexists. split; [reflexivity |].
  unfold Ctx.ResponseWriter, Ctx.WroteHeader, Ctx.StatusCode, Ctx.wroteHeader,
    Ctx.isFastHTTP, Ctx.testFlag.
  cbn [Ctx.set_w Ctx.flags Ctx.w Ctx.status]. by rewrite Hfl, Hst.
Qed.

End MountFacts.

Lemma Mount_fasthttp_silent_witness :
  let a := Mount MoreExamples.contextNew "/legacy" MoreExamples.legacyHandler in
  containsParams "/legacy" = false ∧ "PUT" ∈ commonMethods
  ∧ ServeFastHTTP (λ ps route, Ctx.ResetFastHTTP CtxExamples.fast0 ps route []
                                 Ctx.zeroContext)
      (visitDefault a) a "PUT" "/legacy"
    = (Ctx.ResetFastHTTP CtxExamples.fast0 [] "/legacy" [] Ctx.zeroContext, a).
Proof.
  intros a. split; [reflexivity |].
  assert (Hin : "PUT" ∈ commonMethods) by (unfold commonMethods; set_solver).
  split; [exact Hin |].
  exact (Mount_fasthttp_silent _ _ _ "/legacy" MoreExamples.legacyHandler
           (visitDefault a) "PUT" CtxExamples.fast0 [] Ctx.zeroContext eq_refl Hin).
Defined.

Lemma Mount_net_untracked_witness :
  let a := Mount MoreExamples.contextNew "/legacy" MoreExamples.legacyHandler in
  containsParams "/legacy" = false ∧ "GET" ∈ commonMethods
  ∧ ∃ c' w',
      ServeHTTP (λ ps route, Ctx.Reset CtxExamples.writer0 (CtxExamples.request "/legacy")
                               ps route [] Ctx.zeroContext)
        (visitDefault a) a "GET" "/legacy" = (c', a)
      ∧ Ctx.ResponseWriter c' = Some w'
      ∧ Ctx.rwSent w' = Some (200%Z, ∅)
      ∧ Ctx.WroteHeader c' = false
      ∧ Ctx.StatusCode c' = 0%Z.
Proof.
  intros a. split; [reflexivity |].
  assert (Hin : "GET" ∈ commonMethods) by (unfold commonMethods; set_solver).
  split; [exact Hin |].
  destruct (Mount_net_untracked (λ c _, c) (λ c, (c, None)) (λ c, (c, None))
              "/legacy" MoreExamples.legacyHandler (visitDefault a) "GET"
              CtxExamples.writer0 (CtxExamples.request "/legacy") [] Ctx.zeroContext
              eq_refl Hin) as (c' & H1 & H2 & H3 & H4).
  exists c', (MoreExamples.legacyHandler CtxExamples.writer0 (CtxExamples.request "/legacy")).
  by split_and!.
Defined.
